(** * Housing pipeline backend: funding aggregation, recommendations,
      time billing and SharePoint site provisioning.

    A shallow embedding of the Flask route handlers and of the SharePoint
    service.  The relational store is a record of tables (lists of rows);
    ORM relationships ([project.applications], [app.funding_source]) are
    explicit lookups through the foreign keys.  A [Float] column holds the
    rational its double denotes ([Q], compared with [==]); sums and
    products of such columns are written in the order in which the code
    evaluates them and are not rounded, while the conversions [float(x)]
    and the quotient behind the success rate are rounded to the nearest
    double ([Float64]). *)

From Stdlib Require Import List Bool ZArith QArith Qround Qpower Qabs String Ascii Lia.
From Stdlib Require Import Permutation Sorted DecimalString Lqa.
From Stdlib Require SpecFloat.
Import ListNotations.

Local Open Scope Q_scope.

(** ** Python helpers *)

Module Py.

(** [x or 0] on a nullable numeric column: [None] and zero are falsy. *)
Definition or_zero (x : option Q) : Q :=
  match x with
  | Some v => if Qeq_bool v 0 then 0 else v
  | None => 0
  end.

(** [sum(l)]: left to right, starting from [0]. *)
Definition sum (l : list Q) : Q := fold_left Qplus l 0.

(** Truthiness of a nullable string: [None] and the empty string are falsy. *)
Definition truthy_str (s : option string) : bool :=
  match s with
  | Some EmptyString => false
  | Some _ => true
  | None => false
  end.

(** Truthiness of a nullable number. *)
Definition truthy_num (x : option Q) : bool :=
  match x with
  | Some v => negb (Qeq_bool v 0)
  | None => false
  end.

Definition truthy_int (x : option Z) : bool :=
  match x with
  | Some v => negb (v =? 0)%Z
  | None => false
  end.

End Py.

(** ** Double-precision numbers *)

Module Float64.

(** Rounding to the nearest integer, a tie going to the even one. *)
Definition round_half_even (q : Q) : Z :=
  let f := Qfloor q in
  match Qcompare (q - inject_Z f) (1 # 2) with
  | Lt => f
  | Gt => (f + 1)%Z
  | Eq => if Z.even f then f else (f + 1)%Z
  end.

(** The integer [e] with [2^e <= q < 2^(e+1)], for [0 < q]. *)
Definition ilog2 (q : Q) : Z :=
  let e := (Z.log2 (Qnum q) - Z.log2 (Z.pos (Qden q)))%Z in
  if Qle_bool (2 ^ e) q then e else (e - 1)%Z.

(** The spacing of the doubles around [q]: 53 significant bits, and the
    fixed spacing [2^-1074] of the subnormal range. *)
Definition ulp (q : Q) : Q := 2 ^ (Z.max (ilog2 (Qabs q)) (-1022) - 52).

(** The double nearest to [q], a tie going to the even significand
    (IEEE 754 binary64, round to nearest even), for [q] below the overflow
    threshold. *)
Definition round (q : Q) : Q :=
  if Qeq_bool q 0 then 0 else inject_Z (round_half_even (q / ulp q)) * ulp q.

(** [a / b] and [a * b] on doubles (and [a / b] on integers, which Python
    rounds once). *)
Definition div (a b : Q) : Q := round (a / b).

Definition mul (a b : Q) : Q := round (a * b).

(** [float(i)] on an integer; [None] is [OverflowError]. *)
Definition of_int (i : Z) : option Q :=
  let x := round (inject_Z i) in
  if Qle_bool (2 ^ 1024) (Qabs x) then None else Some x.

(** The same quotient and product in the Standard Library's
    specification of IEEE 754 arithmetic, to compare [round] with. *)
Definition of_spec (x : SpecFloat.spec_float) : Q :=
  match x with
  | SpecFloat.S754_finite s m e =>
      (if s then - (1) else 1) * inject_Z (Z.pos m) * 2 ^ e
  | _ => 0
  end.

Definition spec_of_nat (n : nat) : SpecFloat.spec_float :=
  SpecFloat.binary_normalize 53 1024 (Z.of_nat n) 0 false.

Definition spec_percentage (a b : nat) : Q :=
  of_spec (SpecFloat.SFmul 53 1024
             (SpecFloat.SFdiv 53 1024 (spec_of_nat a) (spec_of_nat b))
             (spec_of_nat 100)).

End Float64.

(** ** src/models/database.py *)

Module Database.

Inductive ProjectPhase :=
| PRE_DEVELOPMENT | APPLICATION_FINANCING | CONSTRUCTION | LEASE_UP_COMPLIANCE.

Definition ProjectPhase_value (p : ProjectPhase) : string :=
  match p with
  | PRE_DEVELOPMENT => "Pre-Development"
  | APPLICATION_FINANCING => "Application/Financing"
  | CONSTRUCTION => "Construction"
  | LEASE_UP_COMPLIANCE => "Lease-Up/Compliance"
  end.

Definition all_phases : list ProjectPhase :=
  [PRE_DEVELOPMENT; APPLICATION_FINANCING; CONSTRUCTION; LEASE_UP_COMPLIANCE].

Definition ProjectPhase_eqb (a b : ProjectPhase) : bool :=
  String.eqb (ProjectPhase_value a) (ProjectPhase_value b).

(** [ProjectPhase(s)]: lookup by value, [None] stands for [ValueError]. *)
Definition ProjectPhase_of_value (s : string) : option ProjectPhase :=
  find (fun p => String.eqb (ProjectPhase_value p) s) all_phases.

Inductive FundingSourceType :=
| LIHTC_9_PERCENT | LIHTC_4_PERCENT | FHLB_AHP | ORCA | HOME | PDLP
| CONGRESSIONAL_CIP.

Definition FundingSourceType_value (t : FundingSourceType) : string :=
  match t with
  | LIHTC_9_PERCENT => "LIHTC 9%"
  | LIHTC_4_PERCENT => "LIHTC 4%"
  | FHLB_AHP => "FHLB AHP"
  | ORCA => "ORCA"
  | HOME => "HOME"
  | PDLP => "PDLP"
  | CONGRESSIONAL_CIP => "Congressional/CIP"
  end.

Inductive ApplicationStatus :=
| DRAFT | SUBMITTED | UNDER_REVIEW | APPROVED | DENIED | WITHDRAWN.

Definition ApplicationStatus_value (s : ApplicationStatus) : string :=
  match s with
  | DRAFT => "Draft"
  | SUBMITTED => "Submitted"
  | UNDER_REVIEW => "Under Review"
  | APPROVED => "Approved"
  | DENIED => "Denied"
  | WITHDRAWN => "Withdrawn"
  end.

Definition ApplicationStatus_eqb (a b : ApplicationStatus) : bool :=
  String.eqb (ApplicationStatus_value a) (ApplicationStatus_value b).

(** Row of [projects].  The table has no column for the identifier of
    the Microsoft 365 group: the attribute [sharepoint_group_id] that the
    create-site route assigns is not written to the store. *)
Record Project := {
  p_id : Z;
  p_name : string;
  p_city : option string;
  p_state : option string;
  p_phase : option ProjectPhase;
  project_type : option string;
  population_type : option string;
  total_units : option Z;
  total_cost : option Q;
  client_id : option Z;
  sharepoint_site_url : option string;
  sharepoint_email : option string
}.

Record FundingSource := {
  fs_id : Z;
  fs_name : string;
  fs_type : FundingSourceType;
  fs_agency : option string;
  award_amount_min : option Q;
  award_amount_max : option Q;
  is_active : option bool
}.

Record Application := {
  a_id : Z;
  a_project_id : Z;
  funding_source_id : Z;
  a_status : ApplicationStatus;
  application_round : option string;
  requested_amount : option Q;
  awarded_amount : option Q;
  a_created_at : option Z
}.

(** Dates are day numbers; [strptime] is a parameter of the routes. *)
Record TimeEntry := {
  te_id : Z;
  te_project_id : option Z;
  user_name : string;
  description : string;
  hours : Q;
  hourly_rate : Q;
  te_date : Z;
  is_billable : option bool;
  is_invoiced : option bool
}.

Record db := {
  projects : list Project;
  funding_sources : list FundingSource;
  applications : list Application;
  time_entries : list TimeEntry
}.

(** [Project.query.get(id)] *)
Definition get_project_row (d : db) (pid : Z) : option Project :=
  find (fun p => (p_id p =? pid)%Z) (projects d).

(** relationship [project.applications] *)
Definition project_applications (d : db) (p : Project) : list Application :=
  filter (fun a => (a_project_id a =? p_id p)%Z) (applications d).

(** relationship [app.funding_source] *)
Definition app_funding_source (d : db) (a : Application) : option FundingSource :=
  find (fun s => (fs_id s =? funding_source_id a)%Z) (funding_sources d).

End Database.

Import Database.

(** ** HTTP envelope *)

Inductive response (A : Type) :=
| Success (code : nat) (data : A)
| Failure (code : nat) (error : string).
Arguments Success {A} code data.
Arguments Failure {A} code error.

(** [str(e)] of the [NotFound] raised by [get_or_404]; the routes catch it
    with [except Exception] and answer 500. *)
Definition not_found_message : string :=
  "404 Not Found: The requested URL was not found on the server. If you entered the URL manually please check your spelling and try again.".

(** ** JSON request bodies *)

(** A key of a JSON object: missing, [null], or a value. *)
Inductive field (A : Type) :=
| Absent
| Null
| Val (a : A).
Arguments Absent {A}.
Arguments Null {A}.
Arguments Val {A} a.

(** [data.get(key)] *)
Definition get {A} (f : field A) : option A :=
  match f with
  | Val a => Some a
  | _ => None
  end.

(** [key in data] *)
Definition has_key {A} (f : field A) : bool :=
  match f with
  | Absent => false
  | _ => true
  end.

(** A JSON value other than [null], as [request.get_json()] returns it:
    [true] or [false], an integer, a number written with a fraction or an
    exponent (given by the finite double [x] it is read as), a text, or
    an array or object (of which only the emptiness matters here). *)
Module Json.

Inductive value :=
| Bool (b : bool)
| Int (i : Z)
| Float (x : Q)
| Str (s : string)
| Compound (empty : bool).

(** Truthiness: [false], [0], [0.0], the empty text and the empty array
    or object are falsy. *)
Definition truthy (v : value) : bool :=
  match v with
  | Bool b => b
  | Int i => negb (i =? 0)%Z
  | Float x => negb (Qeq_bool x 0)
  | Str s => negb (String.eqb s "")
  | Compound empty => negb empty
  end.

(** Truthiness of [data.get(key)] *)
Definition truthy_opt (v : option value) : bool :=
  match v with
  | Some v => truthy v
  | None => false
  end.

Section Float.

(** [float(s)] on a text, for the texts that [float] rejects ([None],
    a [ValueError]) or reads as a finite number. *)
Variable float_of_str : string -> option Q.

(** [float(v)]; [None] when it raises ([ValueError], [TypeError],
    [OverflowError]). *)
Definition to_float (v : value) : option Q :=
  match v with
  | Bool b => Some (if b then 1 else 0)
  | Int i => Float64.of_int i
  | Float x => Some x
  | Str s => float_of_str s
  | Compound _ => None
  end.

End Float.

End Json.

(** ** src/routes/projects.py *)

Module Projects.

Record project_item := {
  item_id : Z;
  item_name : string;
  item_total_cost : option Q;
  funding_secured : Q;
  funding_requested : option Q;
  funding_gap : Q;
  applications_count : nat
}.

Definition total_awarded (d : db) (p : Project) : Q :=
  Py.sum (map (fun a => Py.or_zero (awarded_amount a)) (project_applications d p)).

Definition total_requested (d : db) (p : Project) : Q :=
  Py.sum (map (fun a => Py.or_zero (requested_amount a)) (project_applications d p)).


Definition phase_matches (ph : ProjectPhase) (p : Project) : bool :=
  match p_phase p with
  | Some q => ProjectPhase_eqb q ph
  | None => false
  end.




Definition detail_item (d : db) (p : Project) : project_item :=
  let total_awarded := total_awarded d p in
  let total_requested := total_requested d p in
  let funding_gap := Py.or_zero (total_cost p) - total_awarded in
  {| item_id := p_id p; item_name := p_name p;
     item_total_cost := total_cost p;
     funding_secured := total_awarded;
     funding_requested := Some total_requested;
     funding_gap := funding_gap;
     applications_count := List.length (project_applications d p) |}.

Definition get_project (d : db) (project_id : Z) : response project_item :=
  match get_project_row d project_id with
  | Some p => Success 200 (detail_item d p)
  | None => Failure 500 not_found_message
  end.

Record financial_summary := {
  total_project_cost : Q;
  total_funding_secured : Q;
  total_funding_requested : Q;
  total_funding_gap : Q
}.

Record dashboard_stats := {
  total_projects : nat;
  phase_distribution : list (string * nat);
  summary : financial_summary
}.

Definition get_dashboard_stats (d : db) : response dashboard_stats :=
  let total_projects := List.length (projects d) in
  let phase_stats :=
    map (fun ph => (ProjectPhase_value ph,
                    List.length (filter (phase_matches ph) (projects d))))
        all_phases in
  let all_projects := projects d in
  let total_cost := Py.sum (map (fun p => Py.or_zero (total_cost p)) all_projects) in
  let totals :=
    fold_left
      (fun acc project =>
         (fst acc + total_awarded d project, snd acc + total_requested d project))
      all_projects (0, 0) in
  let total_secured := fst totals in
  let total_requested := snd totals in
  let total_gap := total_cost - total_secured in
  Success 200
    {| total_projects := total_projects;
       phase_distribution := phase_stats;
       summary :=
         {| total_project_cost := total_cost;
            total_funding_secured := total_secured;
            total_funding_requested := total_requested;
            total_funding_gap := total_gap |} |}.

End Projects.

(** ** src/routes/ai_chat.py *)

Module AiChat.

(** The reason texts are kept as tags; the last one carries the two
    bounds that the message formats. *)
Inductive reason :=
| SufficientUnitCount
| SupportsFamilyHousing
| SupportsConstructionRehab
| AwardRangeMatchesGap (lo hi : Q).

Record recommendation := {
  funding_source : FundingSource;
  match_score : Z;
  reasons : list reason
}.

Record recommendations_data := {
  project_name : string;
  recommendations : list recommendation;
  total_available_sources : nat
}.

Definition opt_str_eqb (x : option string) (s : string) : bool :=
  match x with
  | Some v => String.eqb v s
  | None => false
  end.

(** [x in l] for a nullable string and a list of literals *)
Definition opt_str_in (x : option string) (l : list string) : bool :=
  existsb (opt_str_eqb x) l.

(** [FundingSource.query.filter(FundingSource.is_active == True).all()] *)
Definition all_sources (d : db) : list FundingSource :=
  filter (fun s => match is_active s with Some true => true | _ => false end)
         (funding_sources d).

Definition applied_source_ids (d : db) (project : Project) : list Z :=
  map funding_source_id (project_applications d project).

Definition available_sources (d : db) (project : Project) : list FundingSource :=
  filter (fun source =>
            negb (existsb (Z.eqb (fs_id source)) (applied_source_ids d project)))
         (all_sources d).

(** [a <= x <= b] *)
Definition between (a x b : Q) : bool := Qle_bool a x && Qle_bool x b.

(** One iteration of the loop over [available_sources]: the four [if]s
    update [match_score] and [reasons] in turn. *)
Definition score_source (d : db) (project : Project) (source : FundingSource)
  : Z * list reason :=
  let st0 := (0%Z, @nil reason) in
  let st1 :=
    if String.eqb (FundingSourceType_value (fs_type source)) "LIHTC 9%"
       && Py.truthy_int (total_units project)
       && match total_units project with
          | Some n => (20 <=? n)%Z
          | None => false
          end
    then ((fst st0 + 30)%Z, snd st0 ++ [SufficientUnitCount])
    else st0 in
  let st2 :=
    if String.eqb (FundingSourceType_value (fs_type source)) "FHLB AHP"
       && opt_str_eqb (population_type project) "Family"
    then ((fst st1 + 25)%Z, snd st1 ++ [SupportsFamilyHousing])
    else st1 in
  let st3 :=
    if String.eqb (FundingSourceType_value (fs_type source)) "HOME"
       && opt_str_in (project_type project) ["New Construction"%string; "Rehabilitation"%string]
    then ((fst st2 + 20)%Z, snd st2 ++ [SupportsConstructionRehab])
    else st2 in
  let st4 :=
    if Py.truthy_num (award_amount_min source)
       && Py.truthy_num (award_amount_max source)
    then
      match award_amount_min source, award_amount_max source with
      | Some lo, Some hi =>
          let funding_gap :=
            Py.or_zero (total_cost project) - Projects.total_awarded d project in
          if between lo funding_gap hi
          then ((fst st3 + 25)%Z, snd st3 ++ [AwardRangeMatchesGap lo hi])
          else st3
      | _, _ => st3
      end
    else st3 in
  st4.

Definition recommend (d : db) (project : Project) (source : FundingSource)
  : recommendation :=
  let r := score_source d project source in
  {| funding_source := source; match_score := fst r; reasons := snd r |}.

(** [recommendations.sort(key=..., reverse=True)].  [list.sort] is stable,
    also with [reverse=True]; the result of a stable sort is determined
    by the keys, and is computed here by insertion: an element goes
    after the elements with a strictly greater key and before the ones
    with a key that is equal or smaller. *)
Fixpoint insert_desc (x : recommendation) (l : list recommendation)
  : list recommendation :=
  match l with
  | [] => [x]
  | y :: r =>
      if (match_score x <? match_score y)%Z
      then y :: insert_desc x r
      else x :: y :: r
  end.

Definition sort_desc (l : list recommendation) : list recommendation :=
  fold_right insert_desc [] l.

(** The recommendations before sorting: the sources appended by the loop. *)
Definition candidates (d : db) (project : Project) : list recommendation :=
  filter (fun r => (0 <? match_score r)%Z)
         (map (recommend d project) (available_sources d project)).

Definition get_funding_recommendations (d : db) (project_id : Z)
  : response recommendations_data :=
  match get_project_row d project_id with
  | None => Failure 500 not_found_message
  | Some project =>
      let available_sources := available_sources d project in
      let recommendations := sort_desc (candidates d project) in
      Success 200
        {| project_name := p_name project;
           recommendations := firstn 5 recommendations;
           total_available_sources := List.length available_sources |}
  end.

End AiChat.

(** ** src/routes/applications.py *)

Module Applications.

(** [db.func.sum(column)]: [NULL]s are skipped, and the sum of no value
    is [NULL]. *)
Definition sql_sum (column : list (option Q)) : option Q :=
  match flat_map (fun x => match x with Some v => [v] | None => [] end) column with
  | [] => None
  | v :: vs => Some (fold_left Qplus vs v)
  end.

(** [a / b] on integers: the double nearest to the quotient; [None] is
    [ZeroDivisionError]. *)
Definition true_div (a b : nat) : option Q :=
  match b with
  | O => None
  | _ => Some (Float64.div (inject_Z (Z.of_nat a)) (inject_Z (Z.of_nat b)))
  end.

(** [round(x, 1)] on a double: the decimal with one digit after the point
    that is nearest to the value of [x], a tie going to the even digit;
    the response prints this decimal. *)
Definition round1 (x : Q) : Q := inject_Z (Float64.round_half_even (x * 10)) / 10.

Record stats := {
  status_distribution : list (string * nat);
  recent_applications : nat;
  total_requested : Q;
  total_awarded : Q;
  success_rate : Q;
  total_applications : nat
}.

Definition all_statuses : list ApplicationStatus :=
  [DRAFT; SUBMITTED; UNDER_REVIEW; APPROVED; DENIED; WITHDRAWN].

Definition count_status (d : db) (status : ApplicationStatus) : nat :=
  List.length (filter (fun a => ApplicationStatus_eqb (a_status a) status)
                      (applications d)).

(** The conditional expression that computes [success_rate]; [None] when
    the division raises. *)
Definition success_rate_expr (approved_applications total_applications : nat)
  : option Q :=
  if (0 <? total_applications)%nat then
    match true_div approved_applications total_applications with
    | Some q => Some (Float64.mul q 100)
    | None => None
    end
  else Some 0.

(** [utcnow] is the clock, in seconds. *)
Definition get_application_stats (d : db) (utcnow : Z) : response stats :=
  let status_stats :=
    map (fun status => (ApplicationStatus_value status, count_status d status))
        all_statuses in
  let thirty_days_ago := (utcnow - 30 * 86400)%Z in
  let recent_applications :=
    List.length (filter (fun a => match a_created_at a with
                                  | Some t => (thirty_days_ago <=? t)%Z
                                  | None => false
                                  end) (applications d)) in
  let total_requested :=
    Py.or_zero (sql_sum (map requested_amount (applications d))) in
  let total_awarded :=
    Py.or_zero (sql_sum (map awarded_amount (applications d))) in
  let total_applications := List.length (applications d) in
  let approved_applications := count_status d APPROVED in
  match success_rate_expr approved_applications total_applications with
  | None => Failure 500 "division by zero"
  | Some success_rate =>
      Success 200
        {| status_distribution := status_stats;
           recent_applications := recent_applications;
           total_requested := total_requested;
           total_awarded := total_awarded;
           success_rate := round1 success_rate;
           total_applications := total_applications |}
  end.

End Applications.

(** ** src/services/sharepoint_service.py *)

Module SharePointService.

(** A JSON object of the Graph API, as the fields the service reads. *)
Definition json := list (string * string).

Fixpoint json_get (key : string) (o : json) : option string :=
  match o with
  | [] => None
  | (k, v) :: rest => if String.eqb k key then Some v else json_get key rest
  end.

Inductive exn :=
| HTTPError (status_code : nat)
| KeyError (key : string)
| OtherError (message : string)
| ProvisioningTimedOut.

(** [str(e)]; the text of an [HTTPError] is reduced to its status. *)
Definition exn_message (e : exn) : string :=
  match e with
  | HTTPError c => "HTTPError " ++ NilEmpty.string_of_uint (Nat.to_uint c)
  | KeyError k => "'" ++ k ++ "'"
  | OtherError m => m
  | ProvisioningTimedOut => "SharePoint site provisioning timed out"
  end.

(** What a Graph request does: it returns a body or raises.  Obtaining
    the bearer token is part of the request. *)
Inductive reply :=
| Body (o : json)
| Raises (e : exn).

(** The directory service: its answer to the group creation, to the
    k-th readiness poll (with the seconds the poll takes) and to the
    creation of a folder. *)
Record world := {
  post_group : reply;
  get_site : nat -> reply * nat;
  post_folder : string -> reply
}.

Inductive call :=
| PostGroup (display_name mail_nickname owner_user_id : string)
| GetSite (group_id : string)
| PostFolder (group_id folder_name : string)
| Sleep (seconds : nat).

(** The clock in seconds, the calls made so far with their start time
    (latest first), and the number of polls made. *)
Record state := {
  now : nat;
  calls : list (nat * call);
  polls : nat
}.

Inductive result (A : Type) :=
| Ret (a : A)
| Raise (e : exn)
| OutOfFuel.
Arguments Ret {A} a.
Arguments Raise {A} e.
Arguments OutOfFuel {A}.

Definition M (A : Type) : Type := state -> result A * state.

Definition ret {A} (a : A) : M A := fun st => (Ret a, st).

Definition raise {A} (e : exn) : M A := fun st => (Raise e, st).

Definition bind {A B} (m : M A) (k : A -> M B) : M B :=
  fun st =>
    match m st with
    | (Ret a, st') => k a st'
    | (Raise e, st') => (Raise e, st')
    | (OutOfFuel, st') => (OutOfFuel, st')
    end.

Notation "x <- m ;; k" := (bind m (fun x => k))
  (at level 61, m at next level, right associativity).

Definition of_reply (r : reply) : M json :=
  match r with
  | Body o => ret o
  | Raises e => raise e
  end.

Definition log (c : call) (seconds : nat) : M unit :=
  fun st =>
    (Ret tt, {| now := now st + seconds;
                calls := (now st, c) :: calls st;
                polls := polls st |}).

(** [time.sleep(seconds)] *)
Definition sleep (seconds : nat) : M unit := log (Sleep seconds) seconds.

(** [c.isalnum()] and [c.lower()] on the characters of an ASCII text; the
    statements that depend on them are made for ASCII project names. *)
Definition isalnum (c : ascii) : bool :=
  let n := nat_of_ascii c in
  ((48 <=? n) && (n <=? 57) || (65 <=? n) && (n <=? 90)
   || (97 <=? n) && (n <=? 122))%nat.

Definition lower (c : ascii) : ascii :=
  let n := nat_of_ascii c in
  if ((65 <=? n) && (n <=? 90))%nat then ascii_of_nat (n + 32) else c.

Fixpoint lower_alnum (s : string) : string :=
  match s with
  | EmptyString => EmptyString
  | String c rest =>
      if isalnum c then String (lower c) (lower_alnum rest) else lower_alnum rest
  end.

(** [tenant_id.split('.')[0]] *)
Fixpoint before_dot (s : string) : string :=
  match s with
  | EmptyString => EmptyString
  | String c rest =>
      if Ascii.eqb c "."%char then EmptyString else String c (before_dot rest)
  end.

(** [f"{i:02d}"] *)
Definition format_02d (i : nat) : string :=
  let s := NilEmpty.string_of_uint (Nat.to_uint i) in
  if (String.length s <? 2)%nat then ("0" ++ s)%string else s.

Definition base_folders : list string :=
  ["01 - Project Planning"%string;
   "02 - Financial Documents"%string;
   "03 - Legal & Compliance"%string;
   "04 - Construction Documents"%string;
   "05 - Marketing & Leasing"%string;
   "06 - Environmental Reports"%string;
   "07 - Permits & Approvals"%string;
   "08 - Team Communications"%string].

(** The loop [for i, source in enumerate(funding_sources, i0)] that
    appends to the folder list. *)
Fixpoint source_folders (i : nat) (funding_sources : list string) : list string :=
  match funding_sources with
  | [] => []
  | source :: rest =>
      (format_02d i ++ " - " ++ source ++ " Application")%string
        :: source_folders (S i) rest
  end.

Definition get_default_folder_structure (funding_sources : option (list string))
  : list string :=
  match funding_sources with
  | None | Some [] => base_folders
  | Some l => base_folders ++ source_folders 9 l
  end.

Record site_result := {
  group_id : string;
  mail_nickname : string;
  sharepoint_site_url : option string;
  sharepoint_email : string;
  site_info : json;
  created_folders : list json
}.

Section Service.

Variable w : world.

(** [os.getenv('AZURE_TENANT_ID')] read by the constructor *)
Variable tenant_id : string.

Definition create_project_group (project_name project_description owner_user_id : string)
  : M (string * string) :=
  let mail_nickname := substring 0 64 (lower_alnum project_name) in
  _ <- log (PostGroup project_name mail_nickname owner_user_id) 0 ;;
  result <- of_reply (post_group w) ;;
  match json_get "id" result with
  | Some id => ret (id, mail_nickname)
  | None => raise (KeyError "id")
  end.

(** The next readiness poll: [GET /groups/{id}/sites/root]. *)
Definition get_sharepoint_site (group_id : string) : M json :=
  fun st =>
    let (r, seconds) := get_site w (polls st) in
    of_reply r {| now := now st + seconds;
                  calls := (now st, GetSite group_id) :: calls st;
                  polls := S (polls st) |}.

(** The [while datetime.now() < end_time] loop; [fuel] bounds the
    number of iterations. *)
Fixpoint wait_loop (fuel : nat) (group_id : string) (end_time : nat)
  : M (option json) :=
  fun st =>
    match fuel with
    | O => (OutOfFuel, st)
    | S fuel' =>
        if (now st <? end_time)%nat then
          match get_sharepoint_site group_id st with
          | (Ret site_info, st1) =>
              match site_info with
              | _ :: _ => (Ret (Some site_info), st1)
              | [] => wait_loop fuel' group_id end_time st1
              end
          | (Raise (HTTPError status_code), st1) =>
              if (status_code =? 404)%nat then
                (_ <- sleep 30 ;; wait_loop fuel' group_id end_time) st1
              else (Raise (HTTPError status_code), st1)
          | (Raise e, st1) => (Raise e, st1)
          | (OutOfFuel, st1) => (OutOfFuel, st1)
          end
        else (Ret None, st)
    end.

Definition wait_for_sharepoint_site (fuel : nat) (group_id : string)
           (max_wait_minutes : nat) : M (option json) :=
  fun st =>
    let end_time := (now st + 60 * max_wait_minutes)%nat in
    wait_loop fuel group_id end_time st.

Fixpoint create_folder_structure (group_id : string) (folder_structure : list string)
  : M (list json) :=
  match folder_structure with
  | [] => ret []
  | folder_name :: rest =>
      _ <- log (PostFolder group_id folder_name) 0 ;;
      match post_folder w folder_name with
      | Body result =>
          created <- create_folder_structure group_id rest ;;
          ret (result :: created)
      | Raises (HTTPError _) => create_folder_structure group_id rest
      | Raises e => raise e
      end
  end.

Definition create_complete_project_site (fuel : nat)
           (project_name project_description owner_user_id : string)
           (funding_sources : option (list string)) : M site_result :=
  created <- create_project_group project_name project_description owner_user_id ;;
  let (group_id, mail_nickname) := created : string * string in
  site_info <- wait_for_sharepoint_site fuel group_id 10 ;;
  match site_info with
  | None => raise ProvisioningTimedOut
  | Some site_info =>
      let folder_structure := get_default_folder_structure funding_sources in
      created_folders <- create_folder_structure group_id folder_structure ;;
      ret {| group_id := group_id;
             mail_nickname := mail_nickname;
             sharepoint_site_url := json_get "webUrl" site_info;
             sharepoint_email :=
               (mail_nickname ++ "@" ++ before_dot tenant_id ++ ".onmicrosoft.com")%string;
             site_info := site_info;
             created_folders := created_folders |}
  end.

End Service.

End SharePointService.

(** ** src/routes/sharepoint.py *)

Module SharePoint.

Import SharePointService.

Record env := {
  AZURE_TENANT_ID : option string;
  AZURE_CLIENT_ID : option string;
  AZURE_CLIENT_SECRET : option string
}.

Record created_site := {
  cs_project_id : Z;
  cs_group_id : string;
  cs_sharepoint_site_url : option string;
  cs_sharepoint_email : string;
  folders_created : nat
}.

(** [str(x)] inside an f-string, for a nullable text column *)
Definition str (x : option string) : string :=
  match x with
  | Some s => s
  | None => "None"
  end.

(** [str(e)] of the [UnsupportedMediaType] that [request.get_json()]
    raises for a request without a JSON body. *)
Definition unsupported_media_type : string :=
  "415 Unsupported Media Type: Did not attempt to load JSON data because the request Content-Type was not 'application/json'.".

(** The funding sources handed over for the folder structure. *)
Definition funding_source_names (d : db) (project : Project) : list string :=
  flat_map (fun app => match app_funding_source d app with
                       | Some source => [fs_name source]
                       | None => []
                       end)
           (project_applications d project).

Definition store_site (d : db) (project : Project) (r : site_result) : db :=
  {| projects :=
       map (fun p =>
              if (p_id p =? p_id project)%Z then
                {| p_id := p_id p; p_name := p_name p; p_city := p_city p;
                   p_state := p_state p; p_phase := p_phase p;
                   project_type := project_type p;
                   population_type := population_type p;
                   total_units := total_units p; total_cost := total_cost p;
                   client_id := client_id p;
                   Database.sharepoint_site_url := SharePointService.sharepoint_site_url r;
                   Database.sharepoint_email :=
                     Some (SharePointService.sharepoint_email r) |}
              else p)
           (projects d);
     funding_sources := funding_sources d;
     applications := applications d;
     time_entries := time_entries d |}.

(** [data] is the parsed body: [None] when the request carries no JSON
    ([request.get_json()] raises inside the [try]), else the
    [owner_user_id] key of the object ([Absent] also for the body
    [null], which [or {}] replaces by the empty object).  The answer
    comes with the store and the service state after the request, and is
    [None] only when [fuel] did not suffice for the polling loop; the 400
    answer of the guard also carries the stored URL, which is not kept in
    the envelope here. *)
Definition create_project_sharepoint_site
           (w : world) (e : env) (fuel : nat) (st : state)
           (project_id : Z) (data : option (field string)) (d : db)
  : option (response created_site) * db * state :=
  match get_project_row d project_id with
  | None =>
      (Some (Failure 500 ("Failed to create SharePoint site: " ++ not_found_message)),
       d, st)
  | Some project =>
      if Py.truthy_str (Database.sharepoint_site_url project) then
        (Some (Failure 400 "SharePoint site already exists for this project"), d, st)
      else
        match data with
        | None =>
            (Some (Failure 500
                     ("Failed to create SharePoint site: " ++ unsupported_media_type)),
             d, st)
        | Some data =>
        let owner_user_id := get data in
        if negb (Py.truthy_str owner_user_id) then
          (Some (Failure 400 "owner_user_id is required"), d, st)
        else if negb (Py.truthy_str (AZURE_TENANT_ID e)
                      && Py.truthy_str (AZURE_CLIENT_ID e)
                      && Py.truthy_str (AZURE_CLIENT_SECRET e)) then
          (Some (Failure 500 "Azure credentials not configured. Please set AZURE_TENANT_ID, AZURE_CLIENT_ID, and AZURE_CLIENT_SECRET environment variables."),
           d, st)
        else
          let funding_sources := funding_source_names d project in
          let description :=
            ("Affordable housing project in " ++ str (p_city project) ++ ", "
             ++ str (p_state project))%string in
          match create_complete_project_site
                  w (str (AZURE_TENANT_ID e)) fuel (p_name project) description
                  (str owner_user_id) (Some funding_sources) st with
          | (Ret site_result, st') =>
              (Some (Success 200
                 {| cs_project_id := p_id project;
                    cs_group_id := group_id site_result;
                    cs_sharepoint_site_url :=
                      SharePointService.sharepoint_site_url site_result;
                    cs_sharepoint_email :=
                      SharePointService.sharepoint_email site_result;
                    folders_created := List.length (created_folders site_result) |}),
               store_site d project site_result, st')
          | (Raise ex, st') =>
              (Some (Failure 500
                       ("Failed to create SharePoint site: " ++ exn_message ex)),
               d, st')
          | (OutOfFuel, st') => (None, d, st')
          end
        end
  end.

End SharePoint.

(** ** src/routes/time_tracking.py *)

Module TimeTracking.

(** Truthiness of a nullable [Boolean] column. *)
Definition flag (b : option bool) : bool :=
  match b with
  | Some true => true
  | _ => false
  end.

Module Body.
(** JSON body of the create and update requests. *)
Record t := {
  project_id : field Z;
  user_name : field string;
  description : field string;
  hours : field Json.value;
  hourly_rate : field Json.value;
  date : field string;
  is_billable : field bool;
  is_invoiced : field bool
}.
End Body.

Record entry_result := {
  res_id : Z;
  res_total_amount : Q
}.

(** Primary key given to an inserted row. *)
Definition next_id (l : list TimeEntry) : Z :=
  (fold_right Z.max 0 (map te_id l) + 1)%Z.

Definition with_time_entries (d : db) (l : list TimeEntry) : db :=
  {| projects := projects d; funding_sources := funding_sources d;
     applications := applications d; time_entries := l |}.

Section Routes.

(** [datetime.strptime(s, '%Y-%m-%d').date()]; [None] is [ValueError]. *)
Variable strptime : string -> option Z.

(** SQL [ILIKE '%pattern%'] on [user_name]. *)
Variable ilike : string -> string -> bool.

(** [float(s)] on a text, for the texts that [float] rejects ([None],
    a [ValueError]) or reads as a finite number. *)
Variable float_of_str : string -> option Q.

(** Returns the response and the store after the request; an exception
    ([strptime], [float(...)] on a value it does not convert) rolls the
    session back and answers 500.  A flag that is missing or [None] in
    the constructor call leaves the column to its default. *)
Definition create_time_entry (data : Body.t) (d : db)
  : response entry_result * db :=
  if negb (Py.truthy_str (get (Body.user_name data))) then
    (Failure 400 "User name is required", d)
  else if negb (Py.truthy_str (get (Body.description data))) then
    (Failure 400 "Description is required", d)
  else if negb (Json.truthy_opt (get (Body.hours data))) then
    (Failure 400 "Hours is required", d)
  else if negb (Py.truthy_str (get (Body.date data))) then
    (Failure 400 "Date is required", d)
  else if Py.truthy_int (get (Body.project_id data))
          && match get (Body.project_id data) with
             | Some pid =>
                 match get_project_row d pid with
                 | Some _ => false
                 | None => true
                 end
             | None => false
             end then
    (Failure 404 "Project not found", d)
  else
    match get (Body.user_name data), get (Body.description data),
          get (Body.hours data), get (Body.date data) with
    | Some user, Some descr, Some h, Some day =>
        match strptime day with
        | None => (Failure 500 "ValueError", d)
        | Some entry_date =>
            match Json.to_float float_of_str h,
                  match Body.hourly_rate data with
                  | Absent => Some 125
                  | Null => None
                  | Val r => Json.to_float float_of_str r
                  end with
            | Some h, Some rate =>
                let time_entry :=
                  {| te_id := next_id (time_entries d);
                     te_project_id := get (Body.project_id data);
                     Database.user_name := user;
                     Database.description := descr;
                     Database.hours := h;
                     Database.hourly_rate := rate;
                     te_date := entry_date;
                     Database.is_billable :=
                       match Body.is_billable data with
                       | Val b => Some b
                       | _ => Some true
                       end;
                     Database.is_invoiced :=
                       match Body.is_invoiced data with
                       | Val b => Some b
                       | _ => Some false
                       end |} in
                let total_amount :=
                  Database.hours time_entry * Database.hourly_rate time_entry in
                (Success 201
                   {| res_id := te_id time_entry;
                      res_total_amount := total_amount |},
                 with_time_entries d (time_entries d ++ [time_entry]))
            | _, _ => (Failure 500 "float() could not convert the value", d)
            end
        end
    | _, _, _, _ => (Failure 500 "KeyError", d)
    end.

(** [TimeEntry.query.get(entry_id)] *)
Definition get_entry (d : db) (entry_id : Z) : option TimeEntry :=
  find (fun e => (te_id e =? entry_id)%Z) (time_entries d).

(** The assignments of [update_time_entry] after the project check:
    [None] when one of them raises ([float(...)], [strptime]) or when
    the commit refuses a [NULL] in a [NOT NULL] column. *)
Definition apply_update (data : Body.t) (e : TimeEntry) : option TimeEntry :=
  let project :=
    if has_key (Body.project_id data) then
      if Py.truthy_int (get (Body.project_id data))
      then get (Body.project_id data) else None
    else te_project_id e in
  let user :=
    match Body.user_name data with
    | Absent => Some (Database.user_name e)
    | f => get f
    end in
  let descr :=
    match Body.description data with
    | Absent => Some (Database.description e)
    | f => get f
    end in
  let h :=
    match Body.hours data with
    | Absent => Some (Database.hours e)
    | Null => None
    | Val v => Json.to_float float_of_str v
    end in
  let rate :=
    match Body.hourly_rate data with
    | Absent => Some (Database.hourly_rate e)
    | Null => None
    | Val v => Json.to_float float_of_str v
    end in
  let day :=
    match Body.date data with
    | Absent => Some (te_date e)
    | Null => None
    | Val s => strptime s
    end in
  match user, descr, h, rate, day with
  | Some user, Some descr, Some h, Some rate, Some day =>
      Some {| te_id := te_id e;
              te_project_id := project;
              Database.user_name := user;
              Database.description := descr;
              Database.hours := h;
              Database.hourly_rate := rate;
              te_date := day;
              Database.is_billable :=
                if has_key (Body.is_billable data)
                then get (Body.is_billable data) else Database.is_billable e;
              Database.is_invoiced :=
                if has_key (Body.is_invoiced data)
                then get (Body.is_invoiced data) else Database.is_invoiced e |}
  | _, _, _, _, _ => None
  end.

Definition replace_entry (e' : TimeEntry) (l : list TimeEntry) : list TimeEntry :=
  map (fun e => if (te_id e =? te_id e')%Z then e' else e) l.

Definition update_time_entry (entry_id : Z) (data : Body.t) (d : db)
  : response entry_result * db :=
  match get_entry d entry_id with
  | None => (Failure 500 not_found_message, d)
  | Some time_entry =>
      if has_key (Body.project_id data)
         && Py.truthy_int (get (Body.project_id data))
         && match get (Body.project_id data) with
            | Some pid =>
                match get_project_row d pid with
                | Some _ => false
                | None => true
                end
            | None => false
            end then
        (Failure 404 "Project not found", d)
      else
        match apply_update data time_entry with
        | None => (Failure 500 "exception", d)
        | Some e' =>
            (Success 200
               {| res_id := te_id e';
                  res_total_amount := Database.hours e' * Database.hourly_rate e' |},
             with_time_entries d (replace_entry e' (time_entries d)))
        end
  end.

(** *** Summary *)

Record totals := {
  total_hours : Q;
  total_billable_hours : Q;
  total_amount : Q;
  total_invoiced_amount : Q;
  total_unbilled_amount : Q
}.

Record bucket := {
  b_hours : Q;
  b_billable_hours : Q;
  b_amount : Q
}.

Record summary := {
  s_totals : totals;
  project_summary : list (string * bucket);
  user_summary : list (string * bucket);
  entries_count : nat
}.

(** The sums over the selected entries. *)
Definition compute_totals (time_entries : list TimeEntry) : totals :=
  {| total_hours := Py.sum (map Database.hours time_entries);
     total_billable_hours :=
       Py.sum (map Database.hours
                   (filter (fun entry => flag (Database.is_billable entry))
                           time_entries));
     total_amount :=
       Py.sum (map (fun entry => Database.hours entry * Database.hourly_rate entry)
                   (filter (fun entry => flag (Database.is_billable entry))
                           time_entries));
     total_invoiced_amount :=
       Py.sum (map (fun entry => Database.hours entry * Database.hourly_rate entry)
                   (filter (fun entry => flag (Database.is_invoiced entry))
                           time_entries));
     total_unbilled_amount :=
       Py.sum (map (fun entry => Database.hours entry * Database.hourly_rate entry)
                   (filter (fun entry =>
                              flag (Database.is_billable entry)
                              && negb (flag (Database.is_invoiced entry)))
                           time_entries)) |}.

(** One step of a group-by loop on the dictionary [acc]. *)
Definition bump (key : string) (entry : TimeEntry) (b : bucket) : bucket :=
  {| b_hours := b_hours b + Database.hours entry;
     b_billable_hours :=
       if flag (Database.is_billable entry)
       then b_billable_hours b + Database.hours entry
       else b_billable_hours b;
     b_amount :=
       if flag (Database.is_billable entry)
       then b_amount b + Database.hours entry * Database.hourly_rate entry
       else b_amount b |}.

Fixpoint add_to (key : string) (entry : TimeEntry) (acc : list (string * bucket))
  : list (string * bucket) :=
  match acc with
  | [] => [(key, bump key entry {| b_hours := 0; b_billable_hours := 0; b_amount := 0 |})]
  | (k, b) :: rest =>
      if String.eqb k key then (k, bump key entry b) :: rest
      else (k, b) :: add_to key entry rest
  end.

Definition project_name_of (d : db) (entry : TimeEntry) : string :=
  match te_project_id entry with
  | Some pid =>
      match get_project_row d pid with
      | Some p => p_name p
      | None => "No Project"
      end
  | None => "No Project"
  end.

(** The query of [get_time_summary]; [None] when a date does not parse. *)
Definition summary_query (d : db) (user : option string) (project : option Z)
           (start_date end_date : option string) : option (list TimeEntry) :=
  let q0 := time_entries d in
  let q1 :=
    if Py.truthy_str user then
      match user with
      | Some u => filter (fun e => ilike (Database.user_name e) u) q0
      | None => q0
      end
    else q0 in
  let q2 :=
    match project with
    | Some pid =>
        filter (fun e => match te_project_id e with
                         | Some k => (k =? pid)%Z
                         | None => false
                         end) q1
    | None => q1
    end in
  let q3 :=
    if Py.truthy_str start_date then
      match start_date with
      | Some s =>
          match strptime s with
          | Some start => Some (filter (fun e => (start <=? te_date e)%Z) q2)
          | None => None
          end
      | None => Some q2
      end
    else Some q2 in
  match q3 with
  | None => None
  | Some q =>
      if Py.truthy_str end_date then
        match end_date with
        | Some s =>
            match strptime s with
            | Some stop => Some (filter (fun e => (te_date e <=? stop)%Z) q)
            | None => None
            end
        | None => Some q
        end
      else Some q
  end.

Definition summarize (d : db) (time_entries : list TimeEntry) : summary :=
  {| s_totals := compute_totals time_entries;
     project_summary :=
       fold_left (fun acc entry => add_to (project_name_of d entry) entry acc)
                 time_entries [];
     user_summary :=
       fold_left (fun acc entry => add_to (Database.user_name entry) entry acc)
                 time_entries [];
     entries_count := List.length time_entries |}.

Definition get_time_summary (d : db) (user : option string) (project : option Z)
           (start_date end_date : option string) : response summary :=
  match summary_query d user project start_date end_date with
  | Some time_entries => Success 200 (summarize d time_entries)
  | None => Failure 500 "ValueError"
  end.

End Routes.

(** *** Mark invoiced *)

Record invoiced_result := {
  updated_count : nat
}.

Definition in_ (entry_ids : list Z) (e : TimeEntry) : bool :=
  existsb (Z.eqb (te_id e)) entry_ids.

Definition set_invoiced (e : TimeEntry) : TimeEntry :=
  {| te_id := te_id e; te_project_id := te_project_id e;
     user_name := user_name e; description := description e;
     hours := hours e; hourly_rate := hourly_rate e; te_date := te_date e;
     is_billable := is_billable e; is_invoiced := Some true |}.

(** An integer the SQLite store of [main.py] accepts as a parameter of a
    statement: a signed 64-bit value.  Binding any other raises
    [OverflowError]. *)
Definition sqlite_integer (i : Z) : bool :=
  ((- 2 ^ 63 <=? i) && (i <? 2 ^ 63))%Z.

(** [data] is the parsed body ([None] when the request carries no JSON
    object); its [entry_ids] key holds a list of identifiers.  The
    [UPDATE ... WHERE id IN (...)] statement changes the matching rows at
    once and reports how many rows matched; it raises, and the session is
    rolled back, when an identifier cannot be bound. *)
Definition mark_entries_invoiced (data : option (field (list Z))) (d : db)
  : response invoiced_result * db :=
  match data with
  | None => (Failure 500 "AttributeError", d)
  | Some entry_ids_field =>
      let entry_ids :=
        match entry_ids_field with
        | Absent => Some []
        | f => get f
        end in
      match entry_ids with
      | None | Some [] => (Failure 400 "Entry IDs are required", d)
      | Some entry_ids =>
          if forallb sqlite_integer entry_ids then
            let updated_count :=
              List.length (filter (in_ entry_ids) (time_entries d)) in
            (Success 200 {| updated_count := updated_count |},
             with_time_entries d
               (map (fun e => if in_ entry_ids e then set_invoiced e else e)
                    (time_entries d)))
          else
            (Failure 500 "Python int too large to convert to SQLite INTEGER", d)
      end
  end.

End TimeTracking.

(** ** Statements taken from the specification, to compare with the code *)

Module Spec.

(** "(x if set, else 0)" *)
Definition if_set (x : option Q) : Q :=
  match x with Some v => v | None => 0 end.

Fixpoint sigma (l : list Q) : Q :=
  match l with
  | [] => 0
  | x :: l' => x + sigma l'
  end.

(** "the sum over all of that project's applications of
    (awarded_amount if set, else 0)" *)
Definition total_awarded (d : db) (p : Project) : Q :=
  sigma (map (fun a => if_set (awarded_amount a)) (project_applications d p)).

(** "(total_cost if set, else 0) minus total_awarded" *)
Definition funding_gap (d : db) (p : Project) : Q :=
  if_set (total_cost p) - total_awarded d p.


(** The rule table of the recommendation engine, as the specification
    words it: four independent rules, scores additive. *)
Definition rule (condition : bool) (points : Z) : Z :=
  if condition then points else 0%Z.

Definition FundingSourceType_eq_dec (a b : FundingSourceType) : {a = b} + {a <> b}.
Proof. decide equality. Defined.

Definition type_is (s : FundingSource) (t : FundingSourceType) : bool :=
  if FundingSourceType_eq_dec (fs_type s) t then true else false.

Definition units_at_least (p : Project) (n : Z) : bool :=
  match total_units p with
  | Some u => (n <=? u)%Z
  | None => false
  end.

Definition is_text (x : option string) (s : string) : bool :=
  match x with
  | Some v => if string_dec v s then true else false
  | None => false
  end.

(** "the source has both award bounds and the project's current funding
    gap lies within [min, max]" *)
Definition gap_in_award_range (d : db) (p : Project) (s : FundingSource) : bool :=
  match award_amount_min s, award_amount_max s with
  | Some lo, Some hi =>
      Qle_bool lo (funding_gap d p) && Qle_bool (funding_gap d p) hi
  | _, _ => false
  end.

Definition match_score (d : db) (p : Project) (s : FundingSource) : Z :=
  (rule (type_is s LIHTC_9_PERCENT && units_at_least p 20) 30
   + rule (type_is s FHLB_AHP && is_text (population_type p) "Family") 25
   + rule (type_is s HOME
           && (is_text (project_type p) "New Construction"
               || is_text (project_type p) "Rehabilitation")) 20
   + rule (gap_in_award_range d p s) 25)%Z.

(** The fourth rule as the code guards it: both bounds set and different
    from zero. *)
Definition gap_in_nonzero_award_range (d : db) (p : Project) (s : FundingSource)
  : bool :=
  match award_amount_min s, award_amount_max s with
  | Some lo, Some hi =>
      negb (Qeq_bool lo 0) && negb (Qeq_bool hi 0)
      && Qle_bool lo (funding_gap d p) && Qle_bool (funding_gap d p) hi
  | _, _ => false
  end.

Definition match_score_guarded (d : db) (p : Project) (s : FundingSource) : Z :=
  (rule (type_is s LIHTC_9_PERCENT && units_at_least p 20) 30
   + rule (type_is s FHLB_AHP && is_text (population_type p) "Family") 25
   + rule (type_is s HOME
           && (is_text (project_type p) "New Construction"
               || is_text (project_type p) "Rehabilitation")) 20
   + rule (gap_in_nonzero_award_range d p s) 25)%Z.


(** "the sum of hours x hourly_rate over exactly those entries that are
    both billable and invoiced" *)
Definition total_invoiced_amount (entries : list TimeEntry) : Q :=
  sigma (map (fun e => hours e * hourly_rate e)
             (filter (fun e => TimeTracking.flag (is_billable e)
                               && TimeTracking.flag (is_invoiced e))
                     entries)).


(** "the entries whose identifiers appear in the list and exist" *)
Definition listed (ids : list Z) (e : TimeEntry) : bool :=
  if in_dec Z.eq_dec (te_id e) ids then true else false.


Definition ApplicationStatus_eq_dec (a b : ApplicationStatus) : {a = b} + {a <> b}.
Proof. decide equality. Defined.

Definition approved_count (d : db) : nat :=
  List.length (filter (fun a => if ApplicationStatus_eq_dec (a_status a) APPROVED
                                then true else false)
                      (applications d)).

(** "approved_count / total_applications x 100" *)
Definition success_rate (d : db) : Q :=
  inject_Z (Z.of_nat (approved_count d))
  / inject_Z (Z.of_nat (List.length (applications d))) * 100.


(** "one additional folder per distinct funding source already applied to
    by the project": the sources are told apart by their identifier. *)
Definition distinct_sources (d : db) (p : Project) : list Z :=
  nodup Z.eq_dec (map funding_source_id (project_applications d p)).

End Spec.

(** Orderings used to state the ranking. *)

Definition score_desc (a b : AiChat.recommendation) : Prop :=
  (AiChat.match_score b <= AiChat.match_score a)%Z.

Definition has_score (k : Z) (r : AiChat.recommendation) : bool :=
  (AiChat.match_score r =? k)%Z.

Definition line_total (e : TimeEntry) : Q := hours e * hourly_rate e.

(** The folders whose creation was requested, oldest first. *)
Definition posted_folders (log : list (nat * SharePointService.call)) : list string :=
  flat_map (fun tc => match snd tc with
                      | SharePointService.PostFolder _ folder_name => [folder_name]
                      | _ => []
                      end)
           (rev log).

(** ** Sample rows *)

Module Examples.

Definition maple_court : Project :=
  {| p_id := 1; p_name := "Maple Court";
     p_city := Some "Austin"%string; p_state := Some "TX"%string;
     p_phase := Some PRE_DEVELOPMENT;
     project_type := Some "New Construction"%string;
     population_type := Some "Family"%string;
     total_units := Some 25%Z; total_cost := Some 1000000;
     client_id := Some 1%Z;
     sharepoint_site_url := None; sharepoint_email := None |}.

(** A project without a recorded cost. *)
Definition cedar_flats : Project :=
  {| p_id := 2; p_name := "Cedar Flats";
     p_city := Some "Waco"%string; p_state := Some "TX"%string;
     p_phase := Some CONSTRUCTION;
     project_type := Some "Rehabilitation"%string;
     population_type := Some "Senior"%string;
     total_units := Some 48%Z; total_cost := None;
     client_id := Some 2%Z;
     sharepoint_site_url := None; sharepoint_email := None |}.

Definition lihtc9 : FundingSource :=
  {| fs_id := 1; fs_name := "9% Housing Tax Credits"; fs_type := LIHTC_9_PERCENT;
     fs_agency := Some "TDHCA"%string;
     award_amount_min := Some 500000; award_amount_max := Some 5000000;
     is_active := Some true |}.

Definition fhlb : FundingSource :=
  {| fs_id := 2; fs_name := "Affordable Housing Program"; fs_type := FHLB_AHP;
     fs_agency := Some "FHLB Dallas"%string;
     award_amount_min := Some 50000; award_amount_max := Some 500000;
     is_active := Some true |}.

(** A source whose minimum award is zero. *)
Definition orca : FundingSource :=
  {| fs_id := 3; fs_name := "Rural Community Grant"; fs_type := ORCA;
     fs_agency := None;
     award_amount_min := Some 0; award_amount_max := Some 2000000;
     is_active := Some true |}.

Definition home : FundingSource :=
  {| fs_id := 4; fs_name := "HOME Funds"; fs_type := HOME;
     fs_agency := None;
     award_amount_min := None; award_amount_max := None;
     is_active := Some true |}.

Definition cedar_home_2023 : Application :=
  {| a_id := 1; a_project_id := 2; funding_source_id := 4;
     a_status := APPROVED; application_round := Some "2023-5"%string;
     requested_amount := Some 400000; awarded_amount := Some 300000;
     a_created_at := Some 1700000000%Z |}.

Definition cedar_home_2024 : Application :=
  {| a_id := 2; a_project_id := 2; funding_source_id := 4;
     a_status := DRAFT; application_round := Some "2024-1"%string;
     requested_amount := Some 250000; awarded_amount := None;
     a_created_at := Some 1714000000%Z |}.

Definition maple_lihtc : Application :=
  {| a_id := 3; a_project_id := 1; funding_source_id := 1;
     a_status := SUBMITTED; application_round := None;
     requested_amount := Some 900000; awarded_amount := None;
     a_created_at := Some 1714500000%Z |}.

(** Three applications, one of them approved. *)
Definition one_in_three : db :=
  {| projects := [maple_court; cedar_flats];
     funding_sources := [lihtc9; fhlb; orca; home];
     applications := [cedar_home_2023; cedar_home_2024; maple_lihtc];
     time_entries := [] |}.

(** A project whose site has been provisioned. *)
Definition oak_terrace : Project :=
  {| p_id := 3; p_name := "Oak Terrace";
     p_city := Some "Tyler"%string; p_state := Some "TX"%string;
     p_phase := Some APPLICATION_FINANCING;
     project_type := Some "New Construction"%string;
     population_type := Some "Family"%string;
     total_units := Some 40%Z; total_cost := Some 8000000;
     client_id := Some 1%Z;
     sharepoint_site_url := Some "https://contoso.sharepoint.com/sites/oakterrace"%string;
     sharepoint_email := Some "oakterrace@contoso.onmicrosoft.com"%string |}.

Definition provisioned : db :=
  {| projects := [maple_court; cedar_flats; oak_terrace];
     funding_sources := [lihtc9; fhlb; orca; home];
     applications := [cedar_home_2023; cedar_home_2024];
     time_entries := [] |}.

Definition azure : SharePoint.env :=
  {| SharePoint.AZURE_TENANT_ID := Some "contoso.example"%string;
     SharePoint.AZURE_CLIENT_ID := Some "client"%string;
     SharePoint.AZURE_CLIENT_SECRET := Some "secret"%string |}.

(** A directory in which the site of a new group never appears: every
    poll is answered 404 after one second. *)
Definition never_ready : SharePointService.world :=
  {| SharePointService.post_group :=
       SharePointService.Body [("id"%string, "g-42"%string)];
     SharePointService.get_site :=
       fun _ => (SharePointService.Raises (SharePointService.HTTPError 404), 1%nat);
     SharePointService.post_folder := fun _ => SharePointService.Body [] |}.

(** A directory whose third poll finds the site. *)
Definition ready_at_third_poll : SharePointService.world :=
  {| SharePointService.post_group :=
       SharePointService.Body [("id"%string, "g-42"%string)];
     SharePointService.get_site :=
       fun k =>
         if (k <? 2)%nat
         then (SharePointService.Raises (SharePointService.HTTPError 404), 1%nat)
         else (SharePointService.Body
                 [("webUrl"%string, "https://contoso.sharepoint.com/sites/cedarflats"%string)],
               1%nat);
     SharePointService.post_folder :=
       fun name => SharePointService.Body [("name"%string, name)] |}.

(** A directory that refuses one of the fixed folders. *)
Definition refuses_legal : SharePointService.world :=
  {| SharePointService.post_group :=
       SharePointService.Body [("id"%string, "g-42"%string)];
     SharePointService.get_site :=
       fun _ => (SharePointService.Body
                   [("webUrl"%string, "https://contoso.sharepoint.com/sites/maplecourt"%string)],
                 2%nat);
     SharePointService.post_folder :=
       fun name =>
         if String.eqb name "03 - Legal & Compliance"
         then SharePointService.Raises (SharePointService.HTTPError 409)
         else SharePointService.Body [("name"%string, name)] |}.

Definition start : SharePointService.state :=
  {| SharePointService.now := 0; SharePointService.calls := [];
     SharePointService.polls := 0 |}.

Definition store : db :=
  {| projects := [maple_court; cedar_flats];
     funding_sources := [lihtc9; fhlb; orca; home];
     applications := [cedar_home_2023; cedar_home_2024];
     time_entries := [] |}.


(** Two days of billable work and an internal meeting that was marked as
    invoiced although it is not billable. *)
Definition site_visit : TimeEntry :=
  {| te_id := 1; te_project_id := Some 1%Z; user_name := "Dana";
     description := "Site visit"; hours := 8; hourly_rate := 125;
     te_date := 739000; is_billable := Some true; is_invoiced := Some false |}.

Definition pro_forma : TimeEntry :=
  {| te_id := 2; te_project_id := Some 1%Z; user_name := "Dana";
     description := "Pro forma update"; hours := 6; hourly_rate := 125;
     te_date := 739001; is_billable := Some true; is_invoiced := Some true |}.

Definition staff_meeting : TimeEntry :=
  {| te_id := 3; te_project_id := None; user_name := "Lee";
     description := "Staff meeting"; hours := 2; hourly_rate := 100;
     te_date := 739002; is_billable := Some false; is_invoiced := Some true |}.

Definition timesheet : db :=
  {| projects := [maple_court; cedar_flats];
     funding_sources := [lihtc9; fhlb; orca; home];
     applications := [cedar_home_2023; cedar_home_2024];
     time_entries := [site_visit; pro_forma; staff_meeting] |}.


(** Two billable entries that are not invoiced yet. *)
Definition unbilled_pair : db :=
  {| projects := [maple_court; cedar_flats];
     funding_sources := [lihtc9; fhlb; orca; home];
     applications := [cedar_home_2023; cedar_home_2024];
     time_entries :=
       [site_visit;
        {| te_id := 2; te_project_id := None; user_name := "Dana";
           description := "Pro forma update"; hours := 6; hourly_rate := 125;
           te_date := 739001; is_billable := Some true;
           is_invoiced := Some false |}] |}.

(** A create request with negative hours. *)
Definition negative_hours : TimeTracking.Body.t :=
  {| TimeTracking.Body.project_id := Val 1%Z;
     TimeTracking.Body.user_name := Val "Dana"%string;
     TimeTracking.Body.description := Val "Correction"%string;
     TimeTracking.Body.hours := Val (Json.Int (-5));
     TimeTracking.Body.hourly_rate := Absent;
     TimeTracking.Body.date := Val "2024-05-01"%string;
     TimeTracking.Body.is_billable := Absent;
     TimeTracking.Body.is_invoiced := Absent |}.



(** An update request that carries only [hours]. *)
Definition only_hours (h : Json.value) : TimeTracking.Body.t :=
  {| TimeTracking.Body.project_id := Absent;
     TimeTracking.Body.user_name := Absent;
     TimeTracking.Body.description := Absent;
     TimeTracking.Body.hours := Val h;
     TimeTracking.Body.hourly_rate := Absent;
     TimeTracking.Body.date := Absent;
     TimeTracking.Body.is_billable := Absent;
     TimeTracking.Body.is_invoiced := Absent |}.

(** A calendar that knows two days. *)
Definition strptime (s : string) : option Z :=
  if String.eqb s "2024-05-01" then Some 739007%Z
  else if String.eqb s "2024-05-02" then Some 739008%Z
  else None.

Definition ilike (name pattern : string) : bool := String.eqb name pattern.

(** [float] on the one text that the requests above carry. *)
Definition float_of_str (s : string) : option Q :=
  if String.eqb s "0" then Some 0 else None.

End Examples.

(** ** Measures used in the further properties *)

(** The time at which the [k]-th next readiness poll starts when the polls
    before it are answered 404: each of them takes its duration and is
    followed by the pause of 30 seconds.  [first] is the index of the next
    poll and [start] the present time. *)
Fixpoint poll_start (w : SharePointService.world) (first start k : nat) : nat :=
  match k with
  | O => start
  | S k' =>
      poll_start w (S first)
                 (start + snd (SharePointService.get_site w first) + 30) k'
  end.

(** The calls of the first [k] rounds of the wait when each of these
    polls is answered 404, latest first: every round is the poll and
    the pause of 30 seconds that follows it. *)
Fixpoint poll_log (w : SharePointService.world) (group : string)
         (first start k : nat) : list (nat * SharePointService.call) :=
  match k with
  | O => []
  | S k' =>
      poll_log w group (S first)
               (start + snd (SharePointService.get_site w first) + 30) k'
        ++ [((start + snd (SharePointService.get_site w first))%nat,
             SharePointService.Sleep 30);
            (start, SharePointService.GetSite group)]
  end.

(** The state of the service after [k] such rounds. *)
Definition after_polls (w : SharePointService.world) (group : string)
           (st : SharePointService.state) (k : nat) : SharePointService.state :=
  {| SharePointService.now :=
       poll_start w (SharePointService.polls st) (SharePointService.now st) k;
     SharePointService.calls :=
       poll_log w group (SharePointService.polls st) (SharePointService.now st) k
         ++ SharePointService.calls st;
     SharePointService.polls := SharePointService.polls st + k |}.

(** The state of the service once the creation of the group has been
    requested with the mail nickname [mail_nickname]. *)
Definition group_requested (st : SharePointService.state)
           (project_name mail_nickname owner_user_id : string)
  : SharePointService.state :=
  {| SharePointService.now := SharePointService.now st;
     SharePointService.calls :=
       (SharePointService.now st,
        SharePointService.PostGroup project_name mail_nickname owner_user_id)
         :: SharePointService.calls st;
     SharePointService.polls := SharePointService.polls st |}.



(** Characters and strings of the mail nickname. *)
Definition is_lower_alnum (c : ascii) : bool :=
  let n := nat_of_ascii c in
  ((48 <=? n) && (n <=? 57) || (97 <=? n) && (n <=? 122))%nat.

Fixpoint string_forall (p : ascii -> bool) (s : string) : bool :=
  match s with
  | EmptyString => true
  | String c rest => p c && string_forall p rest
  end.

(** The project names for which the character tests of this development
    are those of Python: ASCII strings. *)
Definition ascii_only (s : string) : bool :=
  string_forall (fun c => (nat_of_ascii c <? 128)%nat) s.

(** The folders that the directory accepts, with its answers. *)
Definition accepted_folders (w : SharePointService.world) (folders : list string)
  : list SharePointService.json :=
  flat_map (fun f => match SharePointService.post_folder w f with
                     | SharePointService.Body o => [o]
                     | SharePointService.Raises _ => []
                     end) folders.

(** The sum of the counts of a distribution. *)
Definition sum_counts (distribution : list (string * nat)) : nat :=
  fold_right (fun kv acc => (snd kv + acc)%nat) 0%nat distribution.

(** ** More of src/routes/time_tracking.py: listing, invoice data, deletion *)

Module TimeQueries.

Section OrderBy.

Variable A : Type.
Variable key : A -> Z.

(** [ORDER BY key DESC].  The database fixes no order among rows of equal
    key; they come in table order here. *)
Fixpoint insert_desc_by (x : A) (l : list A) : list A :=
  match l with
  | [] => [x]
  | y :: r =>
      if (key x <? key y)%Z then y :: insert_desc_by x r else x :: y :: r
  end.

Definition order_by_desc (l : list A) : list A :=
  fold_right insert_desc_by [] l.

End OrderBy.

Arguments insert_desc_by {A} key x l.
Arguments order_by_desc {A} key l.

(** [s.lower()] on ASCII text *)
Fixpoint lower (s : string) : string :=
  match s with
  | EmptyString => EmptyString
  | String c rest => String (SharePointService.lower c) (lower rest)
  end.

(** [column == value] in a filter: a [NULL] column matches nothing. *)
Definition column_is (column : option bool) (value : bool) : bool :=
  match column with
  | Some b => Bool.eqb b value
  | None => false
  end.

(** The loaded project of an entry, [None] for [entry.project] being
    [None]. *)
Definition entry_project (d : db) (entry : TimeEntry) : option Project :=
  match te_project_id entry with
  | Some pid => get_project_row d pid
  | None => None
  end.

Record entry_item := {
  ei_entry : TimeEntry;
  ei_project : option (Z * string);
  ei_total_amount : Q
}.

Record invoice_item := {
  ii_id : Z;
  ii_date : Z;
  ii_project_name : string;
  ii_description : string;
  ii_hours : Q;
  ii_hourly_rate : Q;
  line_total : Q;
  ii_user_name : string
}.

Record invoice_data := {
  invoice_items : list invoice_item;
  total_amount : Q;
  total_hours : Q;
  items_count : nat
}.

Section Routes.

Variable strptime : string -> option Z.
Variable ilike : string -> string -> bool.

Definition filter_project (project_id : option Z) (q : list TimeEntry) : list TimeEntry :=
  match project_id with
  | Some pid =>
      filter (fun e => match te_project_id e with
                       | Some k => (k =? pid)%Z
                       | None => false
                       end) q
  | None => q
  end.

Definition filter_user (user_name : option string) (q : list TimeEntry) : list TimeEntry :=
  if Py.truthy_str user_name then
    match user_name with
    | Some u => filter (fun e => ilike (Database.user_name e) u) q
    | None => q
    end
  else q.

(** A date bound of the query; [None] when the date does not parse. *)
Definition filter_date (bound : option string) (keep : Z -> Z -> bool)
           (q : list TimeEntry) : option (list TimeEntry) :=
  if Py.truthy_str bound then
    match bound with
    | Some s =>
        match strptime s with
        | Some day => Some (filter (fun e => keep day (te_date e)) q)
        | None => None
        end
    | None => Some q
    end
  else Some q.

(** [if flag is not None: query.filter(column == (flag.lower() == 'true'))] *)
Definition filter_flag (flag : option string) (column : TimeEntry -> option bool)
           (q : list TimeEntry) : list TimeEntry :=
  match flag with
  | Some s => filter (fun e => column_is (column e) (String.eqb (lower s) "true")) q
  | None => q
  end.

(** The query arguments are [None] when missing; [project_id] is [None]
    also when it is empty. *)
Definition get_time_entries (d : db) (project_id : option Z)
           (user_name start_date end_date is_billable is_invoiced : option string)
  : response (list entry_item) :=
  let q1 := filter_user user_name (filter_project project_id (time_entries d)) in
  match filter_date start_date Z.leb q1 with
  | None => Failure 500 "ValueError"
  | Some q2 =>
      match filter_date end_date Z.geb q2 with
      | None => Failure 500 "ValueError"
      | Some q3 =>
          let q4 := filter_flag is_billable Database.is_billable q3 in
          let q5 := filter_flag is_invoiced Database.is_invoiced q4 in
          let time_entries := order_by_desc te_date q5 in
          Success 200
            (map (fun entry =>
                    {| ei_entry := entry;
                       ei_project :=
                         match entry_project d entry with
                         | Some p => Some (p_id p, p_name p)
                         | None => None
                         end;
                       ei_total_amount :=
                         Database.hours entry * Database.hourly_rate entry |})
                 time_entries)
      end
  end.

(** The rows selected by [get_invoice_data], in the order of the answer. *)
Definition unbilled_entries (d : db) (project_id : option Z) (user_name : option string)
  : list TimeEntry :=
  order_by_desc te_date
    (filter_user user_name
       (filter_project project_id
          (filter (fun e => column_is (Database.is_billable e) true
                            && column_is (Database.is_invoiced e) false)
                  (time_entries d)))).

Definition invoice_item_of (d : db) (entry : TimeEntry) : invoice_item :=
  {| ii_id := te_id entry;
     ii_date := te_date entry;
     ii_project_name :=
       match entry_project d entry with
       | Some p => p_name p
       | None => "General"
       end;
     ii_description := Database.description entry;
     ii_hours := Database.hours entry;
     ii_hourly_rate := Database.hourly_rate entry;
     line_total := Database.hours entry * Database.hourly_rate entry;
     ii_user_name := Database.user_name entry |}.

Definition get_invoice_data (d : db) (project_id : option Z) (user_name : option string)
  : response invoice_data :=
  let unbilled_entries := unbilled_entries d project_id user_name in
  let invoice_items := map (invoice_item_of d) unbilled_entries in
  let total_amount :=
    fold_left (fun total entry =>
                 total + Database.hours entry * Database.hourly_rate entry)
              unbilled_entries 0 in
  Success 200
    {| invoice_items := invoice_items;
       total_amount := total_amount;
       total_hours := Py.sum (map ii_hours invoice_items);
       items_count := List.length invoice_items |}.

End Routes.

(** [db.session.delete(time_entry)] after [get_or_404]. *)
Definition delete_time_entry (entry_id : Z) (d : db) : response unit * db :=
  match TimeTracking.get_entry d entry_id with
  | None => (Failure 500 not_found_message, d)
  | Some time_entry =>
      (Success 200 tt,
       TimeTracking.with_time_entries d
         (filter (fun e => negb (te_id e =? te_id time_entry)%Z) (time_entries d)))
  end.

End TimeQueries.

(** Descending order of a key. *)
Definition key_desc {A : Type} (key : A -> Z) (a b : A) : Prop :=
  (key b <= key a)%Z.

(** ** The bearer token of the SharePoint service *)

Module Token.

(** The two attributes of the service that cache the token; times are in
    seconds. *)
Record cell := {
  access_token : option string;
  token_expires_at : option Z
}.

(** The cell of a new service object. *)
Definition init : cell := {| access_token := None; token_expires_at := None |}.

(** The JSON object of the identity endpoint. *)
Record token_data := {
  td_access_token : option string;
  td_expires_in : option Z
}.

(** The answer of the identity endpoint: a body, or a status that
    [raise_for_status] turns into an [HTTPError]. *)
Inductive identity_reply :=
| Granted (data : token_data)
| Refused (status_code : nat).

Record outcome := {
  returned : SharePointService.result string;
  cache : cell;
  requested : bool
}.

(** The token that may be used again at time [now], if any: it is not
    empty and its expiry has not passed. *)
Definition cached (now : Z) (self : cell) : option string :=
  match access_token self, token_expires_at self with
  | Some token, Some expires_at =>
      if Py.truthy_str (Some token) && (now <? expires_at)%Z then Some token else None
  | _, _ => None
  end.

(** [now] is the clock when the method is entered and [latency] the
    seconds the request to the identity endpoint takes; [requested] tells
    whether that request was made. *)
Definition _get_access_token (now : Z) (latency : nat) (reply : identity_reply)
           (self : cell) : outcome :=
  match cached now self with
  | Some token =>
      {| returned := SharePointService.Ret token; cache := self; requested := false |}
  | None =>
      match reply with
      | Refused status_code =>
          {| returned := SharePointService.Raise (SharePointService.HTTPError status_code);
             cache := self; requested := true |}
      | Granted token_data =>
          match td_access_token token_data with
          | None =>
              {| returned :=
                   SharePointService.Raise (SharePointService.KeyError "access_token");
                 cache := self; requested := true |}
          | Some token =>
              let expires_in :=
                match td_expires_in token_data with
                | Some seconds => seconds
                | None => 3600%Z
                end in
              {| returned := SharePointService.Ret token;
                 cache := {| access_token := Some token;
                             token_expires_at :=
                               Some (now + Z.of_nat latency + (expires_in - 300))%Z |};
                 requested := true |}
          end
      end
  end.

End Token.

(** ** More of src/routes/ai_chat.py: project insights *)

Module Insights.

(** The insights, by title, with the numbers their messages show. *)
Inductive insight :=
| SignificantFundingGap (funding_gap gap_percentage : Q)
| ModerateFundingGap (funding_gap : Q)
| FullyFunded
| PendingApplications (count : nat) (pending_amount : Q)
| PreDevelopmentPhase
| FinancingPhase.

Record metrics := {
  m_total_cost : option Q;
  m_funding_secured : Q;
  m_funding_requested : Q;
  m_funding_gap : Q
}.

Record insights_data := {
  project_name : string;
  insights : list insight;
  project_metrics : metrics
}.

Definition gt (a b : Q) : bool := negb (Qle_bool a b).

(** The funding-gap analysis; the quotient and the product of the
    percentage are rounded to doubles. *)
Definition funding_insights (total_cost : option Q) (funding_gap : Q) : list insight :=
  if gt funding_gap 0 then
    let gap_percentage :=
      match total_cost with
      | Some cost =>
          if Py.truthy_num total_cost
          then Float64.mul (Float64.div funding_gap cost) 100 else 0
      | None => 0
      end in
    if gt gap_percentage 50 then [SignificantFundingGap funding_gap gap_percentage]
    else if gt gap_percentage 20 then [ModerateFundingGap funding_gap]
    else []
  else [FullyFunded].

Definition is_pending (a : Application) : bool :=
  existsb (String.eqb (ApplicationStatus_value (a_status a)))
          ["Draft"%string; "Submitted"%string; "Under Review"%string].

Definition pending_insights (apps : list Application) : list insight :=
  match filter is_pending apps with
  | [] => []
  | pending_apps =>
      [PendingApplications
         (List.length pending_apps)
         (Py.sum (map (fun app => Py.or_zero (requested_amount app)) pending_apps))]
  end.

Definition phase_insights (phase : option ProjectPhase) : list insight :=
  match phase with
  | Some ph =>
      if String.eqb (ProjectPhase_value ph) "Pre-Development" then [PreDevelopmentPhase]
      else if String.eqb (ProjectPhase_value ph) "Application/Financing"
           then [FinancingPhase]
           else []
  | None => []
  end.

Definition get_project_insights (d : db) (project_id : Z) : response insights_data :=
  match get_project_row d project_id with
  | None => Failure 500 not_found_message
  | Some project =>
      let total_awarded := Projects.total_awarded d project in
      let total_requested := Projects.total_requested d project in
      let funding_gap := Py.or_zero (total_cost project) - total_awarded in
      Success 200
        {| project_name := p_name project;
           insights :=
             funding_insights (total_cost project) funding_gap
               ++ pending_insights (project_applications d project)
               ++ phase_insights (p_phase project);
           project_metrics :=
             {| m_total_cost := total_cost project;
                m_funding_secured := total_awarded;
                m_funding_requested := total_requested;
                m_funding_gap := funding_gap |} |}
  end.

End Insights.

(** ** More of src/routes/applications.py: creating an application *)

Module ApplicationWrites.

Module Body.
(** JSON body of the create request; [notes] and [documents_folder] go to
    columns that the store record does not carry. *)
Record t := {
  project_id : field Z;
  funding_source_id : field Z;
  status : field string;
  application_round : field string;
  requested_amount : field Q;
  awarded_amount : field Q;
  submission_date : field string;
  decision_date : field string
}.
End Body.

(** [ApplicationStatus(s)]; [None] is [ValueError]. *)
Definition ApplicationStatus_of_value (s : string) : option ApplicationStatus :=
  find (fun st => String.eqb (ApplicationStatus_value st) s) Applications.all_statuses.

(** [FundingSource.query.get(id)] *)
Definition get_funding_source_row (d : db) (source_id : Z) : option FundingSource :=
  find (fun s => (fs_id s =? source_id)%Z) (funding_sources d).

Definition next_id (l : list Application) : Z :=
  (fold_right Z.max 0 (map a_id l) + 1)%Z.

Definition with_applications (d : db) (l : list Application) : db :=
  {| projects := projects d; funding_sources := funding_sources d;
     applications := l; time_entries := time_entries d |}.

Section Routes.

Variable strptime : string -> option Z.

(** A date of the body: [Some None] when it is missing or empty, [None]
    when it does not parse. *)
Definition parse_date (f : field string) : option (option Z) :=
  if Py.truthy_str (get f) then
    match get f with
    | Some s =>
        match strptime s with
        | Some day => Some (Some day)
        | None => None
        end
    | None => Some None
    end
  else Some None.

(** [utcnow] is the default of [created_at]. *)
Definition create_application (utcnow : Z) (data : Body.t) (d : db)
  : response Z * db :=
  if negb (Py.truthy_int (get (Body.project_id data))) then
    (Failure 400 "Project ID is required", d)
  else if negb (Py.truthy_int (get (Body.funding_source_id data))) then
    (Failure 400 "Funding source ID is required", d)
  else
    match get (Body.project_id data), get (Body.funding_source_id data) with
    | Some pid, Some sid =>
        match get_project_row d pid with
        | None => (Failure 404 "Project not found", d)
        | Some project =>
            match get_funding_source_row d sid with
            | None => (Failure 404 "Funding source not found", d)
            | Some funding_source =>
                match parse_date (Body.submission_date data),
                      parse_date (Body.decision_date data) with
                | Some submission_date, Some decision_date =>
                    let status :=
                      if Py.truthy_str (get (Body.status data)) then
                        match get (Body.status data) with
                        | Some s => ApplicationStatus_of_value s
                        | None => Some DRAFT
                        end
                      else Some DRAFT in
                    match status with
                    | None => (Failure 500 "ValueError", d)
                    | Some status =>
                        let application :=
                          {| a_id := next_id (applications d);
                             a_project_id := pid;
                             Database.funding_source_id := sid;
                             a_status := status;
                             Database.application_round :=
                               get (Body.application_round data);
                             Database.requested_amount :=
                               get (Body.requested_amount data);
                             Database.awarded_amount :=
                               get (Body.awarded_amount data);
                             a_created_at := Some utcnow |} in
                        (Success 201 (a_id application),
                         with_applications d (applications d ++ [application]))
                    end
                | _, _ => (Failure 500 "ValueError", d)
                end
            end
        end
    | _, _ => (Failure 500 "KeyError", d)
    end.

End Routes.

End ApplicationWrites.

(** ** More of src/routes/projects.py: updating a project *)

Module ProjectWrites.

Module Body.
(** JSON body of the update request; [address], [zip_code] and
    [housing_type] go to columns that the store record does not carry. *)
Record t := {
  name : field string;
  city : field string;
  state : field string;
  phase : field string;
  project_type : field string;
  population_type : field string;
  total_units : field Z;
  total_cost : field Q;
  sharepoint_site_url : field string;
  sharepoint_email : field string
}.
End Body.

(** [project.column = data[key]] when the key is in the body. *)
Definition assign {A} (f : field A) (old : option A) : option A :=
  if has_key f then get f else old.

(** The assignments of [update_project]: [None] when [ProjectPhase(...)]
    raises or when the commit refuses a [NULL] name. *)
Definition apply_update (data : Body.t) (p : Project) : option Project :=
  let new_name :=
    match Body.name data with
    | Absent => Some (p_name p)
    | f => get f
    end in
  let new_phase :=
    match Body.phase data with
    | Absent => Some (p_phase p)
    | Null => None
    | Val s =>
        match ProjectPhase_of_value s with
        | Some ph => Some (Some ph)
        | None => None
        end
    end in
  match new_name, new_phase with
  | Some new_name, Some new_phase =>
      Some {| p_id := p_id p;
              p_name := new_name;
              p_city := assign (Body.city data) (p_city p);
              p_state := assign (Body.state data) (p_state p);
              p_phase := new_phase;
              Database.project_type :=
                assign (Body.project_type data) (Database.project_type p);
              Database.population_type :=
                assign (Body.population_type data) (Database.population_type p);
              Database.total_units :=
                assign (Body.total_units data) (Database.total_units p);
              Database.total_cost :=
                assign (Body.total_cost data) (Database.total_cost p);
              client_id := client_id p;
              Database.sharepoint_site_url :=
                assign (Body.sharepoint_site_url data) (Database.sharepoint_site_url p);
              Database.sharepoint_email :=
                assign (Body.sharepoint_email data) (Database.sharepoint_email p) |}
  | _, _ => None
  end.

Definition with_projects (d : db) (l : list Project) : db :=
  {| projects := l; funding_sources := funding_sources d;
     applications := applications d; time_entries := time_entries d |}.

Definition update_project (project_id : Z) (data : Body.t) (d : db)
  : response (Z * string) * db :=
  match get_project_row d project_id with
  | None => (Failure 500 not_found_message, d)
  | Some project =>
      match apply_update data project with
      | None => (Failure 500 "exception", d)
      | Some p' =>
          (Success 200 (p_id p', p_name p'),
           with_projects d
             (map (fun p => if (p_id p =? p_id p')%Z then p' else p) (projects d)))
      end
  end.

End ProjectWrites.

(** ** More of src/routes/sharepoint.py: site information *)

Module SharePointInfo.

Record info := {
  i_project_id : Z;
  i_project_name : string;
  i_sharepoint_site_url : option string;
  i_sharepoint_email : option string;
  has_sharepoint_site : bool
}.

Definition get_project_sharepoint_info (d : db) (project_id : Z) : response info :=
  match get_project_row d project_id with
  | None => Failure 500 not_found_message
  | Some project =>
      Success 200
        {| i_project_id := p_id project;
           i_project_name := p_name project;
           i_sharepoint_site_url := sharepoint_site_url project;
           i_sharepoint_email := sharepoint_email project;
           has_sharepoint_site := Py.truthy_str (sharepoint_site_url project) |}
  end.

End SharePointInfo.

(** ** Sample requests for the further properties *)

Module Requests.

(** Maple Court applies to the Affordable Housing Program and is awarded
    250,000. *)
Definition maple_fhlb : ApplicationWrites.Body.t :=
  {| ApplicationWrites.Body.project_id := Val 1%Z;
     ApplicationWrites.Body.funding_source_id := Val 2%Z;
     ApplicationWrites.Body.status := Val "Approved"%string;
     ApplicationWrites.Body.application_round := Absent;
     ApplicationWrites.Body.requested_amount := Val 400000;
     ApplicationWrites.Body.awarded_amount := Val 250000;
     ApplicationWrites.Body.submission_date := Val "2024-05-01"%string;
     ApplicationWrites.Body.decision_date := Null |}.

(** An update of a project that carries only the given keys. *)
Definition project_keys (total_cost : field Q) (sharepoint_site_url : field string)
  : ProjectWrites.Body.t :=
  {| ProjectWrites.Body.name := Absent;
     ProjectWrites.Body.city := Absent;
     ProjectWrites.Body.state := Absent;
     ProjectWrites.Body.phase := Absent;
     ProjectWrites.Body.project_type := Absent;
     ProjectWrites.Body.population_type := Absent;
     ProjectWrites.Body.total_units := Absent;
     ProjectWrites.Body.total_cost := total_cost;
     ProjectWrites.Body.sharepoint_site_url := sharepoint_site_url;
     ProjectWrites.Body.sharepoint_email := Absent |}.

End Requests.

(** * Proofs *)

(** ** Rounding to doubles *)

Lemma round_half_even_near (q : Q) :
  q - (1 # 2) <= inject_Z (Float64.round_half_even q) <= q + (1 # 2).
Proof.
  unfold Float64.round_half_even.
  pose proof (Qfloor_le q) as H1. pose proof (Qlt_floor q) as H2.
  rewrite inject_Z_plus in H2. change (inject_Z 1) with 1 in H2.
  destruct (Qcompare (q - inject_Z (Qfloor q)) (1 # 2)) eqn:E.
  - apply Qeq_alt in E. destruct (Z.even (Qfloor q));
      [|rewrite inject_Z_plus; change (inject_Z 1) with 1]; lra.
  - apply Qlt_alt in E. lra.
  - apply Qgt_alt in E. rewrite inject_Z_plus. change (inject_Z 1) with 1. lra.
Qed.

Lemma round_half_even_le (y : Q) (n : Z) :
  y <= inject_Z n -> (Float64.round_half_even y <= n)%Z.
Proof.
  intros Hn. pose proof (round_half_even_near y) as [_ U].
  destruct (Z_lt_le_dec n (Float64.round_half_even y)) as [N|N]; [|exact N].
  assert (N1 : (n + 1 <= Float64.round_half_even y)%Z) by lia.
  rewrite Zle_Qle, inject_Z_plus in N1. change (inject_Z 1) with 1 in N1. lra.
Qed.

Lemma round_half_even_ge (y : Q) (n : Z) :
  inject_Z n <= y -> (n <= Float64.round_half_even y)%Z.
Proof.
  intros Hn. pose proof (round_half_even_near y) as [L _].
  destruct (Z_lt_le_dec (Float64.round_half_even y) n) as [N|N]; [|exact N].
  assert (N1 : (Float64.round_half_even y + 1 <= n)%Z) by lia.
  rewrite Zle_Qle, inject_Z_plus in N1. change (inject_Z 1) with 1 in N1. lra.
Qed.

Lemma pow2_pos (e : Z) : 0 < 2 ^ e.
Proof. apply Qpower_0_lt. reflexivity. Qed.

Lemma pow2_Z (k : Z) : (0 <= k)%Z -> inject_Z (2 ^ k) == 2 ^ k.
Proof. intros H. rewrite Zpower_Qpower by exact H. reflexivity. Qed.

Lemma pow2_plus (a b : Z) : 2 ^ (a + b) == 2 ^ a * 2 ^ b.
Proof. apply Qpower_plus. discriminate. Qed.

Lemma ilog2_lower (q : Q) : 0 < q -> 2 ^ Float64.ilog2 q <= q.
Proof.
  intros Hq. unfold Float64.ilog2.
  set (a := Z.log2 (Qnum q)). set (b := Z.log2 (Z.pos (Qden q))).
  destruct (Qle_bool (2 ^ (a - b)) q) eqn:E; [now apply Qle_bool_iff|].
  destruct q as [n d]. cbn [Qnum Qden] in *.
  assert (Hn : (0 < n)%Z) by (unfold Qlt in Hq; simpl in Hq; lia).
  assert (Ha : (0 <= a)%Z) by apply Z.log2_nonneg.
  assert (Hb : (0 <= b)%Z) by apply Z.log2_nonneg.
  assert (A : (2 ^ a <= n)%Z) by (apply Z.log2_spec; exact Hn).
  assert (B : (Z.pos d < 2 ^ (b + 1))%Z).
  { replace (b + 1)%Z with (Z.succ b) by lia. apply Z.log2_spec. lia. }
  replace (a - b - 1)%Z with (a + - (b + 1))%Z by lia.
  rewrite pow2_plus, Qpower_opp, <- !pow2_Z by lia.
  assert (P : (0 < 2 ^ (b + 1))%Z) by (apply Z.pow_pos_nonneg; lia).
  assert (P0 : (0 < 2 ^ a)%Z) by (apply Z.pow_pos_nonneg; lia).
  rewrite (Qmake_Qdiv n d).
  apply Qle_shift_div_l; [change 0 with (inject_Z 0); rewrite <- Zlt_Qlt; lia|].
  setoid_replace (inject_Z (2 ^ a) * / inject_Z (2 ^ (b + 1)) * inject_Z (Z.pos d))
    with (inject_Z (2 ^ a * Z.pos d) / inject_Z (2 ^ (b + 1))).
  2:{ rewrite inject_Z_mult. field. intros H. 
      assert (H' : inject_Z 0 < inject_Z (2 ^ (b + 1))) by (rewrite <- Zlt_Qlt; lia).
      change (inject_Z 0) with 0 in H'. rewrite H in H'. discriminate. }
  apply Qle_shift_div_r; [change 0 with (inject_Z 0); rewrite <- Zlt_Qlt; lia|].
  rewrite <- inject_Z_mult, <- Zle_Qle. nia.
Qed.

Lemma Qabs_of_pos (q : Q) : 0 < q -> Qabs q = q.
Proof.
  destruct q as [n d]. unfold Qlt, Qabs. simpl. intros H.
  rewrite Z.abs_eq by lia. reflexivity.
Qed.

(** [ulp q = 2^eps] with [eps <= k - 52] for [0 < q <= 2^k]. *)
Lemma ulp_exponent (q : Q) (k : Z) :
  0 < q -> q <= 2 ^ k -> (-1022 <= k)%Z ->
  exists eps, (eps <= k - 52)%Z /\ Float64.ulp q = 2 ^ eps.
Proof.
  intros Hq Hk Hmin. unfold Float64.ulp. rewrite (Qabs_of_pos q Hq).
  eexists. split; [|reflexivity].
  assert (L : (Float64.ilog2 q <= k)%Z).
  { apply (Qpower_le_compat_l_inv 2); [|reflexivity].
    eapply Qle_trans; [apply ilog2_lower; exact Hq|exact Hk]. }
  lia.
Qed.

Lemma round_nonneg (q : Q) : 0 <= q -> 0 <= Float64.round q.
Proof.
  intros Hq. unfold Float64.round. destruct (Qeq_bool q 0); [apply Qle_refl|].
  pose proof (pow2_pos (Z.max (Float64.ilog2 (Qabs q)) (-1022) - 52)) as U.
  fold (Float64.ulp q) in U.
  apply Qmult_le_0_compat; [|lra].
  change 0 with (inject_Z 0). rewrite <- Zle_Qle. apply round_half_even_ge.
  change (inject_Z 0) with 0. apply Qle_shift_div_l; [exact U|]. lra.
Qed.

(** A bound that is an integer below [2^52] is kept by the rounding. *)
Lemma round_le_int (q : Q) (B k : Z) :
  0 <= q -> q <= inject_Z B -> inject_Z B <= 2 ^ k -> (-1022 <= k <= 52)%Z ->
  Float64.round q <= inject_Z B.
Proof.
  intros H0 HB Hk Hr. unfold Float64.round.
  destruct (Qeq_bool q 0) eqn:Z0; [lra|].
  assert (Hq : 0 < q).
  { destruct (Qlt_le_dec 0 q) as [P|P]; [exact P|].
    assert (E : q == 0) by lra. apply Qeq_bool_iff in E. congruence. }
  assert (Hk' : q <= 2 ^ k) by lra.
  destruct (ulp_exponent q k Hq Hk' ltac:(lia)) as (eps & He & Hu).
  rewrite Hu. pose proof (pow2_pos eps) as U.
  assert (G : inject_Z (B * 2 ^ (- eps)) * 2 ^ eps == inject_Z B).
  { rewrite inject_Z_mult, pow2_Z by lia. rewrite <- Qmult_assoc, <- pow2_plus.
    replace (- eps + eps)%Z with 0%Z by lia. change (2 ^ 0) with 1. ring. }
  rewrite <- G. apply Qmult_le_compat_r; [|lra].
  rewrite <- Zle_Qle. apply round_half_even_le.
  apply Qle_shift_div_r; [exact U|]. rewrite G. exact HB.
Qed.

(** The rounding moves a number of [(0, 2^k]] by at most [2^(k-53)]. *)
Lemma round_error (q : Q) (k : Z) :
  0 <= q -> q <= 2 ^ k -> (-1022 <= k)%Z ->
  q - 2 ^ (k - 53) <= Float64.round q <= q + 2 ^ (k - 53).
Proof.
  intros H0 Hk Hr. pose proof (pow2_pos (k - 53)) as P.
  unfold Float64.round.
  destruct (Qeq_bool q 0) eqn:Z0; [apply Qeq_bool_iff in Z0; lra|].
  assert (Hq : 0 < q).
  { destruct (Qlt_le_dec 0 q) as [L|L]; [exact L|].
    assert (E : q == 0) by lra. apply Qeq_bool_iff in E. congruence. }
  destruct (ulp_exponent q k Hq Hk Hr) as (eps & He & Hu).
  rewrite Hu. pose proof (pow2_pos eps) as U.
  pose proof (round_half_even_near (q / 2 ^ eps)) as [L R].
  set (r := inject_Z (Float64.round_half_even (q / 2 ^ eps))) in *.
  assert (Y : q / 2 ^ eps * 2 ^ eps == q) by (field; lra).
  assert (H2 : 2 ^ eps * (1 # 2) <= 2 ^ (k - 53)).
  { replace (k - 53)%Z with ((k - 52) + -1)%Z by lia.
    rewrite pow2_plus. change (2 ^ (-1)) with (1 # 2).
    apply Qmult_le_compat_r; [|lra].
    apply Qpower_le_compat_l; [exact He|lra]. }
  split; nra.
Qed.


(** The double-precision percentage of [a] out of [t]. *)
Lemma percentage_bounds (a t : Z) :
  (0 <= a <= t)%Z -> (0 < t)%Z ->
  let x := Float64.mul (Float64.div (inject_Z a) (inject_Z t)) 100 in
  0 <= x <= 100 /\
  inject_Z a / inject_Z t * 100 - 2 ^ (-45) <= x
    <= inject_Z a / inject_Z t * 100 + 2 ^ (-45).
Proof.
  intros Ha Ht x. subst x. unfold Float64.mul, Float64.div.
  set (q := inject_Z a / inject_Z t).
  assert (T : 0 < inject_Z t) by (change 0 with (inject_Z 0); rewrite <- Zlt_Qlt; lia).
  assert (A0 : 0 <= inject_Z a) by (change 0 with (inject_Z 0); rewrite <- Zle_Qle; lia).
  assert (A1 : inject_Z a <= inject_Z t) by (rewrite <- Zle_Qle; lia).
  assert (Q0 : 0 <= q) by (apply Qle_shift_div_l; [exact T|lra]).
  assert (Q1 : q <= 1) by (apply Qle_shift_div_r; [exact T|lra]).
  pose proof (round_nonneg q Q0) as X0.
  pose proof (round_le_int q 1 0 Q0 Q1 ltac:(apply Qle_refl) ltac:(lia)) as X1.
  change (inject_Z 1) with 1 in X1.
  pose proof (round_error q 0 Q0 Q1 ltac:(lia)) as [E1 E2].
  set (x1 := Float64.round q) in *.
  assert (Y0 : 0 <= x1 * 100) by lra.
  assert (Y1 : x1 * 100 <= inject_Z 100) by (change (inject_Z 100) with 100; lra).
  assert (P7 : inject_Z 100 <= 2 ^ 7) by (vm_compute; discriminate).
  pose proof (round_nonneg _ Y0) as Z0.
  pose proof (round_le_int _ 100 7 Y0 Y1 P7 ltac:(lia)) as Z1.
  change (inject_Z 100) with 100 in *.
  pose proof (round_error (x1 * 100) 7 Y0 ltac:(lra) ltac:(lia)) as [F1 F2].
  change (0 - 53)%Z with (-53)%Z in *. change (7 - 53)%Z with (-46)%Z in *.
  assert (V : 2 ^ (-53) * 100 + 2 ^ (-46) <= 2 ^ (-45)) by (vm_compute; discriminate).
  split; [split; assumption|]. split; lra.
Qed.


(** ** Arithmetic of the Python helpers *)

Lemma or_zero_if_set (x : option Q) : Py.or_zero x == Spec.if_set x.
Proof.
  destruct x as [v|]; simpl; [|reflexivity].
  destruct (Qeq_bool v 0) eqn:E; [|reflexivity].
  apply Qeq_bool_iff in E. symmetry. exact E.
Qed.

Lemma fold_left_Qplus (l : list Q) (a : Q) :
  fold_left Qplus l a == a + Spec.sigma l.
Proof.
  revert a. induction l as [|x l IH]; intros a; simpl.
  - ring.
  - rewrite IH. ring.
Qed.

Lemma py_sum_sigma (l : list Q) : Py.sum l == Spec.sigma l.
Proof. unfold Py.sum. rewrite fold_left_Qplus. ring. Qed.

Lemma sigma_map_ext {A} (f g : A -> Q) (l : list A) :
  (forall a, f a == g a) -> Spec.sigma (map f l) == Spec.sigma (map g l).
Proof.
  intros H. induction l as [|a l IH]; simpl; [reflexivity|].
  rewrite H, IH. reflexivity.
Qed.

Lemma total_awarded_spec (d : db) (p : Project) :
  Projects.total_awarded d p == Spec.total_awarded d p.
Proof.
  unfold Projects.total_awarded, Spec.total_awarded.
  rewrite py_sum_sigma. apply sigma_map_ext. intros a. apply or_zero_if_set.
Qed.

Lemma code_gap_spec (d : db) (p : Project) :
  Py.or_zero (total_cost p) - Projects.total_awarded d p == Spec.funding_gap d p.
Proof.
  unfold Spec.funding_gap. rewrite or_zero_if_set, total_awarded_spec. reflexivity.
Qed.

(** ** Funding gap (src/routes/projects.py) *)






(** ** Recommendation engine (src/routes/ai_chat.py) *)

Lemma Qle_bool_compat (a b c d : Q) :
  a == c -> b == d -> Qle_bool a b = Qle_bool c d.
Proof.
  intros H1 H2.
  destruct (Qle_bool a b) eqn:E1, (Qle_bool c d) eqn:E2; try reflexivity.
  - apply Qle_bool_iff in E1. rewrite H1, H2 in E1.
    apply Qle_bool_iff in E1. congruence.
  - apply Qle_bool_iff in E2. rewrite <- H1, <- H2 in E2.
    apply Qle_bool_iff in E2. congruence.
Qed.

Lemma is_text_eqb (x : option string) (s : string) :
  AiChat.opt_str_eqb x s = Spec.is_text x s.
Proof.
  destruct x as [v|]; simpl; [|reflexivity].
  destruct (string_dec v s) as [->|N].
  - apply String.eqb_refl.
  - apply String.eqb_neq. exact N.
Qed.

Lemma type_value_is (s : FundingSource) (t : FundingSourceType) :
  String.eqb (FundingSourceType_value (fs_type s)) (FundingSourceType_value t)
  = Spec.type_is s t.
Proof.
  unfold Spec.type_is.
  destruct (Spec.FundingSourceType_eq_dec (fs_type s) t) as [->|N].
  - apply String.eqb_refl.
  - destruct (fs_type s), t; try reflexivity; congruence.
Qed.

Lemma units_rule (p : Project) :
  Py.truthy_int (total_units p)
  && match total_units p with Some n => (20 <=? n)%Z | None => false end
  = Spec.units_at_least p 20.
Proof.
  unfold Spec.units_at_least. destruct (total_units p) as [n|]; simpl; [|reflexivity].
  destruct (20 <=? n)%Z eqn:E; [|apply andb_false_r].
  apply Z.leb_le in E. destruct (n =? 0)%Z eqn:E0; [|reflexivity].
  apply Z.eqb_eq in E0. lia.
Qed.

Lemma score_source_guarded (d : db) (p : Project) (s : FundingSource) :
  fst (AiChat.score_source d p s) = Spec.match_score_guarded d p s.
Proof.
  unfold AiChat.score_source, Spec.match_score_guarded.
  rewrite <- andb_assoc, units_rule.
  change "LIHTC 9%"%string with (FundingSourceType_value LIHTC_9_PERCENT).
  change "FHLB AHP"%string with (FundingSourceType_value FHLB_AHP).
  change "HOME"%string with (FundingSourceType_value HOME).
  rewrite !type_value_is. unfold AiChat.opt_str_in. simpl existsb.
  rewrite !is_text_eqb, orb_false_r.
  assert (G : Spec.gap_in_nonzero_award_range d p s
              = if Py.truthy_num (award_amount_min s)
                   && Py.truthy_num (award_amount_max s)
                then match award_amount_min s, award_amount_max s with
                     | Some lo, Some hi =>
                         AiChat.between lo
                           (Py.or_zero (total_cost p) - Projects.total_awarded d p) hi
                     | _, _ => false
                     end
                else false).
  { unfold Spec.gap_in_nonzero_award_range, AiChat.between.
    destruct (award_amount_min s) as [lo|], (award_amount_max s) as [hi|];
      simpl; try reflexivity.
    - rewrite (Qle_bool_compat lo _ lo (Spec.funding_gap d p)
                 (Qeq_refl lo) (code_gap_spec d p)).
      rewrite (Qle_bool_compat _ hi (Spec.funding_gap d p) hi
                 (code_gap_spec d p) (Qeq_refl hi)).
      destruct (negb (Qeq_bool lo 0)), (negb (Qeq_bool hi 0)); reflexivity.
    - now destruct (negb (Qeq_bool lo 0)). }
  rewrite G. unfold Spec.rule.
  destruct (Spec.type_is s LIHTC_9_PERCENT && Spec.units_at_least p 20);
    destruct (Spec.type_is s FHLB_AHP && Spec.is_text (population_type p) "Family");
    destruct (Spec.type_is s HOME
              && (Spec.is_text (project_type p) "New Construction"
                  || Spec.is_text (project_type p) "Rehabilitation"));
    destruct (Py.truthy_num (award_amount_min s) && Py.truthy_num (award_amount_max s));
    destruct (award_amount_min s) as [lo|], (award_amount_max s) as [hi|];
    cbn [fst snd]; try reflexivity;
    destruct (AiChat.between lo _ hi); reflexivity.
Qed.

Lemma insert_desc_perm (x : AiChat.recommendation) (l : list AiChat.recommendation) :
  Permutation (AiChat.insert_desc x l) (x :: l).
Proof.
  induction l as [|y r IH]; simpl; [apply Permutation_refl|].
  destruct (AiChat.match_score x <? AiChat.match_score y)%Z.
  - apply perm_trans with (y :: x :: r); [now apply perm_skip|apply perm_swap].
  - apply Permutation_refl.
Qed.

Lemma sort_desc_perm (l : list AiChat.recommendation) :
  Permutation (AiChat.sort_desc l) l.
Proof.
  induction l as [|x l IH]; simpl; [constructor|].
  eapply perm_trans; [apply insert_desc_perm|now apply perm_skip].
Qed.

Lemma insert_desc_sorted (x : AiChat.recommendation) (l : list AiChat.recommendation) :
  StronglySorted score_desc l -> StronglySorted score_desc (AiChat.insert_desc x l).
Proof.
  induction 1 as [|y r Hr IH Hy]; simpl.
  - repeat constructor.
  - destruct (AiChat.match_score x <? AiChat.match_score y)%Z eqn:E.
    + apply Z.ltb_lt in E. constructor; [exact IH|].
      apply (Permutation_Forall (Permutation_sym (insert_desc_perm x r))).
      constructor; [unfold score_desc; lia|exact Hy].
    + apply Z.ltb_ge in E. constructor; [now constructor|].
      constructor; [exact E|].
      eapply Forall_impl; [|exact Hy]. unfold score_desc. intros z Hz. lia.
Qed.

Lemma sort_desc_sorted (l : list AiChat.recommendation) :
  StronglySorted score_desc (AiChat.sort_desc l).
Proof.
  induction l as [|x l IH]; simpl; [constructor|now apply insert_desc_sorted].
Qed.

Lemma insert_desc_filter (k : Z) (x : AiChat.recommendation) l :
  filter (has_score k) (AiChat.insert_desc x l) = filter (has_score k) (x :: l).
Proof.
  induction l as [|y r IH]; [reflexivity|].
  cbn [AiChat.insert_desc].
  destruct (AiChat.match_score x <? AiChat.match_score y)%Z eqn:E; [|reflexivity].
  apply Z.ltb_lt in E. cbn [filter] in *. rewrite IH. unfold has_score.
  destruct (AiChat.match_score x =? k)%Z eqn:Ex; [|reflexivity].
  destruct (AiChat.match_score y =? k)%Z eqn:Ey; [|reflexivity].
  apply Z.eqb_eq in Ex, Ey. lia.
Qed.

(** Stability: among recommendations of one score the order of the input
    is kept. *)
Lemma sort_desc_stable (k : Z) (l : list AiChat.recommendation) :
  filter (has_score k) (AiChat.sort_desc l) = filter (has_score k) l.
Proof.
  induction l as [|x l IH]; [reflexivity|].
  cbn [AiChat.sort_desc fold_right]. rewrite insert_desc_filter.
  cbn [filter]. fold (AiChat.sort_desc l). now rewrite IH.
Qed.

Lemma available_sources_spec (d : db) (p : Project) (s : FundingSource) :
  In s (AiChat.available_sources d p) <->
  In s (funding_sources d) /\ is_active s = Some true /\
  ~ In (fs_id s) (map funding_source_id (project_applications d p)).
Proof.
  unfold AiChat.available_sources, AiChat.all_sources, AiChat.applied_source_ids.
  rewrite !filter_In, negb_true_iff. split.
  - intros [[Hin Ha] Hn]. split; [exact Hin|]. split.
    + destruct (is_active s) as [[|]|]; congruence.
    + intros Hc. assert (E : existsb (Z.eqb (fs_id s))
                     (map funding_source_id (project_applications d p)) = true).
      { apply existsb_exists. exists (fs_id s). split; [exact Hc|apply Z.eqb_refl]. }
      congruence.
  - intros (Hin & Ha & Hn). rewrite Ha. repeat split; auto.
    destruct (existsb _ _) eqn:E; [|reflexivity].
    apply existsb_exists in E. destruct E as (x & Hx & Ex).
    apply Z.eqb_eq in Ex. subst x. contradiction.
Qed.

Lemma candidates_spec (d : db) (p : Project) (r : AiChat.recommendation) :
  In r (AiChat.candidates d p) <->
  exists s, In s (AiChat.available_sources d p) /\ r = AiChat.recommend d p s /\
            (0 < Spec.match_score_guarded d p s)%Z.
Proof.
  unfold AiChat.candidates. rewrite filter_In, in_map_iff. split.
  - intros [(s & <- & Hs) Hpos]. exists s. repeat split; auto.
    apply Z.ltb_lt in Hpos. simpl in Hpos. now rewrite score_source_guarded in Hpos.
  - intros (s & Hs & -> & Hpos). split; [now exists s|].
    apply Z.ltb_lt. simpl. now rewrite score_source_guarded.
Qed.

Lemma firstn_length_le {A} (n : nat) (l : list A) : (List.length (firstn n l) <= n)%nat.
Proof. rewrite length_firstn. apply Nat.le_min_l. Qed.

(** The recommendation engine as it is coded.  For an existing project the
    recommendations are the
    first five of the ranking [ranked], where [ranked] holds exactly the
    available sources (active, not yet applied to) whose score is
    positive, in descending score order, sources of equal score in the
    order of the source query; the score is the sum of the four rules, the
    award-range rule firing when both bounds are set and different from
    zero and the funding gap lies between them.  With 25 units and
    population type Family an LIHTC 9% source scores at least 30 and an
    FHLB AHP source at least 25. *)
Theorem funding_recommendations_ranked (d : db) (project_id : Z) (p : Project) :
  get_project_row d project_id = Some p ->
  exists data ranked,
    AiChat.get_funding_recommendations d project_id = Success 200 data /\
    AiChat.recommendations data = firstn 5 ranked /\
    (List.length (AiChat.recommendations data) <= 5)%nat /\
    (forall r, In r ranked <->
               exists s, In s (AiChat.available_sources d p) /\
                         r = AiChat.recommend d p s /\
                         (0 < Spec.match_score_guarded d p s)%Z) /\
    (forall r, In r ranked ->
               AiChat.match_score r
               = Spec.match_score_guarded d p (AiChat.funding_source r)) /\
    Permutation ranked (AiChat.candidates d p) /\
    StronglySorted score_desc ranked /\
    (forall k, filter (has_score k) ranked
               = filter (has_score k) (AiChat.candidates d p)) /\
    (forall s, In s (AiChat.available_sources d p) <->
               In s (funding_sources d) /\ is_active s = Some true /\
               ~ In (fs_id s) (map funding_source_id (project_applications d p))) /\
    (forall s, total_units p = Some 25%Z ->
               population_type p = Some "Family"%string ->
               (fs_type s = LIHTC_9_PERCENT ->
                (30 <= fst (AiChat.score_source d p s))%Z) /\
               (fs_type s = FHLB_AHP ->
                (25 <= fst (AiChat.score_source d p s))%Z)).
Proof.
  intros Hp. unfold AiChat.get_funding_recommendations. rewrite Hp.
  eexists. exists (AiChat.sort_desc (AiChat.candidates d p)).
  split; [reflexivity|]. cbn [AiChat.recommendations].
  split; [reflexivity|]. split; [apply firstn_length_le|].
  assert (P := sort_desc_perm (AiChat.candidates d p)).
  split.
  { intros r. rewrite <- candidates_spec. split; intros H.
    - eapply Permutation_in; eassumption.
    - eapply Permutation_in; [apply Permutation_sym|]; eassumption. }
  split.
  { intros r Hr. apply (Permutation_in _ P) in Hr.
    apply candidates_spec in Hr. destruct Hr as (s & _ & -> & _).
    simpl. apply score_source_guarded. }
  split; [exact P|]. split; [apply sort_desc_sorted|].
  split; [intros k; apply sort_desc_stable|].
  split; [intros s; apply available_sources_spec|].
  intros s Hu Hf. rewrite score_source_guarded. unfold Spec.match_score_guarded.
  unfold Spec.units_at_least. rewrite Hu, Hf.
  split; intros Ht; unfold Spec.type_is; rewrite Ht; simpl;
    unfold Spec.rule; destruct (Spec.gap_in_nonzero_award_range d p s); lia.
Qed.

(** Witness: the recommendations for Maple Court (25 family units, no
    applications). *)
Lemma funding_recommendations_ranked_witness :
  get_project_row Examples.store 1 = Some Examples.maple_court /\
  exists data ranked,
    AiChat.get_funding_recommendations Examples.store 1 = Success 200 data /\
    AiChat.recommendations data = firstn 5 ranked /\
    (List.length (AiChat.recommendations data) <= 5)%nat.
Proof.
  split; [reflexivity|].
  destruct (funding_recommendations_ranked Examples.store 1 Examples.maple_court
              eq_refl) as (data & ranked & H1 & H2 & H3 & _).
  exists data, ranked. auto.
Defined.

(** Away from zero bounds the score is the one of the rule table. *)
Lemma score_source_rule_table (d : db) (p : Project) (s : FundingSource) :
  Py.truthy_num (award_amount_min s) = true \/ award_amount_min s = None ->
  Py.truthy_num (award_amount_max s) = true \/ award_amount_max s = None ->
  fst (AiChat.score_source d p s) = Spec.match_score d p s.
Proof.
  intros Hlo Hhi. rewrite score_source_guarded.
  unfold Spec.match_score_guarded, Spec.match_score. f_equal. f_equal.
  unfold Spec.gap_in_nonzero_award_range, Spec.gap_in_award_range.
  destruct (award_amount_min s) as [lo|], (award_amount_max s) as [hi|];
    try reflexivity.
  simpl in Hlo, Hhi.
  destruct Hlo as [Hlo|Hlo]; [|discriminate].
  destruct Hhi as [Hhi|Hhi]; [|discriminate].
  now rewrite Hlo, Hhi.
Qed.

(** C2. A source whose minimum award is zero has both award bounds, but
    the route treats it as having none.  Maple Court (25 family units, no
    application) has a funding gap of 1,000,000, inside the range
    [0, 2,000,000] of the rural grant: the rule table gives the grant 25
    points, the route gives it none and returns only the sources 1, 2
    and 4. *)
Theorem recommendations_skip_zero_minimum :
  In Examples.orca (AiChat.available_sources Examples.store Examples.maple_court) /\
  Spec.match_score Examples.store Examples.maple_court Examples.orca = 25%Z /\
  fst (AiChat.score_source Examples.store Examples.maple_court Examples.orca) = 0%Z /\
  exists data,
    AiChat.get_funding_recommendations Examples.store 1 = Success 200 data /\
    map (fun r => fs_id (AiChat.funding_source r)) (AiChat.recommendations data)
    = [1%Z; 2%Z; 4%Z].
Proof.
  split; [vm_compute; tauto|]. split; [reflexivity|]. split; [reflexivity|].
  eexists. split; reflexivity.
Qed.

(** ** Time summary (src/routes/time_tracking.py) *)

(** What [get_time_summary] computes: every invoiced entry counts. *)
Lemma total_invoiced_amount_code (l : list TimeEntry) :
  TimeTracking.total_invoiced_amount (TimeTracking.compute_totals l)
  == Spec.sigma (map line_total
                     (filter (fun e => TimeTracking.flag (is_invoiced e)) l)).
Proof. simpl. apply py_sum_sigma. Qed.

(** The two readings agree as long as no entry is invoiced without being
    billable. *)
Lemma total_invoiced_amount_agree (l : list TimeEntry) :
  Forall (fun e => TimeTracking.flag (is_invoiced e) = true ->
                   TimeTracking.flag (is_billable e) = true) l ->
  TimeTracking.total_invoiced_amount (TimeTracking.compute_totals l)
  == Spec.total_invoiced_amount l.
Proof.
  intros H. rewrite total_invoiced_amount_code. unfold Spec.total_invoiced_amount.
  induction H as [|e l He Hl IH]; simpl; [reflexivity|].
  destruct (TimeTracking.flag (is_invoiced e)) eqn:Ei.
  - rewrite (He eq_refl). simpl. unfold line_total at 1. rewrite IH. reflexivity.
  - rewrite andb_false_r. exact IH.
Qed.

(** With the billable filter the billable amount splits into its invoiced
    and its unbilled part. *)
Lemma billable_amount_splits (l : list TimeEntry) :
  TimeTracking.total_amount (TimeTracking.compute_totals l)
  == Spec.total_invoiced_amount l
     + TimeTracking.total_unbilled_amount (TimeTracking.compute_totals l).
Proof.
  simpl. rewrite !py_sum_sigma. unfold Spec.total_invoiced_amount.
  induction l as [|e l IH]; simpl; [ring|].
  destruct (TimeTracking.flag (is_billable e)), (TimeTracking.flag (is_invoiced e));
    simpl; rewrite IH; ring.
Qed.

(** C3. On the sample timesheet the summary reports 950 as invoiced: 750
    for the billable invoiced entry plus 200 for the staff meeting, which
    is invoiced but not billable; billable and invoiced gives 750. *)
Theorem total_invoiced_amount_counts_non_billable :
  exists s,
    TimeTracking.get_time_summary Examples.strptime Examples.ilike
      Examples.timesheet None None None None = Success 200 s /\
    TimeTracking.total_invoiced_amount (TimeTracking.s_totals s) == 950 /\
    Spec.total_invoiced_amount (time_entries Examples.timesheet) == 750 /\
    TimeTracking.total_amount (TimeTracking.s_totals s) == 1750 /\
    TimeTracking.total_unbilled_amount (TimeTracking.s_totals s) == 1000.
Proof.
  eexists. split; [reflexivity|]. repeat split; reflexivity.
Qed.

(** ** Mark invoiced *)

Lemma in_listed (ids : list Z) (e : TimeEntry) :
  TimeTracking.in_ ids e = Spec.listed ids e.
Proof.
  unfold TimeTracking.in_, Spec.listed.
  destruct (in_dec Z.eq_dec (te_id e) ids) as [H|H].
  - apply existsb_exists. exists (te_id e). split; [exact H|apply Z.eqb_refl].
  - destruct (existsb _ _) eqn:E; [|reflexivity].
    apply existsb_exists in E. destruct E as (x & Hx & Ex).
    apply Z.eqb_eq in Ex. subst x. contradiction.
Qed.






(** C10. When [entry_ids] is missing, [null] or the empty list the request
    is answered 400 "Entry IDs are required" and the store is unchanged. *)
Theorem mark_invoiced_requires_ids (f : field (list Z)) (d : db) :
  f = Absent \/ f = Null \/ f = Val [] ->
  TimeTracking.mark_entries_invoiced (Some f) d
  = (Failure 400 "Entry IDs are required", d).
Proof. intros [->|[->| ->]]; reflexivity. Qed.

Lemma mark_invoiced_requires_ids_witness :
  (@Val (list Z) [] = Absent \/ @Val (list Z) [] = Null \/ @Val (list Z) [] = Val []) /\
  TimeTracking.mark_entries_invoiced (Some (Val [])) Examples.timesheet
  = (Failure 400 "Entry IDs are required", Examples.timesheet).
Proof.
  assert (H : @Val (list Z) [] = Absent \/ @Val (list Z) [] = Null
              \/ @Val (list Z) [] = Val []) by (right; right; reflexivity).
  split; [exact H|].
  exact (mark_invoiced_requires_ids (Val []) Examples.timesheet H).
Defined.

(** ** Hours of a time entry *)






(** ** Success rate (src/routes/applications.py) *)

Lemma round1_near (x : Q) :
  x - (1 # 20) <= Applications.round1 x <= x + (1 # 20).
Proof.
  unfold Applications.round1.
  pose proof (round_half_even_near (x * 10)) as H.
  set (r := inject_Z (Float64.round_half_even (x * 10))) in *.
  assert (E : r / 10 == r * (1 # 10)) by (unfold Qdiv; reflexivity).
  rewrite E. lra.
Qed.

Lemma count_status_approved (d : db) :
  Applications.count_status d APPROVED = Spec.approved_count d.
Proof.
  unfold Applications.count_status, Spec.approved_count. f_equal.
  apply filter_ext. intros a.
  destruct (Spec.ApplicationStatus_eq_dec (a_status a) APPROVED) as [->|N].
  - reflexivity.
  - destruct (a_status a); try reflexivity. congruence.
Qed.

Lemma success_rate_expr_total (approved total : nat) :
  Applications.success_rate_expr approved total
  = Some (match total with
          | O => 0
          | S _ =>
              Float64.mul (Float64.div (inject_Z (Z.of_nat approved))
                                       (inject_Z (Z.of_nat total))) 100
          end).
Proof. destruct total; reflexivity. Qed.

Lemma approved_le_total (d : db) :
  (Spec.approved_count d <= List.length (applications d))%nat.
Proof.
  unfold Spec.approved_count. generalize (applications d). intros l.
  induction l as [|a l IH]; simpl; [lia|].
  destruct (Spec.ApplicationStatus_eq_dec (a_status a) APPROVED); simpl; lia.
Qed.

(** On the percentages of up to 50 applications the rounding of
    [Float64] gives the doubles of the Standard Library's specification
    of IEEE 754 division and multiplication. *)
Lemma percentage_as_in_SpecFloat_table :
  forallb (fun total =>
             forallb (fun approved =>
                        Qeq_bool
                          (Float64.mul
                             (Float64.div (inject_Z (Z.of_nat approved))
                                          (inject_Z (Z.of_nat total))) 100)
                          (Float64.spec_percentage approved total))
                     (seq 0 (S total)))
          (seq 1 50)
  = true.
Proof. vm_compute. reflexivity. Qed.

Lemma percentage_as_in_SpecFloat (approved total : nat) :
  (approved <= total)%nat -> (1 <= total <= 50)%nat ->
  Float64.mul (Float64.div (inject_Z (Z.of_nat approved)) (inject_Z (Z.of_nat total))) 100
  == Float64.spec_percentage approved total.
Proof.
  intros Ha Ht. pose proof percentage_as_in_SpecFloat_table as T.
  rewrite forallb_forall in T. specialize (T total).
  rewrite forallb_forall in T. apply Qeq_bool_iff. apply T.
  - apply in_seq. lia.
  - apply in_seq. lia.
Qed.

Lemma round1_wd (x y : Q) : x == y -> Applications.round1 x = Applications.round1 y.
Proof.
  intros E. unfold Applications.round1, Float64.round_half_even.
  assert (E10 : x * 10 == y * 10) by (rewrite E; reflexivity).
  rewrite (Qfloor_comp _ _ E10).
  assert (D : x * 10 - inject_Z (Qfloor (y * 10)) == y * 10 - inject_Z (Qfloor (y * 10)))
    by (rewrite E10; reflexivity).
  rewrite (Qcompare_comp _ _ D _ _ (Qeq_refl (1 # 2))). reflexivity.
Qed.

(** With 23 approved applications out of 80 the double-precision
    percentage lies just below 28.75 and is reported as 28.7, where the
    exact quotient 28.75 would be rounded to 28.8. *)
Lemma success_rate_of_doubles :
  exists x,
    Applications.success_rate_expr 23 80 = Some x /\
    x < 2875 # 100 /\
    Applications.round1 x == 287 # 10 /\
    Applications.round1 (inject_Z 23 / inject_Z 80 * 100) == 288 # 10.
Proof.
  eexists. split; [reflexivity|]. split; [|split]; vm_compute; reflexivity.
Qed.

(** C8 (amended). The statistics are always produced (the division is
    never reached with a zero divisor); the reported [success_rate] is 0
    when there are no applications and otherwise the double-precision
    value of approved_count / total_applications x 100 rounded to one
    decimal place, which is within 0.05 + 2^-45 of the exact percentage;
    for up to 50 applications this double is the one that the Standard
    Library's specification of IEEE 754 division and multiplication
    gives. *)
Theorem success_rate_rounded (d : db) (utcnow : Z) :
  exists st,
    Applications.get_application_stats d utcnow = Success 200 st /\
    Applications.total_applications st = List.length (applications d) /\
    (applications d = [] -> Applications.success_rate st == 0) /\
    (applications d <> [] ->
     Applications.success_rate st
     = Applications.round1
         (Float64.mul
            (Float64.div (inject_Z (Z.of_nat (Spec.approved_count d)))
                         (inject_Z (Z.of_nat (List.length (applications d)))))
            100) /\
     Spec.success_rate d - (1 # 20) - 2 ^ (-45) <= Applications.success_rate st
       <= Spec.success_rate d + (1 # 20) + 2 ^ (-45) /\
     ((List.length (applications d) <= 50)%nat ->
      Applications.success_rate st
      = Applications.round1
          (Float64.spec_percentage (Spec.approved_count d)
                                   (List.length (applications d))))).
Proof.
  unfold Applications.get_application_stats.
  rewrite success_rate_expr_total, count_status_approved.
  eexists. split; [reflexivity|]. cbn [Applications.total_applications
                                       Applications.success_rate].
  split; [reflexivity|]. split.
  - intros H. rewrite H. reflexivity.
  - intros H. pose proof (approved_le_total d) as A.
    destruct (List.length (applications d)) eqn:En.
    + apply length_zero_iff_nil in En. contradiction.
    + split; [reflexivity|]. split.
      * unfold Spec.success_rate. rewrite En.
        destruct (percentage_bounds (Z.of_nat (Spec.approved_count d)) (Z.of_nat (S n))
                    ltac:(lia) ltac:(lia)) as [_ [L U]].
        match goal with
        | |- _ <= Applications.round1 ?x <= _ =>
            pose proof (round1_near x) as [R1 R2]; set (y := x) in *
        end.
        split; lra.
      * intros H50. apply round1_wd. apply percentage_as_in_SpecFloat; lia.
Qed.

Lemma success_rate_rounded_witness :
  applications Examples.one_in_three <> [] /\
  exists st,
    Applications.get_application_stats Examples.one_in_three 1715000000 = Success 200 st /\
    Applications.success_rate st == 333 # 10.
Proof.
  split; [discriminate|].
  destruct (success_rate_rounded Examples.one_in_three 1715000000)
    as (st & H1 & _ & _ & H2).
  exists st. split; [exact H1|].
  destruct (H2 ltac:(discriminate)) as (E & _ & _). rewrite E. vm_compute. reflexivity.
Defined.

(** With one approved application out of three the quotient is 100/3 and
    the statistics report 33.3. *)
Lemma success_rate_counterexample :
  exists st,
    Applications.get_application_stats Examples.one_in_three 1715000000 = Success 200 st /\
    (0 < Applications.total_applications st)%nat /\
    Spec.success_rate Examples.one_in_three == 100 # 3 /\
    Applications.success_rate st == 333 # 10 /\
    ~ Applications.success_rate st == Spec.success_rate Examples.one_in_three.
Proof.
  eexists. split; [reflexivity|]. split; [simpl; lia|].
  split; [reflexivity|]. split; [vm_compute; reflexivity|].
  vm_compute. intros H. discriminate H.
Qed.

(** ** Site provisioning (src/routes/sharepoint.py, src/services/sharepoint_service.py) *)

Lemma store_site_found (d : db) (project_id : Z) (project : Project)
      (r : SharePointService.site_result) :
  get_project_row d project_id = Some project ->
  exists p',
    get_project_row (SharePoint.store_site d project r) project_id = Some p' /\
    sharepoint_site_url p' = SharePointService.sharepoint_site_url r.
Proof.
  unfold get_project_row, SharePoint.store_site. cbn [projects]. intros H.
  assert (Hid : p_id project = project_id).
  { apply find_some in H. destruct H as [_ H]. now apply Z.eqb_eq in H. }
  subst project_id. revert H.
  induction (projects d) as [|p l IH]; simpl; intros H; [discriminate|].
  destruct (p_id p =? p_id project)%Z eqn:E.
  - simpl. rewrite E. eexists. split; reflexivity.
  - simpl. rewrite E. now apply IH.
Qed.

Lemma site_exists_guard (w : SharePointService.world) (e : SharePoint.env)
      (fuel : nat) (st : SharePointService.state) (project_id : Z)
      (data : option (field string)) (d : db) (project : Project) (url : string) :
  get_project_row d project_id = Some project ->
  sharepoint_site_url project = Some url ->
  url <> ""%string ->
  SharePoint.create_project_sharepoint_site w e fuel st project_id data d
  = (Some (Failure 400 "SharePoint site already exists for this project"), d, st).
Proof.
  intros Hp Hu Hne. unfold SharePoint.create_project_sharepoint_site.
  rewrite Hp, Hu. destruct url; [contradiction|reflexivity].
Qed.

(** C4. When the project row carries a non-empty site URL the request is
    answered 400; the store is returned as it was (site URL and email
    included; the store keeps no group id) and so is the state of the
    service: no call to the directory is made.  In particular, once a create-site request has
    succeeded and stored the URL of the site, a second request for the
    project is answered in this way. *)
Theorem create_site_rejected_when_site_exists
        (d : db) (project_id : Z) (project : Project) :
  get_project_row d project_id = Some project ->
  (forall url,
      sharepoint_site_url project = Some url ->
      url <> ""%string ->
      forall w e fuel st data,
        SharePoint.create_project_sharepoint_site w e fuel st project_id data d
        = (Some (Failure 400 "SharePoint site already exists for this project"),
           d, st)) /\
  (forall w e fuel st data r d' st' url,
      SharePoint.create_project_sharepoint_site w e fuel st project_id data d
      = (Some (Success 200 r), d', st') ->
      SharePoint.cs_sharepoint_site_url r = Some url ->
      url <> ""%string ->
      forall w2 e2 fuel2 data2,
        SharePoint.create_project_sharepoint_site w2 e2 fuel2 st' project_id data2 d'
        = (Some (Failure 400 "SharePoint site already exists for this project"),
           d', st')).
Proof.
  intros Hp. split.
  - intros url Hu Hne w e fuel st data. now apply (site_exists_guard _ _ _ _ _ _ _ project url).
  - intros w e fuel st data r d' st' url H Hr Hne w2 e2 fuel2 data2.
    unfold SharePoint.create_project_sharepoint_site in H. rewrite Hp in H.
    destruct (Py.truthy_str (sharepoint_site_url project)); [discriminate|].
    destruct data as [data|]; [|discriminate].
    destruct (negb (Py.truthy_str _)); [discriminate|].
    destruct (negb (_ && _ && _)); [discriminate|].
    destruct (SharePointService.create_complete_project_site _ _ _ _ _ _ _ _)
      as [[sr|ex|] st2] eqn:E; try discriminate.
    inversion H; subst. cbn [SharePoint.cs_sharepoint_site_url] in Hr.
    destruct (store_site_found d project_id project sr Hp) as (p' & Hp' & Hu').
    apply (site_exists_guard _ _ _ _ _ _ _ p' url); auto. congruence.
Qed.

Lemma create_site_rejected_when_site_exists_witness :
  get_project_row Examples.provisioned 3 = Some Examples.oak_terrace /\
  SharePoint.create_project_sharepoint_site Examples.ready_at_third_poll
    Examples.azure 100 Examples.start 3 (Some (Val "owner-1"%string))
    Examples.provisioned
  = (Some (Failure 400 "SharePoint site already exists for this project"),
     Examples.provisioned, Examples.start).
Proof.
  split; [reflexivity|].
  destruct (create_site_rejected_when_site_exists Examples.provisioned 3
              Examples.oak_terrace eq_refl) as [H _].
  apply (H "https://contoso.sharepoint.com/sites/oakterrace"%string);
    [reflexivity|discriminate].
Defined.

Lemma poll_start_le (w : SharePointService.world) (k : nat) :
  forall first start, (start <= poll_start w first start k)%nat.
Proof.
  induction k as [|k IH]; intros first start; simpl; [lia|].
  specialize (IH (S first) (start + snd (SharePointService.get_site w first) + 30)%nat).
  lia.
Qed.

Lemma poll_start_succ (w : SharePointService.world) (k : nat) :
  forall first start,
    poll_start w first start (S k)
    = (poll_start w first start k
       + snd (SharePointService.get_site w (first + k)) + 30)%nat.
Proof.
  induction k as [|k IH]; intros first start.
  - simpl. rewrite Nat.add_0_r. reflexivity.
  - change (poll_start w first start (S (S k)))
      with (poll_start w (S first)
                       (start + snd (SharePointService.get_site w first) + 30) (S k)).
    rewrite IH. replace (S first + k)%nat with (first + S k)%nat by lia. reflexivity.
Qed.

Lemma poll_start_mono (w : SharePointService.world) (first start i j : nat) :
  (i <= j)%nat -> (poll_start w first start i <= poll_start w first start j)%nat.
Proof.
  induction 1 as [|j H IH]; [lia|]. rewrite poll_start_succ. lia.
Qed.

Lemma poll_start_lower (w : SharePointService.world) (first start k : nat) :
  (start + 30 * k <= poll_start w first start k)%nat.
Proof.
  induction k as [|k IH]; [simpl; lia|]. rewrite poll_start_succ. lia.
Qed.

Lemma poll_start_instant (w : SharePointService.world) (first start k : nat) :
  (forall i, snd (SharePointService.get_site w i) = 0%nat) ->
  poll_start w first start k = (start + 30 * k)%nat.
Proof.
  intros H. induction k as [|k IH]; [simpl; lia|]. rewrite poll_start_succ, IH, H. lia.
Qed.

(** The first poll that would start at or after [end_time]. *)
Lemma first_poll_after (w : SharePointService.world) (first start end_time n : nat) :
  (start < end_time)%nat ->
  (end_time <= poll_start w first start n)%nat ->
  exists k,
    (1 <= k <= n)%nat /\
    (poll_start w first start (pred k) < end_time <= poll_start w first start k)%nat.
Proof.
  intros Hs. induction n as [|n IH]; intros Hn; [simpl in Hn; lia|].
  destruct (le_lt_dec end_time (poll_start w first start n)) as [L|L].
  - destruct (IH L) as (k & Hk & Hp). exists k. split; [lia|exact Hp].
  - exists (S n). split; [lia|]. simpl pred. lia.
Qed.

Section Polling.

Import SharePointService.

Variable w : world.

Variable group : string.

Variable end_time : nat.

(** [k] rounds of a poll answered 404 and a pause. *)
Lemma wait_loop_rounds :
  forall (k fuel : nat) (st : state),
    (forall i, (i < k)%nat ->
               fst (get_site w (polls st + i)) = Raises (HTTPError 404)) ->
    (forall i, (i < k)%nat -> (poll_start w (polls st) (now st) i < end_time)%nat) ->
    wait_loop w (k + fuel) group end_time st
    = wait_loop w fuel group end_time (after_polls w group st k).
Proof.
  induction k as [|k IH]; intros fuel st H404 Hs.
  - unfold after_polls. simpl. rewrite Nat.add_0_r. destruct st; reflexivity.
  - change (S k + fuel)%nat with (S (k + fuel)). cbn [wait_loop].
    pose proof (Hs 0%nat ltac:(lia)) as H0. simpl in H0.
    apply Nat.ltb_lt in H0. rewrite H0.
    unfold get_sharepoint_site.
    pose proof (H404 0%nat ltac:(lia)) as P0. rewrite Nat.add_0_r in P0.
    destruct (get_site w (polls st)) as [r seconds] eqn:E.
    simpl in P0. subst r. cbn [of_reply raise]. rewrite Nat.eqb_refl.
    unfold bind at 1. unfold sleep, log. cbn [now calls polls].
    set (st2 := {| now := now st + seconds + 30;
                   calls := ((now st + seconds)%nat, Sleep 30)
                              :: (now st, GetSite group) :: calls st;
                   polls := S (polls st) |}).
    rewrite (IH fuel st2).
    + f_equal. unfold after_polls. subst st2. cbn [now calls polls].
      simpl poll_start. simpl poll_log. rewrite E. cbn [snd].
      rewrite <- app_assoc. cbn [app]. f_equal. lia.
    + intros i Hi. subst st2. cbn [polls].
      replace (S (polls st) + i)%nat with (polls st + S i)%nat by lia.
      apply H404. lia.
    + intros i Hi. subst st2. cbn [polls now].
      pose proof (Hs (S i) ltac:(lia)) as Hi'. simpl in Hi'. rewrite E in Hi'.
      exact Hi'.
Qed.

Lemma wait_loop_ends (fuel : nat) (st : state) :
  (end_time <= now st)%nat ->
  wait_loop w (S fuel) group end_time st = (Ret None, st).
Proof.
  intros H. cbn [wait_loop].
  assert (E : (now st <? end_time)%nat = false) by (apply Nat.ltb_ge; exact H).
  rewrite E. reflexivity.
Qed.

End Polling.

Lemma wait_times_out (w : SharePointService.world) (fuel : nat) (group : string)
      (st : SharePointService.state) :
  (forall k, fst (SharePointService.get_site w k)
             = SharePointService.Raises (SharePointService.HTTPError 404)) ->
  (20 < fuel)%nat ->
  exists k,
    (1 <= k <= 20)%nat /\
    (poll_start w (SharePointService.polls st) (SharePointService.now st) (pred k)
     < SharePointService.now st + 600
     <= poll_start w (SharePointService.polls st) (SharePointService.now st) k)%nat /\
    SharePointService.wait_for_sharepoint_site w fuel group 10 st
    = (SharePointService.Ret None, after_polls w group st k).
Proof.
  intros H404 Hfuel. unfold SharePointService.wait_for_sharepoint_site.
  change (60 * 10)%nat with 600%nat.
  destruct (first_poll_after w (SharePointService.polls st) (SharePointService.now st)
              (SharePointService.now st + 600) 20) as (k & Hk & Hp).
  { lia. }
  { pose proof (poll_start_lower w (SharePointService.polls st)
                                 (SharePointService.now st) 20). lia. }
  exists k. split; [exact Hk|]. split; [exact Hp|].
  replace fuel with (k + S (fuel - k - 1))%nat by lia.
  rewrite wait_loop_rounds.
  - apply wait_loop_ends. unfold after_polls. cbn [SharePointService.now]. lia.
  - intros i _. apply H404.
  - intros i Hi.
    pose proof (poll_start_mono w (SharePointService.polls st)
                                (SharePointService.now st) i (pred k) ltac:(lia)).
    lia.
Qed.

Lemma wait_aborts (w : SharePointService.world) (fuel : nat) (group : string)
      (st : SharePointService.state) (k : nat) (e : SharePointService.exn)
      (seconds : nat) :
  (forall i, (i < k)%nat ->
             fst (SharePointService.get_site w (SharePointService.polls st + i))
             = SharePointService.Raises (SharePointService.HTTPError 404)) ->
  (poll_start w (SharePointService.polls st) (SharePointService.now st) k
   < SharePointService.now st + 600)%nat ->
  SharePointService.get_site w (SharePointService.polls st + k)
  = (SharePointService.Raises e, seconds) ->
  e <> SharePointService.HTTPError 404 ->
  (k < fuel)%nat ->
  SharePointService.wait_for_sharepoint_site w fuel group 10 st
  = (SharePointService.Raise e,
     {| SharePointService.now :=
          poll_start w (SharePointService.polls st) (SharePointService.now st) k
          + seconds;
        SharePointService.calls :=
          (poll_start w (SharePointService.polls st) (SharePointService.now st) k,
           SharePointService.GetSite group)
            :: SharePointService.calls (after_polls w group st k);
        SharePointService.polls := S (SharePointService.polls st + k) |}).
Proof.
  intros H404 Hs Hpoll Hne Hfuel. unfold SharePointService.wait_for_sharepoint_site.
  change (60 * 10)%nat with 600%nat.
  replace fuel with (k + S (fuel - k - 1))%nat by lia.
  rewrite wait_loop_rounds.
  - cbn [SharePointService.wait_loop]. unfold after_polls at 1.
    cbn [SharePointService.now]. apply Nat.ltb_lt in Hs. rewrite Hs.
    unfold SharePointService.get_sharepoint_site.
    unfold after_polls at 1. cbn [SharePointService.polls]. rewrite Hpoll.
    cbn [SharePointService.of_reply SharePointService.raise].
    unfold after_polls at 1 2. cbn [SharePointService.now SharePointService.polls].
    destruct e as [c| | |]; try reflexivity.
    destruct (c =? 404)%nat eqn:E; [|reflexivity].
    apply Nat.eqb_eq in E. subst c. now elim Hne.
  - exact H404.
  - intros i Hi.
    pose proof (poll_start_mono w (SharePointService.polls st)
                                (SharePointService.now st) i k ltac:(lia)).
    lia.
Qed.

(** The workflow up to the wait: the group is requested, then the site
    is waited for. *)
Lemma complete_site_waits (w : SharePointService.world) (tenant : string)
      (fuel : nat) (name descr owner : string) (sources : option (list string))
      (st : SharePointService.state) (o : SharePointService.json) (group : string) :
  SharePointService.post_group w = SharePointService.Body o ->
  SharePointService.json_get "id" o = Some group ->
  forall st',
    (SharePointService.wait_for_sharepoint_site w fuel group 10
       (group_requested st name
          (substring 0 64 (SharePointService.lower_alnum name)) owner)
     = (SharePointService.Ret None, st') ->
     SharePointService.create_complete_project_site w tenant fuel name descr owner
       sources st
     = (SharePointService.Raise SharePointService.ProvisioningTimedOut, st')) /\
    (forall e,
        SharePointService.wait_for_sharepoint_site w fuel group 10
          (group_requested st name
          (substring 0 64 (SharePointService.lower_alnum name)) owner)
        = (SharePointService.Raise e, st') ->
        SharePointService.create_complete_project_site w tenant fuel name descr owner
          sources st
        = (SharePointService.Raise e, st')).
Proof.
  intros Hpost Hid st'.
  split; [intros H|intros e H];
    unfold SharePointService.create_complete_project_site,
      SharePointService.create_project_group;
    unfold SharePointService.bind at 1 2 3;
    unfold SharePointService.log at 1; rewrite Hpost;
    cbn [SharePointService.of_reply SharePointService.ret]; rewrite Hid;
    cbn [SharePointService.ret]; rewrite Nat.add_0_r;
    fold (group_requested st name
          (substring 0 64 (SharePointService.lower_alnum name)) owner);
    unfold SharePointService.bind at 1; rewrite H; reflexivity.
Qed.

Lemma create_site_proceeds (w : SharePointService.world) (e : SharePoint.env)
      (fuel : nat) (st : SharePointService.state) (project_id : Z) (owner : string)
      (d : db) (project : Project) :
  get_project_row d project_id = Some project ->
  Py.truthy_str (sharepoint_site_url project) = false ->
  owner <> ""%string ->
  Py.truthy_str (SharePoint.AZURE_TENANT_ID e)
  && Py.truthy_str (SharePoint.AZURE_CLIENT_ID e)
  && Py.truthy_str (SharePoint.AZURE_CLIENT_SECRET e) = true ->
  forall ex st',
    SharePointService.create_complete_project_site
      w (SharePoint.str (SharePoint.AZURE_TENANT_ID e)) fuel (p_name project)
      ("Affordable housing project in " ++ SharePoint.str (p_city project) ++ ", "
       ++ SharePoint.str (p_state project))%string
      owner (Some (SharePoint.funding_source_names d project)) st
    = (SharePointService.Raise ex, st') ->
    SharePoint.create_project_sharepoint_site w e fuel st project_id
      (Some (Val owner)) d
    = (Some (Failure 500 ("Failed to create SharePoint site: "
                          ++ SharePointService.exn_message ex)), d, st').
Proof.
  intros Hp Hu Ho He ex st' H.
  unfold SharePoint.create_project_sharepoint_site.
  rewrite Hp, Hu. cbn [get]. destruct owner as [|c owner]; [contradiction|].
  cbn [Py.truthy_str negb]. rewrite He. cbn [negb SharePoint.str].
  cbn [SharePoint.str] in H. rewrite H. reflexivity.
Qed.

(** C5. If every readiness poll is answered 404 then, for every bound
    above 20 on the iterations of the model, the wait returns [None]
    after [k] rounds of a poll and a pause of 30 seconds, where [k],
    between 1 and 20, is the first round that ends at or after the end of
    the ten minutes (20 when the polls take no time): the polls are the
    only calls made, each started before that end; the create-site
    request is then answered 500 with the time-out message, the store is
    unchanged and no folder is requested.  A poll that fails otherwise,
    after any number of polls answered 404, ends the wait at once with
    that failure, without a pause or a further poll, and the create-site
    request is answered 500 with the store unchanged. *)
Theorem site_poll_times_out :
  (forall w : SharePointService.world,
      (forall k, fst (SharePointService.get_site w k)
                 = SharePointService.Raises (SharePointService.HTTPError 404)) ->
      forall fuel, (20 < fuel)%nat ->
      (forall group st,
          exists k,
            (1 <= k <= 20)%nat /\
            (poll_start w (SharePointService.polls st) (SharePointService.now st)
                        (pred k)
             < SharePointService.now st + 600
             <= poll_start w (SharePointService.polls st) (SharePointService.now st)
                           k)%nat /\
            ((forall i, snd (SharePointService.get_site w i) = 0%nat) -> k = 20%nat) /\
            SharePointService.wait_for_sharepoint_site w fuel group 10 st
            = (SharePointService.Ret None, after_polls w group st k)) /\
      (forall e st project_id owner d project o group,
          get_project_row d project_id = Some project ->
          Py.truthy_str (sharepoint_site_url project) = false ->
          owner <> ""%string ->
          Py.truthy_str (SharePoint.AZURE_TENANT_ID e)
          && Py.truthy_str (SharePoint.AZURE_CLIENT_ID e)
          && Py.truthy_str (SharePoint.AZURE_CLIENT_SECRET e) = true ->
          SharePointService.post_group w = SharePointService.Body o ->
          SharePointService.json_get "id" o = Some group ->
          exists k mail_nickname,
            (1 <= k <= 20)%nat /\
            (poll_start w (SharePointService.polls st) (SharePointService.now st)
                        (pred k)
             < SharePointService.now st + 600
             <= poll_start w (SharePointService.polls st) (SharePointService.now st)
                           k)%nat /\
            SharePoint.create_project_sharepoint_site w e fuel st project_id
              (Some (Val owner)) d
            = (Some (Failure 500
                 "Failed to create SharePoint site: SharePoint site provisioning timed out"),
               d,
               after_polls w group
                 (group_requested st (p_name project) mail_nickname owner) k))) /\
  (forall (w : SharePointService.world) fuel group st k ex seconds,
      (forall i, (i < k)%nat ->
                 fst (SharePointService.get_site w (SharePointService.polls st + i))
                 = SharePointService.Raises (SharePointService.HTTPError 404)) ->
      (poll_start w (SharePointService.polls st) (SharePointService.now st) k
       < SharePointService.now st + 600)%nat ->
      SharePointService.get_site w (SharePointService.polls st + k)
      = (SharePointService.Raises ex, seconds) ->
      ex <> SharePointService.HTTPError 404 ->
      (k < fuel)%nat ->
      SharePointService.wait_for_sharepoint_site w fuel group 10 st
      = (SharePointService.Raise ex,
         {| SharePointService.now :=
              poll_start w (SharePointService.polls st) (SharePointService.now st) k
              + seconds;
            SharePointService.calls :=
              (poll_start w (SharePointService.polls st) (SharePointService.now st) k,
               SharePointService.GetSite group)
                :: SharePointService.calls (after_polls w group st k);
            SharePointService.polls := S (SharePointService.polls st + k) |}) /\
      (forall e project_id owner d project o,
          get_project_row d project_id = Some project ->
          Py.truthy_str (sharepoint_site_url project) = false ->
          owner <> ""%string ->
          Py.truthy_str (SharePoint.AZURE_TENANT_ID e)
          && Py.truthy_str (SharePoint.AZURE_CLIENT_ID e)
          && Py.truthy_str (SharePoint.AZURE_CLIENT_SECRET e) = true ->
          SharePointService.post_group w = SharePointService.Body o ->
          SharePointService.json_get "id" o = Some group ->
          exists message mail_nickname,
            SharePoint.create_project_sharepoint_site w e fuel st project_id
              (Some (Val owner)) d
            = (Some (Failure 500 ("Failed to create SharePoint site: " ++ message)),
               d,
               {| SharePointService.now :=
                    poll_start w (SharePointService.polls st)
                               (SharePointService.now st) k + seconds;
                  SharePointService.calls :=
                    (poll_start w (SharePointService.polls st)
                                (SharePointService.now st) k,
                     SharePointService.GetSite group)
                      :: SharePointService.calls
                           (after_polls w group
                              (group_requested st (p_name project) mail_nickname
                                               owner) k);
                  SharePointService.polls := S (SharePointService.polls st + k) |}))).
Proof.
  split.
  - intros w H404 fuel Hfuel. split.
    + intros group st.
      destruct (wait_times_out w fuel group st H404 Hfuel) as (k & Hk & Hp & H).
      exists k. split; [exact Hk|]. split; [exact Hp|]. split; [|exact H].
      intros Hi. rewrite !(poll_start_instant w _ _ _ Hi) in Hp.
      destruct k as [|k]; [lia|]. simpl pred in Hp. lia.
    + intros e st project_id owner d project o group Hp Hu Ho He Hpost Hid.
      destruct (wait_times_out w fuel group
                  (group_requested st (p_name project)
                     (substring 0 64 (SharePointService.lower_alnum (p_name project)))
                     owner)
                  H404 Hfuel) as (k & Hk & Hs & H).
      exists k, (substring 0 64 (SharePointService.lower_alnum (p_name project))).
      split; [exact Hk|]. split; [exact Hs|].
      apply (create_site_proceeds w e fuel st project_id owner d project Hp Hu Ho He
               SharePointService.ProvisioningTimedOut).
      apply (proj1 (complete_site_waits w _ fuel _ _ owner _ st o group Hpost Hid _)).
      exact H.
  - intros w fuel group st k ex seconds H404 Hs Hpoll Hne Hfuel. split.
    + now apply wait_aborts.
    + intros e project_id owner d project o Hp Hu Ho He Hpost Hid.
      exists (SharePointService.exn_message ex),
             (substring 0 64 (SharePointService.lower_alnum (p_name project))).
      apply (create_site_proceeds w e fuel st project_id owner d project Hp Hu Ho He ex).
      apply (proj2 (complete_site_waits w _ fuel _ _ owner _ st o group Hpost Hid _) ex).
      now apply (wait_aborts w fuel group
                   (group_requested st (p_name project)
                      (substring 0 64 (SharePointService.lower_alnum (p_name project)))
                      owner)
                   k ex seconds).
Qed.

(** The directory that never has the site ready, each poll taking one
    second: 20 polls, the last one started at 589 s, then the time-out
    answer at 620 s. *)
Lemma site_poll_times_out_witness :
  (forall k, fst (SharePointService.get_site Examples.never_ready k)
             = SharePointService.Raises (SharePointService.HTTPError 404)) /\
  (20 < 21)%nat /\
  exists st',
    SharePoint.create_project_sharepoint_site Examples.never_ready Examples.azure
      21 Examples.start 1 (Some (Val "owner-1"%string)) Examples.store
    = (Some (Failure 500
         "Failed to create SharePoint site: SharePoint site provisioning timed out"),
       Examples.store, st') /\
    SharePointService.polls st' = 20%nat /\
    SharePointService.now st' = 620%nat /\
    hd_error (SharePointService.calls st')
    = Some (590%nat, SharePointService.Sleep 30).
Proof.
  assert (H404 : forall k, fst (SharePointService.get_site Examples.never_ready k)
                          = SharePointService.Raises (SharePointService.HTTPError 404))
    by reflexivity.
  assert (Hfuel : (20 < 21)%nat) by lia.
  split; [exact H404|]. split; [exact Hfuel|].
  destruct site_poll_times_out as [H _].
  destruct (H Examples.never_ready H404 21%nat Hfuel) as [_ Hroute].
  destruct (Hroute Examples.azure Examples.start 1%Z "owner-1"%string Examples.store
              Examples.maple_court [("id"%string, "g-42"%string)] "g-42"%string)
    as (k & nickname & Hk & Hs & E); try reflexivity; [discriminate|].
  eexists. split; [exact E|].
  assert (K : k = 20%nat).
  { destruct k as [|k]; [lia|]. simpl pred in Hs.
    rewrite poll_start_succ in Hs.
    assert (P : forall j, poll_start Examples.never_ready 0 0 j = (31 * j)%nat).
    { intros j. induction j as [|j IH]; [reflexivity|].
      rewrite poll_start_succ, IH. simpl. lia. }
    change (SharePointService.polls Examples.start) with 0%nat in Hs.
    change (SharePointService.now Examples.start) with 0%nat in Hs.
    rewrite P in Hs. simpl in Hs. lia. }
  subst k. split; [reflexivity|]. split; reflexivity.
Defined.

(** ** Folder structure *)

Lemma source_folders_length (i : nat) (l : list string) :
  List.length (SharePointService.source_folders i l) = List.length l.
Proof. revert i. induction l as [|s l IH]; intros i; simpl; auto. Qed.

Lemma source_folders_nth (l : list string) :
  forall i k name,
    nth_error l k = Some name ->
    nth_error (SharePointService.source_folders i l) k
    = Some (SharePointService.format_02d (i + k) ++ " - " ++ name ++ " Application")%string.
Proof.
  induction l as [|s l IH]; intros i k name H; destruct k; simpl in *; try discriminate.
  - inversion H; subst. now rewrite Nat.add_0_r.
  - rewrite (IH (S i) k name H). do 2 f_equal. f_equal. lia.
Qed.

Lemma folder_structure_app (l : list string) :
  SharePointService.get_default_folder_structure (Some l)
  = SharePointService.base_folders ++ SharePointService.source_folders 9 l.
Proof. destruct l; [|reflexivity]. simpl. reflexivity. Qed.

Lemma funding_source_names_all (d : db) (apps : list Application) :
  (forall a, In a apps -> app_funding_source d a <> None) ->
  Forall2 (fun a name => exists s, app_funding_source d a = Some s /\ name = fs_name s)
          apps
          (flat_map (fun app => match app_funding_source d app with
                                | Some source => [fs_name source]
                                | None => []
                                end) apps).
Proof.
  induction apps as [|a apps IH]; intros H; simpl; [constructor|].
  destruct (app_funding_source d a) as [s|] eqn:E.
  - simpl. constructor; [now exists s|]. apply IH. intros b Hb. apply H. now right.
  - exfalso. apply (H a); [now left|exact E].
Qed.

Section Posting.

Import SharePointService.

Variable w : world.

Lemma posted_cons (tc : nat * call) (log : list (nat * call)) :
  posted_folders (tc :: log)
  = posted_folders log ++ match snd tc with
                          | PostFolder _ folder_name => [folder_name]
                          | _ => []
                          end.
Proof.
  unfold posted_folders. simpl. rewrite flat_map_app. simpl.
  now rewrite app_nil_r.
Qed.

Lemma wait_loop_posts (group : string) (end_time : nat) :
  forall fuel st r st',
    wait_loop w fuel group end_time st = (r, st') ->
    posted_folders (calls st') = posted_folders (calls st).
Proof.
  induction fuel as [|fuel IH]; intros st r st' H; cbn [wait_loop] in H.
  - now inversion H.
  - destruct (now st <? end_time)%nat; [|now inversion H].
    unfold get_sharepoint_site in H.
    destruct (get_site w (polls st)) as [rep seconds].
    destruct rep as [o|e]; cbn [of_reply ret raise] in H.
    + destruct o as [|kv o].
      * apply IH in H. rewrite H. cbn [calls]. rewrite posted_cons.
        simpl. apply app_nil_r.
      * inversion H; subst. cbn [calls]. rewrite posted_cons.
        simpl. apply app_nil_r.
    + destruct e as [c| | |];
        try (inversion H; subst; cbn [calls]; rewrite posted_cons; simpl;
             apply app_nil_r).
      destruct (c =? 404)%nat.
      * unfold bind, sleep, log in H. apply IH in H. rewrite H. cbn [calls].
        rewrite !posted_cons. simpl. now rewrite !app_nil_r.
      * inversion H; subst. cbn [calls]. rewrite posted_cons.
        simpl. apply app_nil_r.
Qed.

Lemma create_folder_structure_posts (group : string) :
  forall folders st created st',
    create_folder_structure w group folders st = (Ret created, st') ->
    posted_folders (calls st') = posted_folders (calls st) ++ folders.
Proof.
  induction folders as [|f folders IH]; intros st created st' H;
    cbn [create_folder_structure] in H.
  - inversion H; subst. now rewrite app_nil_r.
  - unfold bind at 1 in H. unfold log in H.
    set (st1 := {| now := now st + 0; calls := (now st, PostFolder group f) :: calls st;
                   polls := polls st |}) in *.
    assert (P : posted_folders (calls st1) = posted_folders (calls st) ++ [f]).
    { subst st1. cbn [calls]. now rewrite posted_cons. }
    destruct (post_folder w f) as [o|e].
    + unfold bind in H.
      destruct (create_folder_structure w group folders st1) as [[c|e|] st2] eqn:E;
        try discriminate.
      inversion H; subst. rewrite (IH _ _ _ E), P, <- app_assoc. reflexivity.
    + destruct e; try discriminate.
      rewrite (IH _ _ _ H), P, <- app_assoc. reflexivity.
Qed.

Lemma complete_site_posts (tenant : string) (fuel : nat) (name descr owner : string)
      (sources : option (list string)) (st : state) (r : site_result) (st' : state) :
  create_complete_project_site w tenant fuel name descr owner sources st = (Ret r, st') ->
  posted_folders (calls st')
  = posted_folders (calls st) ++ get_default_folder_structure sources.
Proof.
  unfold create_complete_project_site, create_project_group. intros H.
  unfold bind at 1 2 3 in H. unfold log at 1 in H.
  destruct (post_group w) as [o|e]; cbn [of_reply ret raise] in H; [|discriminate].
  destruct (json_get "id" o) as [group|]; cbn [ret raise] in H; [|discriminate].
  unfold bind at 1 in H.
  match type of H with
  | context [wait_for_sharepoint_site w fuel group 10 ?s] => set (st1 := s) in *
  end.
  destruct (wait_for_sharepoint_site w fuel group 10 st1) as [[info|e|] st2] eqn:E;
    try discriminate.
  unfold wait_for_sharepoint_site in E. apply wait_loop_posts in E.
  destruct info as [info|]; [|discriminate].
  unfold bind in H.
  destruct (create_folder_structure w group (get_default_folder_structure sources) st2)
    as [[c|e|] st3] eqn:F; try discriminate.
  inversion H; subst. rewrite (create_folder_structure_posts _ _ _ _ _ F), E.
  subst st1. cbn [calls]. rewrite posted_cons. simpl. now rewrite app_nil_r.
Qed.

End Posting.

(** C6 (amended). The folder list used for a project is the eight fixed
    folders, numbered 01 to 08 in this order, followed by one folder per
    application of the project (in the order of the applications, a
    funding source applied to twice giving two folders), the k-th of them
    named "NN - <source name> Application" with NN = 9 + k; a create-site
    request that succeeds has asked for these folders, in this order. *)
Theorem folder_structure_per_application (d : db) (project : Project) :
  let names := SharePoint.funding_source_names d project in
  let folders := SharePointService.get_default_folder_structure (Some names) in
  folders = SharePointService.base_folders ++ SharePointService.source_folders 9 names /\
  List.length SharePointService.base_folders = 8%nat /\
  map (substring 0 2) SharePointService.base_folders
  = map SharePointService.format_02d (seq 1 8) /\
  List.length folders = (8 + List.length names)%nat /\
  (forall k name,
      nth_error names k = Some name ->
      nth_error folders (8 + k)
      = Some (SharePointService.format_02d (9 + k) ++ " - " ++ name ++ " Application")%string) /\
  ((forall a, In a (project_applications d project) -> app_funding_source d a <> None) ->
   Forall2 (fun a name => exists s, app_funding_source d a = Some s /\ name = fs_name s)
           (project_applications d project) names) /\
  (forall w e fuel st project_id data r d' st',
      get_project_row d project_id = Some project ->
      SharePoint.create_project_sharepoint_site w e fuel st project_id data d
      = (Some (Success 200 r), d', st') ->
      posted_folders (SharePointService.calls st')
      = posted_folders (SharePointService.calls st) ++ folders).
Proof.
  intros names folders. subst folders. rewrite folder_structure_app.
  split; [reflexivity|]. split; [reflexivity|]. split; [reflexivity|].
  split; [rewrite length_app, source_folders_length; reflexivity|].
  split.
  - intros k name H. rewrite nth_error_app2; [|simpl; lia].
    replace (8 + k - List.length SharePointService.base_folders)%nat with k
      by (simpl; lia).
    now apply source_folders_nth.
  - split; [intros H; now apply funding_source_names_all|].
    intros w e fuel st project_id data r d' st' Hp H.
    unfold SharePoint.create_project_sharepoint_site in H. rewrite Hp in H.
    destruct (Py.truthy_str (sharepoint_site_url project)); [discriminate|].
    destruct data as [data|]; [|discriminate].
    destruct (negb (Py.truthy_str _)); [discriminate|].
    destruct (negb (_ && _ && _)); [discriminate|].
    destruct (SharePointService.create_complete_project_site _ _ _ _ _ _ _ _)
      as [[sr|ex|] st2] eqn:E; try discriminate.
    inversion H; subst. apply complete_site_posts in E. rewrite E.
    now rewrite folder_structure_app.
Qed.

Lemma folder_structure_per_application_witness :
  (forall a, In a (project_applications Examples.store Examples.cedar_flats) ->
             app_funding_source Examples.store a <> None) /\
  Forall2 (fun a name => exists s, app_funding_source Examples.store a = Some s
                                   /\ name = fs_name s)
          (project_applications Examples.store Examples.cedar_flats)
          (SharePoint.funding_source_names Examples.store Examples.cedar_flats).
Proof.
  assert (H : forall a, In a (project_applications Examples.store Examples.cedar_flats) ->
                        app_funding_source Examples.store a <> None).
  { intros a [<-|[<-|[]]]; discriminate. }
  split; [exact H|].
  destruct (folder_structure_per_application Examples.store Examples.cedar_flats)
    as (_ & _ & _ & _ & _ & F & _).
  exact (F H).
Defined.

(** Cedar Flats applied twice to the same source (two rounds): there is
    one distinct source, and two folders follow the fixed eight. *)
Lemma folder_per_distinct_source_counterexample :
  List.length (Spec.distinct_sources Examples.store Examples.cedar_flats) = 1%nat /\
  SharePointService.get_default_folder_structure
    (Some (SharePoint.funding_source_names Examples.store Examples.cedar_flats))
  = SharePointService.base_folders
      ++ ["09 - HOME Funds Application"%string; "10 - HOME Funds Application"%string].
Proof. split; reflexivity. Qed.

(** * Further properties *)

(** ** Group-by dictionaries of the time summary *)




Section Groups.

Variable column : TimeTracking.bucket -> Q.
Variable delta : TimeEntry -> Q.

Hypothesis column_bump :
  forall key e b, column (TimeTracking.bump key e b) == column b + delta e.


End Groups.


(** ** Writing and reading time entries *)

Lemma next_id_above (l : list TimeEntry) (e : TimeEntry) :
  In e l -> (te_id e < TimeTracking.next_id l)%Z.
Proof.
  unfold TimeTracking.next_id. induction l as [|x l IH]; simpl; [tauto|].
  intros [<-|H]; [lia|]. specialize (IH H). lia.
Qed.

Lemma find_app_fresh (l : list TimeEntry) (e : TimeEntry) (i : Z) :
  find (fun x => (te_id x =? i)%Z) (l ++ [e])
  = match find (fun x => (te_id x =? i)%Z) l with
    | Some x => Some x
    | None => if (te_id e =? i)%Z then Some e else None
    end.
Proof.
  induction l as [|x l IH]; simpl; [reflexivity|].
  destruct (te_id x =? i)%Z; [reflexivity|exact IH].
Qed.

(** X4. A time entry that was created can be read back: the identifier in
    the 201 answer belongs to no earlier entry, looking it up afterwards
    gives one entry with the hours of the request (as [float] converts
    them), the rate of the request (125 when the request names none) and
    the flags of the request (billable and not invoiced by default), the
    [total_amount] of the answer is its hours times its rate, and every
    other identifier looks up as before. *)
Theorem created_entry_reads_back (strptime : string -> option Z)
        (float_of_str : string -> option Q)
        (data : TimeTracking.Body.t) (d : db)
        (code : nat) (r : TimeTracking.entry_result) (d' : db) :
  TimeTracking.create_time_entry strptime float_of_str data d = (Success code r, d') ->
  code = 201%nat /\
  TimeTracking.get_entry d (TimeTracking.res_id r) = None /\
  (exists e,
      TimeTracking.get_entry d' (TimeTracking.res_id r) = Some e /\
      (exists v, TimeTracking.Body.hours data = Val v /\
                 Json.to_float float_of_str v = Some (hours e)) /\
      match TimeTracking.Body.hourly_rate data with
      | Val rate => Json.to_float float_of_str rate = Some (hourly_rate e)
      | _ => hourly_rate e = 125
      end /\
      is_billable e = match TimeTracking.Body.is_billable data with
                      | Val b => Some b
                      | _ => Some true
                      end /\
      is_invoiced e = match TimeTracking.Body.is_invoiced data with
                      | Val b => Some b
                      | _ => Some false
                      end /\
      TimeTracking.res_total_amount r = hours e * hourly_rate e) /\
  (forall i, i <> TimeTracking.res_id r ->
             TimeTracking.get_entry d' i = TimeTracking.get_entry d i) /\
  projects d' = projects d /\ applications d' = applications d /\
  funding_sources d' = funding_sources d.
Proof.
  intros H. unfold TimeTracking.create_time_entry in H.
  destruct (negb (Py.truthy_str (get (TimeTracking.Body.user_name data))));
    [discriminate|].
  destruct (negb (Py.truthy_str (get (TimeTracking.Body.description data))));
    [discriminate|].
  destruct (negb (Json.truthy_opt (get (TimeTracking.Body.hours data))));
    [discriminate|].
  destruct (negb (Py.truthy_str (get (TimeTracking.Body.date data))));
    [discriminate|].
  destruct (Py.truthy_int (get (TimeTracking.Body.project_id data)) && _);
    [discriminate|].
  destruct (get (TimeTracking.Body.user_name data)) as [user|]; [|discriminate].
  destruct (get (TimeTracking.Body.description data)) as [descr|]; [|discriminate].
  destruct (TimeTracking.Body.hours data) as [| |v] eqn:Eh; try discriminate.
  cbn [get] in H.
  destruct (get (TimeTracking.Body.date data)) as [day|]; [|discriminate].
  destruct (strptime day) as [entry_date|]; [|discriminate].
  destruct (Json.to_float float_of_str v) as [h|] eqn:Fh; [|discriminate].
  assert (F : find (fun x => (te_id x =? TimeTracking.next_id (time_entries d))%Z)
                   (time_entries d) = None).
  { destruct (find _ _) as [x|] eqn:Ex; [|reflexivity].
    apply find_some in Ex. destruct Ex as [Hin Hid].
    apply Z.eqb_eq in Hid. apply next_id_above in Hin. lia. }
  assert (L : forall e i,
             te_id e = TimeTracking.next_id (time_entries d) ->
             i <> te_id e ->
             TimeTracking.get_entry
               (TimeTracking.with_time_entries d (time_entries d ++ [e])) i
             = TimeTracking.get_entry d i).
  { intros e i He Hi. unfold TimeTracking.get_entry.
    cbn [time_entries TimeTracking.with_time_entries]. rewrite find_app_fresh.
    destruct (find (fun x => (te_id x =? i)%Z) (time_entries d)); [reflexivity|].
    destruct (Z.eqb_spec (te_id e) i); congruence. }
  assert (N : forall e,
             te_id e = TimeTracking.next_id (time_entries d) ->
             TimeTracking.get_entry
               (TimeTracking.with_time_entries d (time_entries d ++ [e]))
               (TimeTracking.next_id (time_entries d))
             = Some e).
  { intros e He. unfold TimeTracking.get_entry.
    cbn [time_entries TimeTracking.with_time_entries].
    rewrite find_app_fresh, F, He, Z.eqb_refl. reflexivity. }
  destruct (TimeTracking.Body.hourly_rate data) as [| |rate]; try discriminate.
  - inversion H; subst; clear H.
    cbn [TimeTracking.res_id TimeTracking.res_total_amount].
    split; [reflexivity|]. split; [exact F|]. split.
    + eexists. split; [apply N; reflexivity|]. cbn [hours hourly_rate].
      split; [exists v; split; [reflexivity|exact Fh]|]. repeat split.
    + split; [|repeat split]. intros i Hi. apply L; [reflexivity|exact Hi].
  - destruct (Json.to_float float_of_str rate) as [x|] eqn:Fr; [|discriminate].
    inversion H; subst; clear H.
    cbn [TimeTracking.res_id TimeTracking.res_total_amount].
    split; [reflexivity|]. split; [exact F|]. split.
    + eexists. split; [apply N; reflexivity|]. cbn [hours hourly_rate].
      split; [exists v; split; [reflexivity|exact Fh]|]. repeat split.
    + split; [|repeat split]. intros i Hi. apply L; [reflexivity|exact Hi].
Qed.

Lemma created_entry_reads_back_witness :
  exists r d',
    TimeTracking.create_time_entry Examples.strptime Examples.float_of_str
      Examples.negative_hours Examples.timesheet = (Success 201 r, d') /\
    TimeTracking.get_entry Examples.timesheet (TimeTracking.res_id r) = None /\
    TimeTracking.res_id r = 4%Z.
Proof.
  destruct (TimeTracking.create_time_entry Examples.strptime Examples.float_of_str
              Examples.negative_hours Examples.timesheet) as [answer d'] eqn:C.
  assert (A : exists r, answer = Success 201 r /\ TimeTracking.res_id r = 4%Z).
  { vm_compute in C. injection C as <- _. eexists. split; reflexivity. }
  destruct A as (r & -> & Hr). exists r, d'. split; [reflexivity|].
  destruct (created_entry_reads_back _ _ _ _ _ _ _ C) as (_ & H & _).
  split; [exact H|exact Hr].
Defined.

Lemma replace_entry_rows (e' : TimeEntry) (l : list TimeEntry) :
  Forall2 (fun e x => te_id x = te_id e /\ (te_id e <> te_id e' -> x = e))
          l (TimeTracking.replace_entry e' l).
Proof.
  induction l as [|e l IH]; simpl; constructor; [|exact IH].
  destruct (Z.eqb_spec (te_id e) (te_id e')) as [E|E].
  - split; [now symmetry|]. intros N. contradiction.
  - split; [reflexivity|]. reflexivity.
Qed.

Lemma Forall2_same {A} (R : A -> A -> Prop) (l : list A) :
  (forall a, R a a) -> Forall2 R l l.
Proof. intros H. induction l; constructor; auto. Qed.

(** X5. An update request changes at most the entry it names: whatever
    the answer, the table has the same identifiers in the same order
    afterwards, every entry with another identifier is as it was, and so
    are the other tables; when the answer is not a success nothing at all
    is changed. *)
Theorem update_touches_one_entry (strptime : string -> option Z)
        (float_of_str : string -> option Q)
        (entry_id : Z) (data : TimeTracking.Body.t) (d : db)
        (answer : response TimeTracking.entry_result) (d' : db) :
  TimeTracking.update_time_entry strptime float_of_str entry_id data d
  = (answer, d') ->
  Forall2 (fun e x => te_id x = te_id e /\ (te_id e <> entry_id -> x = e))
          (time_entries d) (time_entries d') /\
  projects d' = projects d /\ applications d' = applications d /\
  funding_sources d' = funding_sources d /\
  (forall code message, answer = Failure code message -> d' = d).
Proof.
  intros H. unfold TimeTracking.update_time_entry in H.
  assert (Same : Forall2 (fun e x => te_id x = te_id e /\ (te_id e <> entry_id -> x = e))
                         (time_entries d) (time_entries d)).
  { apply Forall2_same. intros a. split; [reflexivity|]. reflexivity. }
  destruct (TimeTracking.get_entry d entry_id) as [time_entry|] eqn:G.
  - destruct (has_key (TimeTracking.Body.project_id data) && _ && _).
    + inversion H; subst. repeat split; auto.
    + destruct (TimeTracking.apply_update strptime float_of_str data time_entry)
        as [e'|] eqn:U.
      * inversion H; subst. cbn [time_entries TimeTracking.with_time_entries
                                 projects applications funding_sources].
        assert (Hid : te_id e' = entry_id).
        { unfold TimeTracking.apply_update in U.
          destruct (match TimeTracking.Body.user_name data with
                    | Absent => _ | _ => _ end); [|discriminate].
          destruct (match TimeTracking.Body.description data with
                    | Absent => _ | _ => _ end); [|discriminate].
          destruct (match TimeTracking.Body.hours data with
                    | Absent => _ | Null => _ | Val v => _ end); [|discriminate].
          destruct (match TimeTracking.Body.hourly_rate data with
                    | Absent => _ | Null => _ | Val v => _ end); [|discriminate].
          destruct (match TimeTracking.Body.date data with
                    | Absent => _ | Null => _ | Val s => _ end); [|discriminate].
          inversion U; subst. cbn [te_id].
          apply find_some in G. destruct G as [_ G]. now apply Z.eqb_eq in G. }
        split; [|repeat split; intros; discriminate].
        rewrite <- Hid. apply replace_entry_rows.
      * inversion H; subst. repeat split; auto.
  - inversion H; subst. repeat split; auto.
Qed.

Lemma update_touches_one_entry_witness :
  exists answer d',
    TimeTracking.update_time_entry Examples.strptime Examples.float_of_str 1
      (Examples.only_hours (Json.Int 3)) Examples.timesheet = (answer, d') /\
    map te_id (time_entries d') = [1%Z; 2%Z; 3%Z] /\
    projects d' = projects Examples.timesheet.
Proof.
  destruct (TimeTracking.update_time_entry Examples.strptime Examples.float_of_str 1
              (Examples.only_hours (Json.Int 3)) Examples.timesheet)
    as [answer d'] eqn:U.
  exists answer, d'. split; [reflexivity|].
  destruct (update_touches_one_entry _ _ _ _ _ _ _ U) as (_ & H & _).
  split; [|exact H].
  vm_compute in U. injection U as _ <-. reflexivity.
Defined.

(** ** Marking entries as invoiced, twice *)

Lemma mark_rows_twice (ids : list Z) (l : list TimeEntry) :
  let mark e := if TimeTracking.in_ ids e then TimeTracking.set_invoiced e else e in
  map mark (map mark l) = map mark l /\
  List.length (filter (TimeTracking.in_ ids) (map mark l))
  = List.length (filter (TimeTracking.in_ ids) l).
Proof.
  intros mark.
  assert (M : forall e, mark (mark e) = mark e /\
                        TimeTracking.in_ ids (mark e) = TimeTracking.in_ ids e).
  { intros e. subst mark. cbv beta.
    destruct (TimeTracking.in_ ids e) eqn:E.
    - change (TimeTracking.in_ ids (TimeTracking.set_invoiced e))
        with (TimeTracking.in_ ids e). rewrite E. split; reflexivity.
    - rewrite E. split; reflexivity. }
  split.
  - rewrite map_map. apply map_ext. intros e. apply M.
  - induction l as [|e l IH]; [reflexivity|]. cbn [map filter].
    destruct (M e) as [_ ->]. destruct (TimeTracking.in_ ids e); simpl; auto.
Qed.

(** X6. Marking the same identifiers as invoiced a second time changes
    nothing: the second request gets the same answer with the same count
    and leaves the store as the first request left it. *)
Theorem mark_invoiced_twice (data : option (field (list Z))) (d : db)
        (answer : response TimeTracking.invoiced_result) (d' : db) :
  TimeTracking.mark_entries_invoiced data d = (answer, d') ->
  TimeTracking.mark_entries_invoiced data d' = (answer, d').
Proof.
  unfold TimeTracking.mark_entries_invoiced. intros H.
  destruct data as [f|]; [|injection H as <- <-; reflexivity].
  destruct (match f with Absent => Some [] | _ => get f end) as [[|i ids]|];
    try (injection H as <- <-; reflexivity).
  remember (i :: ids) as entry_ids eqn:Eids.
  destruct (forallb TimeTracking.sqlite_integer entry_ids);
    [|injection H as <- <-; reflexivity].
  destruct (mark_rows_twice entry_ids (time_entries d)) as [M C].
  injection H as <- <-. cbn [time_entries TimeTracking.with_time_entries].
  rewrite C. unfold TimeTracking.with_time_entries.
  cbn [projects funding_sources applications]. now rewrite M.
Qed.

Lemma mark_invoiced_twice_witness :
  exists answer d',
    TimeTracking.mark_entries_invoiced (Some (Val [1%Z; 999%Z])) Examples.timesheet
    = (answer, d') /\
    TimeTracking.mark_entries_invoiced (Some (Val [1%Z; 999%Z])) d' = (answer, d').
Proof.
  do 2 eexists. split; [reflexivity|].
  apply (mark_invoiced_twice (Some (Val [1%Z; 999%Z])) Examples.timesheet).
  reflexivity.
Defined.

(** ** Mail nickname of a project group *)

Lemma lower_of_alnum (c : ascii) :
  SharePointService.isalnum c = true ->
  is_lower_alnum (SharePointService.lower c) = true.
Proof.
  destruct c as [[|] [|] [|] [|] [|] [|] [|] [|]]; intros H;
    try discriminate H; reflexivity.
Qed.

Lemma lower_alnum_fixed (c : ascii) :
  is_lower_alnum c = true ->
  SharePointService.isalnum c = true /\ SharePointService.lower c = c.
Proof.
  destruct c as [[|] [|] [|] [|] [|] [|] [|] [|]]; intros H;
    try discriminate H; split; reflexivity.
Qed.

Lemma lower_alnum_chars (s : string) :
  string_forall is_lower_alnum (SharePointService.lower_alnum s) = true.
Proof.
  induction s as [|c s IH]; simpl; [reflexivity|].
  destruct (SharePointService.isalnum c) eqn:E; [|exact IH].
  simpl. now rewrite (lower_of_alnum c E), IH.
Qed.

Lemma lower_alnum_idem (s : string) :
  string_forall is_lower_alnum s = true -> SharePointService.lower_alnum s = s.
Proof.
  induction s as [|c s IH]; simpl; [reflexivity|].
  intros H. apply andb_prop in H. destruct H as [Hc Hs].
  destruct (lower_alnum_fixed c Hc) as [-> ->]. now rewrite (IH Hs).
Qed.

Lemma prefix_forall (p : ascii -> bool) (s : string) :
  forall n, string_forall p s = true ->
            string_forall p (substring 0 n s) = true.
Proof.
  induction s as [|c s IH]; intros n H; destruct n; simpl; try reflexivity.
  simpl in H. apply andb_prop in H. destruct H as [Hc Hs].
  now rewrite Hc, (IH n Hs).
Qed.

Lemma prefix_length (s : string) :
  forall n, (String.length (substring 0 n s) <= n)%nat /\
            ((String.length s <= n)%nat -> substring 0 n s = s).
Proof.
  induction s as [|c s IH]; intros n; destruct n; simpl.
  - split; [lia|reflexivity].
  - split; [lia|reflexivity].
  - split; [lia|]. intros H. lia.
  - destruct (IH n) as [L E]. split; [lia|]. intros H. rewrite E; [reflexivity|lia].
Qed.

(** X7. For an ASCII project name the mail nickname sent with the group
    creation has at most 64 characters, all of them lower-case letters or
    digits; it is the name without its other characters, in lower case,
    when that has at most 64 characters; normalising a nickname again
    gives the same nickname; and the creation request is the next call,
    made with this nickname. *)
Theorem mail_nickname_normalised (w : SharePointService.world)
        (project_name project_description owner_user_id : string)
        (st : SharePointService.state) :
  ascii_only project_name = true ->
  let nickname := substring 0 64 (SharePointService.lower_alnum project_name) in
  (String.length nickname <= 64)%nat /\
  string_forall is_lower_alnum nickname = true /\
  ((String.length (SharePointService.lower_alnum project_name) <= 64)%nat ->
   nickname = SharePointService.lower_alnum project_name) /\
  substring 0 64 (SharePointService.lower_alnum nickname) = nickname /\
  (exists r st',
      SharePointService.create_project_group w project_name project_description
        owner_user_id st = (r, st') /\
      SharePointService.calls st'
      = (SharePointService.now st,
         SharePointService.PostGroup project_name nickname owner_user_id)
          :: SharePointService.calls st /\
      forall group nick, r = SharePointService.Ret (group, nick) -> nick = nickname).
Proof.
  intros _ nickname.
  destruct (prefix_length (SharePointService.lower_alnum project_name) 64) as [L E].
  assert (C : string_forall is_lower_alnum nickname = true).
  { apply prefix_forall, lower_alnum_chars. }
  split; [exact L|]. split; [exact C|]. split; [exact E|]. split.
  - rewrite (lower_alnum_idem nickname C).
    apply (prefix_length nickname 64). exact L.
  - unfold SharePointService.create_project_group.
    fold nickname. unfold SharePointService.bind, SharePointService.log.
    destruct (SharePointService.post_group w) as [o|e];
      cbn [SharePointService.of_reply SharePointService.ret SharePointService.raise].
    + destruct (SharePointService.json_get "id" o) as [id|];
        cbn [SharePointService.ret SharePointService.raise];
        do 2 eexists; (split; [reflexivity|]); (split; [reflexivity|]);
        intros group nick H; congruence.
    + do 2 eexists. split; [reflexivity|]. split; [reflexivity|].
      intros group nick H; congruence.
Qed.

Lemma mail_nickname_normalised_witness :
  ascii_only "Cedar Flats (Phase II) - 2024" = true /\
  substring 0 64 (SharePointService.lower_alnum "Cedar Flats (Phase II) - 2024")
  = "cedarflatsphaseii2024"%string /\
  (String.length
     (substring 0 64 (SharePointService.lower_alnum "Cedar Flats (Phase II) - 2024"))
   <= 64)%nat.
Proof.
  split; [reflexivity|]. split; [reflexivity|].
  apply (mail_nickname_normalised Examples.never_ready
           "Cedar Flats (Phase II) - 2024" "" "owner-1" Examples.start).
  reflexivity.
Defined.

(** ** Best-effort folder creation *)

(** X8. When the directory answers every folder creation either with a
    body or with an HTTP error, the creation of the folder structure
    returns normally: every folder of the list was requested, in order and
    without time passing on the clock of the model, and the result holds
    the answers for the folders that were accepted, in order; folders
    refused with an HTTP error are skipped. *)
Theorem folder_creation_best_effort (w : SharePointService.world) (group : string)
        (folders : list string) (st : SharePointService.state) :
  (forall f, In f folders ->
             (exists o, SharePointService.post_folder w f = SharePointService.Body o) \/
             (exists c, SharePointService.post_folder w f
                        = SharePointService.Raises (SharePointService.HTTPError c))) ->
  exists st',
    SharePointService.create_folder_structure w group folders st
    = (SharePointService.Ret (accepted_folders w folders), st') /\
    posted_folders (SharePointService.calls st')
    = posted_folders (SharePointService.calls st) ++ folders /\
    SharePointService.now st' = SharePointService.now st /\
    SharePointService.polls st' = SharePointService.polls st /\
    (List.length (accepted_folders w folders) <= List.length folders)%nat.
Proof.
  revert st. induction folders as [|f folders IH]; intros st H.
  - exists st. simpl. rewrite app_nil_r. repeat split; auto.
  - cbn [SharePointService.create_folder_structure].
    unfold SharePointService.bind at 1. unfold SharePointService.log.
    set (st1 := {| SharePointService.now := SharePointService.now st + 0;
                   SharePointService.calls :=
                     (SharePointService.now st, SharePointService.PostFolder group f)
                       :: SharePointService.calls st;
                   SharePointService.polls := SharePointService.polls st |}).
    destruct (IH st1) as (st' & E & P & T & K & L).
    { intros g Hg. apply H. now right. }
    assert (P1 : posted_folders (SharePointService.calls st1)
                 = posted_folders (SharePointService.calls st) ++ [f]).
    { subst st1. cbn [SharePointService.calls]. now rewrite posted_cons. }
    exists st'. unfold accepted_folders in *. cbn [flat_map].
    destruct (H f (or_introl eq_refl)) as [[o Ho]|[c Hc]].
    + rewrite Ho. unfold SharePointService.bind. rewrite E.
      split; [reflexivity|]. rewrite P, P1, <- app_assoc.
      split; [reflexivity|]. subst st1. simpl in *.
      repeat split; lia.
    + rewrite Hc, E. split; [reflexivity|]. rewrite P, P1, <- app_assoc.
      split; [reflexivity|]. subst st1. simpl in *.
      repeat split; lia.
Qed.

Lemma folder_creation_best_effort_witness :
  (forall f, In f SharePointService.base_folders ->
             (exists o, SharePointService.post_folder Examples.refuses_legal f
                        = SharePointService.Body o) \/
             (exists c, SharePointService.post_folder Examples.refuses_legal f
                        = SharePointService.Raises (SharePointService.HTTPError c))) /\
  exists st',
    SharePointService.create_folder_structure Examples.refuses_legal "g-42"
      SharePointService.base_folders Examples.start
    = (SharePointService.Ret
         (accepted_folders Examples.refuses_legal SharePointService.base_folders), st') /\
    List.length (accepted_folders Examples.refuses_legal SharePointService.base_folders)
    = 7%nat.
Proof.
  assert (H : forall f, In f SharePointService.base_folders ->
                (exists o, SharePointService.post_folder Examples.refuses_legal f
                           = SharePointService.Body o) \/
                (exists c, SharePointService.post_folder Examples.refuses_legal f
                           = SharePointService.Raises (SharePointService.HTTPError c))).
  { intros f Hf. simpl in Hf.
    repeat (destruct Hf as [<-|Hf]; [try (left; eexists; reflexivity);
                                     right; eexists; reflexivity|]).
    contradiction. }
  split; [exact H|].
  destruct (folder_creation_best_effort Examples.refuses_legal "g-42"
              SharePointService.base_folders Examples.start H) as (st' & E & _).
  exists st'. split; [exact E|reflexivity].
Defined.

(** ** A site that becomes ready *)

Lemma wait_loop_finds_site (w : SharePointService.world) (group : string)
      (end_time : nat) (info : SharePointService.json) :
  info <> [] ->
  forall k fuel st,
    (forall i, (i < k)%nat ->
               fst (SharePointService.get_site w (SharePointService.polls st + i))
               = SharePointService.Raises (SharePointService.HTTPError 404)) ->
    fst (SharePointService.get_site w (SharePointService.polls st + k))
    = SharePointService.Body info ->
    (poll_start w (SharePointService.polls st) (SharePointService.now st) k
     < end_time)%nat ->
    (k < fuel)%nat ->
    exists st',
      SharePointService.wait_loop w fuel group end_time st
      = (SharePointService.Ret (Some info), st') /\
      SharePointService.polls st' = (SharePointService.polls st + k + 1)%nat /\
      SharePointService.now st'
      = (poll_start w (SharePointService.polls st) (SharePointService.now st) k
         + snd (SharePointService.get_site w (SharePointService.polls st + k)))%nat /\
      List.length (SharePointService.calls st')
      = (List.length (SharePointService.calls st) + 2 * k + 1)%nat.
Proof.
  intros Hinfo. induction k as [|k IH]; intros fuel st H404 Hk Hstart Hfuel;
    (destruct fuel as [|fuel]; [lia|]); cbn [SharePointService.wait_loop].
  - simpl in Hstart. apply Nat.ltb_lt in Hstart. rewrite Hstart.
    unfold SharePointService.get_sharepoint_site. rewrite Nat.add_0_r in Hk.
    destruct (SharePointService.get_site w (SharePointService.polls st))
      as [r seconds] eqn:E.
    simpl in Hk. subst r. cbn [SharePointService.of_reply SharePointService.ret].
    destruct info as [|kv info]; [contradiction|].
    eexists. split; [reflexivity|]. simpl. rewrite Nat.add_0_r, E. simpl.
    repeat split; lia.
  - assert (Hnow : (SharePointService.now st < end_time)%nat).
    { pose proof (poll_start_le w (S k) (SharePointService.polls st)
                                (SharePointService.now st)). lia. }
    apply Nat.ltb_lt in Hnow. rewrite Hnow.
    unfold SharePointService.get_sharepoint_site.
    pose proof (H404 0%nat ltac:(lia)) as H0. rewrite Nat.add_0_r in H0.
    destruct (SharePointService.get_site w (SharePointService.polls st))
      as [r seconds] eqn:E.
    simpl in H0. subst r.
    cbn [SharePointService.of_reply SharePointService.raise].
    rewrite Nat.eqb_refl. unfold SharePointService.bind at 1.
    unfold SharePointService.sleep, SharePointService.log.
    cbn [SharePointService.now SharePointService.calls SharePointService.polls].
    set (st2 := {| SharePointService.now := SharePointService.now st + seconds + 30;
                   SharePointService.calls :=
                     ((SharePointService.now st + seconds)%nat, SharePointService.Sleep 30)
                       :: (SharePointService.now st, SharePointService.GetSite group)
                       :: SharePointService.calls st;
                   SharePointService.polls := S (SharePointService.polls st) |}).
    destruct (IH fuel st2) as (st' & R & P & T & C).
    + intros i Hi. subst st2. cbn [SharePointService.polls].
      replace (S (SharePointService.polls st) + i)%nat
        with (SharePointService.polls st + S i)%nat by lia.
      apply H404. lia.
    + subst st2. cbn [SharePointService.polls].
      replace (S (SharePointService.polls st) + k)%nat
        with (SharePointService.polls st + S k)%nat by lia. exact Hk.
    + subst st2. cbn [SharePointService.polls SharePointService.now].
      simpl in Hstart. rewrite E in Hstart. exact Hstart.
    + lia.
    + exists st'. split; [exact R|]. subst st2.
      cbn [SharePointService.polls SharePointService.now SharePointService.calls] in *.
      simpl poll_start. rewrite E. cbn [snd].
      replace (SharePointService.polls st + S k)%nat
        with (S (SharePointService.polls st) + k)%nat by lia.
      repeat split; try lia. simpl in C. lia.
Qed.

(** X9. If the next [k] readiness polls are answered 404 and the one after
    them returns a non-empty site, and that poll starts within the ten
    minutes (each earlier poll takes its duration plus a pause of 30
    seconds), then the wait returns this site; it made [k + 1] polls and
    [k] pauses, and ends when the last poll ends.  With [k = 0] the site
    is returned by the first poll without any pause. *)
Theorem site_found_after_retries (w : SharePointService.world) (group : string)
        (info : SharePointService.json) (k fuel : nat) (st : SharePointService.state) :
  info <> [] ->
  (forall i, (i < k)%nat ->
             fst (SharePointService.get_site w (SharePointService.polls st + i))
             = SharePointService.Raises (SharePointService.HTTPError 404)) ->
  fst (SharePointService.get_site w (SharePointService.polls st + k))
  = SharePointService.Body info ->
  (poll_start w (SharePointService.polls st) (SharePointService.now st) k
   < SharePointService.now st + 600)%nat ->
  (k < fuel)%nat ->
  exists st',
    SharePointService.wait_for_sharepoint_site w fuel group 10 st
    = (SharePointService.Ret (Some info), st') /\
    SharePointService.polls st' = (SharePointService.polls st + k + 1)%nat /\
    SharePointService.now st'
    = (poll_start w (SharePointService.polls st) (SharePointService.now st) k
       + snd (SharePointService.get_site w (SharePointService.polls st + k)))%nat /\
    List.length (SharePointService.calls st')
    = (List.length (SharePointService.calls st) + 2 * k + 1)%nat.
Proof.
  intros Hinfo H404 Hk Hstart Hfuel.
  unfold SharePointService.wait_for_sharepoint_site.
  change (60 * 10)%nat with 600%nat.
  now apply wait_loop_finds_site.
Qed.

Lemma site_found_after_retries_witness :
  exists st',
    SharePointService.wait_for_sharepoint_site Examples.ready_at_third_poll 5 "g-42" 10
      Examples.start
    = (SharePointService.Ret
         (Some [("webUrl"%string,
                 "https://contoso.sharepoint.com/sites/cedarflats"%string)]), st') /\
    SharePointService.polls st' = 3%nat /\ SharePointService.now st' = 63%nat.
Proof.
  destruct (site_found_after_retries Examples.ready_at_third_poll "g-42"
              [("webUrl"%string, "https://contoso.sharepoint.com/sites/cedarflats"%string)]
              2 5 Examples.start) as (st' & R & P & T & _).
  - discriminate.
  - intros i Hi. destruct i as [|[|i]]; [reflexivity|reflexivity|lia].
  - reflexivity.
  - simpl. lia.
  - lia.
  - exists st'. split; [exact R|]. split; [exact P|exact T].
Defined.

(** ** What a recommendation looks like *)

Lemma score_source_shape (d : db) (p : Project) (s : FundingSource) :
  let r := AiChat.score_source d p s in
  (fst r = 0%Z /\ snd r = []) \/
  ((20 <= fst r <= 55)%Z /\ snd r <> [] /\ (List.length (snd r) <= 2)%nat).
Proof.
  unfold AiChat.score_source.
  destruct (fs_type s); cbn [FundingSourceType_value String.eqb Ascii.eqb Bool.eqb andb];
    repeat match goal with
           | |- context [if ?c then _ else _] => destruct c
           | |- context [match ?x with Some _ => _ | None => _ end] => destruct x
           end;
    cbn [fst snd app List.length];
    try (left; split; reflexivity);
    right; (split; [lia|]); (split; [discriminate|]); lia.
Qed.

Lemma sorted_firstn (n : nat) (l : list AiChat.recommendation) :
  StronglySorted score_desc l -> StronglySorted score_desc (firstn n l).
Proof.
  intros H. revert n. induction H as [|x l Hl IH Hx]; intros n; destruct n; simpl;
    try constructor; auto.
  rewrite Forall_forall in *. intros y Hy. apply Hx.
  eapply (In_nth_error) in Hy. destruct Hy as [i Hy].
  apply nth_error_In with (n := i).
  rewrite nth_error_firstn in Hy. destruct (i <? n)%nat; congruence.
Qed.

Lemma in_firstn {A} (n : nat) (l : list A) (x : A) : In x (firstn n l) -> In x l.
Proof.
  revert n. induction l as [|y l IH]; intros n; destruct n; simpl; try tauto.
  intros [H|H]; [now left|right; eauto].
Qed.

(** X10. Every recommendation returned for a project is for a funding
    source of the store that is active and that the project has not
    applied to; its score lies between 20 and 55 and it comes with one or
    two reasons; the recommendations are at most five, in descending score
    order, and not more than the available sources that are counted beside
    them. *)
Theorem recommendations_sound (d : db) (project_id : Z) (p : Project) :
  get_project_row d project_id = Some p ->
  exists data,
    AiChat.get_funding_recommendations d project_id = Success 200 data /\
    (forall r, In r (AiChat.recommendations data) ->
               In (AiChat.funding_source r) (funding_sources d) /\
               is_active (AiChat.funding_source r) = Some true /\
               ~ In (fs_id (AiChat.funding_source r))
                    (map funding_source_id (project_applications d p)) /\
               (20 <= AiChat.match_score r <= 55)%Z /\
               AiChat.reasons r <> [] /\
               (List.length (AiChat.reasons r) <= 2)%nat) /\
    StronglySorted score_desc (AiChat.recommendations data) /\
    (List.length (AiChat.recommendations data) <= 5)%nat /\
    (List.length (AiChat.recommendations data)
     <= AiChat.total_available_sources data)%nat.
Proof.
  intros Hp.
  destruct (funding_recommendations_ranked d project_id p Hp)
    as (data & ranked & E & R & L & I & _ & P & S & _ & A & _).
  exists data. split; [exact E|]. split.
  - intros r Hr. rewrite R in Hr. apply in_firstn in Hr.
    apply I in Hr. destruct Hr as (s & Hs & -> & Hpos).
    cbn [AiChat.recommend AiChat.funding_source AiChat.match_score AiChat.reasons].
    apply A in Hs. destruct Hs as (H1 & H2 & H3).
    split; [exact H1|]. split; [exact H2|]. split; [exact H3|].
    rewrite <- score_source_guarded in Hpos.
    destruct (score_source_shape d p s) as [[Z0 _]|(B & N & K)]; [lia|].
    repeat split; auto; lia.
  - split; [rewrite R; now apply sorted_firstn|]. split; [exact L|].
    assert (T : AiChat.total_available_sources data
                = List.length (AiChat.available_sources d p)).
    { unfold AiChat.get_funding_recommendations in E. rewrite Hp in E.
      injection E as <-. reflexivity. }
    rewrite R, T.
    pose proof (Nat.le_min_r 5 (List.length ranked)) as F.
    rewrite <- length_firstn in F. rewrite (Permutation_length P) in F. unfold AiChat.candidates in F.
    pose proof (filter_length_le (fun r => (0 <? AiChat.match_score r)%Z)
                  (map (AiChat.recommend d p) (AiChat.available_sources d p))) as G.
    rewrite length_map in G. lia.
Qed.

Lemma recommendations_sound_witness :
  get_project_row Examples.store 1 = Some Examples.maple_court /\
  exists data,
    AiChat.get_funding_recommendations Examples.store 1 = Success 200 data /\
    map AiChat.match_score (AiChat.recommendations data) = [55%Z; 25%Z; 20%Z] /\
    StronglySorted score_desc (AiChat.recommendations data).
Proof.
  split; [reflexivity|].
  destruct (recommendations_sound Examples.store 1 Examples.maple_court eq_refl)
    as (data & E & _ & S & _).
  exists data. split; [exact E|]. split; [|exact S].
  vm_compute in E. injection E as <-. reflexivity.
Defined.

(** ** Application statistics *)

Lemma status_counts_partition (l : list Application) :
  sum_counts
    (map (fun status =>
            (ApplicationStatus_value status,
             List.length (filter (fun a => ApplicationStatus_eqb (a_status a) status) l)))
         Applications.all_statuses)
  = List.length l.
Proof.
  induction l as [|a l IH]; [reflexivity|].
  unfold sum_counts, Applications.all_statuses in *. cbn [map fold_right snd filter] in *.
  destruct (a_status a); cbn [ApplicationStatus_eqb ApplicationStatus_value String.eqb
                              Ascii.eqb Bool.eqb andb List.length] in *; lia.
Qed.

(** X11. In the application statistics every application is counted under
    exactly one status: the counts of [status_distribution], one for each
    of the six statuses in their order, add up to [total_applications];
    the statistics are produced for every store. *)
Theorem status_distribution_partitions (d : db) (utcnow : Z) :
  exists st,
    Applications.get_application_stats d utcnow = Success 200 st /\
    map fst (Applications.status_distribution st)
    = ["Draft"; "Submitted"; "Under Review"; "Approved"; "Denied"; "Withdrawn"]%string /\
    sum_counts (Applications.status_distribution st)
    = Applications.total_applications st /\
    (Applications.recent_applications st <= Applications.total_applications st)%nat.
Proof.
  unfold Applications.get_application_stats. rewrite success_rate_expr_total.
  eexists. split; [reflexivity|].
  cbn [Applications.status_distribution Applications.total_applications
       Applications.recent_applications].
  split; [reflexivity|]. split.
  - unfold Applications.count_status. apply status_counts_partition.
  - apply filter_length_le.
Qed.

Lemma round_half_even_range (y : Q) (n : Z) :
  0 <= y -> y <= inject_Z n ->
  (0 <= Float64.round_half_even y <= n)%Z.
Proof.
  intros H0 Hn. pose proof (round_half_even_near y) as [L U].
  split.
  - destruct (Z_lt_le_dec (Float64.round_half_even y) 0) as [N|N]; [|exact N].
    assert (N1 : (Float64.round_half_even y <= -1)%Z) by lia.
    rewrite Zle_Qle in N1. change (inject_Z (-1)) with (-1 # 1) in N1. lra.
  - destruct (Z_lt_le_dec n (Float64.round_half_even y)) as [N|N]; [|exact N].
    assert (N1 : (n + 1 <= Float64.round_half_even y)%Z) by lia.
    rewrite Zle_Qle, inject_Z_plus in N1. change (inject_Z 1) with 1 in N1. lra.
Qed.

(** X12. The reported [success_rate] is a percentage with one decimal: it
    lies between 0 and 100 and is a whole number of tenths. *)
Theorem success_rate_is_percentage (d : db) (utcnow : Z) :
  exists st tenths,
    Applications.get_application_stats d utcnow = Success 200 st /\
    Applications.success_rate st = inject_Z tenths / 10 /\
    (0 <= tenths <= 1000)%Z /\
    0 <= Applications.success_rate st <= 100.
Proof.
  unfold Applications.get_application_stats. rewrite success_rate_expr_total.
  set (approved := Applications.count_status d APPROVED).
  set (total := List.length (applications d)).
  assert (A : (approved <= total)%nat) by apply filter_length_le.
  set (x := match total with
            | O => 0
            | S _ =>
                Float64.mul (Float64.div (inject_Z (Z.of_nat approved))
                                         (inject_Z (Z.of_nat total))) 100
            end).
  assert (X : 0 <= x * 10 /\ x * 10 <= inject_Z 1000).
  { change (inject_Z 1000) with 1000. subst x. destruct total as [|n] eqn:T.
    - split; lra.
    - destruct (percentage_bounds (Z.of_nat approved) (Z.of_nat (S n))
                  ltac:(lia) ltac:(lia)) as [[B0 B1] _].
      split; lra. }
  destruct X as [X0 X1].
  destruct (round_half_even_range (x * 10) 1000 X0 X1) as [R0 R1].
  exists {| Applications.status_distribution :=
              map (fun status => (ApplicationStatus_value status,
                                  Applications.count_status d status))
                  Applications.all_statuses;
            Applications.recent_applications :=
              List.length (filter (fun a => match a_created_at a with
                                            | Some t => (utcnow - 30 * 86400 <=? t)%Z
                                            | None => false
                                            end) (applications d));
            Applications.total_requested :=
              Py.or_zero (Applications.sql_sum (map requested_amount (applications d)));
            Applications.total_awarded :=
              Py.or_zero (Applications.sql_sum (map awarded_amount (applications d)));
            Applications.success_rate := Applications.round1 x;
            Applications.total_applications := total |},
         (Float64.round_half_even (x * 10)).
  split; [reflexivity|]. cbn [Applications.success_rate].
  split; [reflexivity|]. split; [lia|].
  unfold Applications.round1.
  set (r := Float64.round_half_even (x * 10)) in *.
  assert (E : inject_Z r / 10 == inject_Z r * (1 # 10)) by (unfold Qdiv; reflexivity).
  rewrite E. rewrite Zle_Qle in R0, R1.
  change (inject_Z 0) with 0 in R0. change (inject_Z 1000) with 1000 in R1.
  split; lra.
Qed.

(** ** Project dashboard *)

Lemma phase_counts_partition (l : list Project) :
  sum_counts
    (map (fun ph => (ProjectPhase_value ph,
                     List.length (filter (Projects.phase_matches ph) l)))
         all_phases)
  = List.length (filter (fun p => match p_phase p with Some _ => true | None => false end) l).
Proof.
  induction l as [|p l IH]; [reflexivity|].
  unfold sum_counts, all_phases in *. cbn [map fold_right snd filter] in *.
  unfold Projects.phase_matches in *.
  destruct (p_phase p) as [[| | |]|];
    cbn [ProjectPhase_eqb ProjectPhase_value String.eqb Ascii.eqb Bool.eqb andb
         List.length] in *; lia.
Qed.

(** X13. In the project dashboard every project with a phase is counted
    under exactly one of the four phases: the counts of
    [phase_distribution] add up to the number of projects that have a
    phase, hence to [total_projects] when every project has one, and never
    to more. *)
Theorem phase_distribution_partitions (d : db) :
  exists st,
    Projects.get_dashboard_stats d = Success 200 st /\
    map fst (Projects.phase_distribution st)
    = ["Pre-Development"; "Application/Financing"; "Construction";
       "Lease-Up/Compliance"]%string /\
    (sum_counts (Projects.phase_distribution st) <= Projects.total_projects st)%nat /\
    (Forall (fun p => p_phase p <> None) (projects d) ->
     sum_counts (Projects.phase_distribution st) = Projects.total_projects st).
Proof.
  eexists. split; [reflexivity|].
  cbn [Projects.phase_distribution Projects.total_projects].
  split; [reflexivity|]. rewrite phase_counts_partition. split.
  - apply filter_length_le.
  - intros H. induction H as [|p l Hp Hl IH]; [reflexivity|].
    cbn [filter]. destruct (p_phase p); [|now elim Hp]. simpl. now rewrite IH.
Qed.

Lemma phase_distribution_partitions_witness :
  Forall (fun p => p_phase p <> None) (projects Examples.store) /\
  exists st,
    Projects.get_dashboard_stats Examples.store = Success 200 st /\
    sum_counts (Projects.phase_distribution st) = 2%nat.
Proof.
  assert (H : Forall (fun p => p_phase p <> None) (projects Examples.store))
    by (repeat constructor; discriminate).
  split; [exact H|].
  destruct (phase_distribution_partitions Examples.store) as (st & E & _ & _ & S).
  exists st. split; [exact E|]. rewrite (S H).
  vm_compute in E. injection E as <-. reflexivity.
Defined.

(** ** Listing, invoice data and deletion of time entries *)

Section OrderByFacts.

Variable A : Type.
Variable key : A -> Z.

Lemma insert_desc_by_perm (x : A) (l : list A) :
  Permutation (TimeQueries.insert_desc_by key x l) (x :: l).
Proof.
  induction l as [|y r IH]; simpl; [apply Permutation_refl|].
  destruct (key x <? key y)%Z.
  - apply perm_trans with (y :: x :: r); [now apply perm_skip|apply perm_swap].
  - apply Permutation_refl.
Qed.

Lemma order_by_desc_perm (l : list A) :
  Permutation (TimeQueries.order_by_desc key l) l.
Proof.
  induction l as [|x l IH]; simpl; [constructor|].
  eapply perm_trans; [apply insert_desc_by_perm|now apply perm_skip].
Qed.

Lemma insert_desc_by_sorted (x : A) (l : list A) :
  StronglySorted (key_desc key) l ->
  StronglySorted (key_desc key) (TimeQueries.insert_desc_by key x l).
Proof.
  induction 1 as [|y r Hr IH Hy]; simpl.
  - repeat constructor.
  - destruct (key x <? key y)%Z eqn:E.
    + apply Z.ltb_lt in E. constructor; [exact IH|].
      apply (Permutation_Forall (Permutation_sym (insert_desc_by_perm x r))).
      constructor; [unfold key_desc; lia|exact Hy].
    + apply Z.ltb_ge in E. constructor; [now constructor|].
      constructor; [exact E|].
      eapply Forall_impl; [|exact Hy]. unfold key_desc. intros z Hz. lia.
Qed.

Lemma order_by_desc_sorted (l : list A) :
  StronglySorted (key_desc key) (TimeQueries.order_by_desc key l).
Proof.
  induction l as [|x l IH]; simpl; [constructor|now apply insert_desc_by_sorted].
Qed.

Lemma order_by_desc_in (l : list A) (x : A) :
  In x (TimeQueries.order_by_desc key l) <-> In x l.
Proof.
  split; apply Permutation_in;
    [apply order_by_desc_perm|apply Permutation_sym, order_by_desc_perm].
Qed.

End OrderByFacts.

Lemma column_is_true (c : option bool) (b : bool) :
  TimeQueries.column_is c b = true <-> c = Some b.
Proof.
  destruct c as [[|]|], b; simpl; split; intros H; try reflexivity;
    try discriminate; congruence.
Qed.

Lemma filter_project_in (project_id : option Z) (q : list TimeEntry) (e : TimeEntry) :
  In e (TimeQueries.filter_project project_id q) -> In e q.
Proof.
  unfold TimeQueries.filter_project. destruct project_id; [|tauto].
  rewrite filter_In. tauto.
Qed.

Lemma filter_user_in (ilike : string -> string -> bool) (user : option string)
      (q : list TimeEntry) (e : TimeEntry) :
  In e (TimeQueries.filter_user ilike user q) -> In e q.
Proof.
  unfold TimeQueries.filter_user. destruct (Py.truthy_str user); [|tauto].
  destruct user; [|tauto]. rewrite filter_In. tauto.
Qed.

Lemma unbilled_entries_in (ilike : string -> string -> bool) (d : db)
      (project_id : option Z) (user : option string) (e : TimeEntry) :
  In e (TimeQueries.unbilled_entries ilike d project_id user) ->
  In e (time_entries d) /\ is_billable e = Some true /\ is_invoiced e = Some false.
Proof.
  unfold TimeQueries.unbilled_entries. rewrite order_by_desc_in. intros H.
  apply filter_user_in, filter_project_in, filter_In in H.
  destruct H as [Hin H]. apply andb_prop in H. destruct H as [Hb Hi].
  apply column_is_true in Hb, Hi. auto.
Qed.




Lemma not_invoiced_after_mark (ids : list Z) (d : db) (code : nat)
      (r : TimeTracking.invoiced_result) (d' : db) (e' : TimeEntry) :
  TimeTracking.mark_entries_invoiced (Some (Val ids)) d = (Success code r, d') ->
  In e' (time_entries d') ->
  is_invoiced e' = Some false ->
  In e' (time_entries d) /\ ~ In (te_id e') ids.
Proof.
  unfold TimeTracking.mark_entries_invoiced. cbn [get]. intros H Hin Hi.
  destruct ids as [|i ids]; [discriminate|].
  remember (i :: ids) as entry_ids eqn:Eids. clear Eids.
  destruct (forallb TimeTracking.sqlite_integer entry_ids); [|discriminate].
  injection H as _ _ <-. cbn [time_entries TimeTracking.with_time_entries] in Hin.
  apply in_map_iff in Hin. destruct Hin as (e & He & Hin).
  rewrite in_listed in He. unfold Spec.listed in He.
  destruct (in_dec Z.eq_dec (te_id e) entry_ids) as [Y|N].
  - subst e'. discriminate Hi.
  - subst e'. split; [exact Hin|exact N].
Qed.

(** X16. Entries that were marked as invoiced leave the invoice data: after
    a mark-invoiced request that succeeded no item of the invoice data
    carries one of the identifiers of the request, whatever the filters;
    and when the request named every billable entry that was not
    invoiced, the invoice data are empty afterwards, with a total of 0. *)
Theorem marked_entries_leave_invoice_data
        (ilike : string -> string -> bool) (ids : list Z) (d : db)
        (code : nat) (r : TimeTracking.invoiced_result) (d' : db)
        (project_id : option Z) (user_name : option string) :
  TimeTracking.mark_entries_invoiced (Some (Val ids)) d = (Success code r, d') ->
  exists data,
    TimeQueries.get_invoice_data ilike d' project_id user_name = Success 200 data /\
    (forall it, In it (TimeQueries.invoice_items data) ->
                ~ In (TimeQueries.ii_id it) ids) /\
    ((forall e, In e (time_entries d) ->
                is_billable e = Some true -> is_invoiced e = Some false ->
                In (te_id e) ids) ->
     TimeQueries.invoice_items data = [] /\
     TimeQueries.total_amount data == 0 /\
     TimeQueries.items_count data = 0%nat).
Proof.
  intros H. eexists. split; [reflexivity|].
  cbn [TimeQueries.invoice_items TimeQueries.total_amount TimeQueries.items_count].
  assert (K : forall e', In e' (TimeQueries.unbilled_entries ilike d' project_id user_name) ->
                         In e' (time_entries d) /\ is_billable e' = Some true /\
                         is_invoiced e' = Some false /\ ~ In (te_id e') ids).
  { intros e' He'. apply unbilled_entries_in in He'. destruct He' as (Hin & Hb & Hi).
    destruct (not_invoiced_after_mark ids d code r d' e' H Hin Hi) as [H1 H2]. auto. }
  split.
  - intros it Hit. apply in_map_iff in Hit. destruct Hit as (e' & <- & He').
    cbn [TimeQueries.ii_id TimeQueries.invoice_item_of]. now apply K.
  - intros All.
    destruct (TimeQueries.unbilled_entries ilike d' project_id user_name)
      as [|e' rest] eqn:U.
    + repeat split; reflexivity.
    + exfalso. destruct (K e' (or_introl eq_refl)) as (Hin & Hb & Hi & N).
      apply N. now apply All.
Qed.

Lemma marked_entries_leave_invoice_data_witness :
  exists r d' data,
    TimeTracking.mark_entries_invoiced (Some (Val [1%Z; 2%Z])) Examples.unbilled_pair
    = (Success 200 r, d') /\
    TimeQueries.get_invoice_data Examples.ilike d' None None = Success 200 data /\
    TimeQueries.invoice_items data = [].
Proof.
  do 2 eexists.
  destruct (marked_entries_leave_invoice_data Examples.ilike [1%Z; 2%Z]
              Examples.unbilled_pair 200 _ _ None None eq_refl) as (data & E & _ & A).
  exists data. split; [reflexivity|]. split; [exact E|].
  apply A. intros e [<-|[<-|[]]] _ _; simpl; auto.
Defined.

(** X17. Deleting a time entry removes it and nothing else: after a
    successful deletion the identifier looks up to nothing, every other
    identifier looks up as before and the other tables are unchanged; a
    deletion of an identifier that is not in the table is answered 500 and
    changes nothing. *)
Theorem delete_removes_the_entry (entry_id : Z) (d : db) :
  (TimeTracking.get_entry d entry_id = None ->
   TimeQueries.delete_time_entry entry_id d = (Failure 500 not_found_message, d)) /\
  (forall e,
      TimeTracking.get_entry d entry_id = Some e ->
      exists d',
        TimeQueries.delete_time_entry entry_id d = (Success 200 tt, d') /\
        TimeTracking.get_entry d' entry_id = None /\
        (forall i, i <> entry_id ->
                   TimeTracking.get_entry d' i = TimeTracking.get_entry d i) /\
        (List.length (time_entries d') < List.length (time_entries d))%nat /\
        projects d' = projects d /\ applications d' = applications d /\
        funding_sources d' = funding_sources d).
Proof.
  unfold TimeQueries.delete_time_entry. split.
  - intros ->. reflexivity.
  - intros e He. rewrite He. eexists. split; [reflexivity|].
    assert (Hid : te_id e = entry_id).
    { apply find_some in He. destruct He as [_ He]. now apply Z.eqb_eq in He. }
    unfold TimeTracking.get_entry in *.
    cbn [time_entries TimeTracking.with_time_entries projects applications
         funding_sources].
    rewrite Hid. split; [|split; [|split; [|repeat split]]].
    + destruct (find _ (filter _ _)) as [x|] eqn:F; [|reflexivity].
      apply find_some in F. destruct F as [Hin Hx]. apply filter_In in Hin.
      destruct Hin as [_ Hn]. rewrite Hx in Hn. discriminate.
    + intros i Hi. clear He. induction (time_entries d) as [|x l IH]; [reflexivity|].
      cbn [filter find]. destruct (Z.eqb_spec (te_id x) entry_id) as [E|E].
      * cbn [negb]. destruct (Z.eqb_spec (te_id x) i); [congruence|]. exact IH.
      * cbn [negb find]. destruct (te_id x =? i)%Z; [reflexivity|exact IH].
    + apply find_some in He. destruct He as [Hin _].
      induction (time_entries d) as [|x l IH]; [contradiction|].
      cbn [filter]. destruct Hin as [->|Hin].
      * rewrite Hid, Z.eqb_refl. cbn [negb List.length].
        pose proof (filter_length_le (fun e0 => negb (te_id e0 =? entry_id)%Z) l). lia.
      * specialize (IH Hin). destruct (negb (te_id x =? entry_id)%Z);
          cbn [List.length]; lia.
Qed.

Lemma delete_removes_the_entry_witness :
  TimeTracking.get_entry Examples.timesheet 2 = Some Examples.pro_forma /\
  exists d',
    TimeQueries.delete_time_entry 2 Examples.timesheet = (Success 200 tt, d') /\
    map te_id (time_entries d') = [1%Z; 3%Z].
Proof.
  split; [reflexivity|].
  destruct (delete_removes_the_entry 2 Examples.timesheet) as [_ H].
  destruct (H Examples.pro_forma eq_refl) as (d' & E & _).
  exists d'. split; [exact E|]. vm_compute in E. injection E as <-. reflexivity.
Defined.

Lemma filter_flag_in (flag : option string) (column : TimeEntry -> option bool)
      (q : list TimeEntry) (e : TimeEntry) :
  In e (TimeQueries.filter_flag flag column q) ->
  In e q /\
  (forall s, flag = Some s ->
             column e = Some (String.eqb (TimeQueries.lower s) "true")).
Proof.
  unfold TimeQueries.filter_flag. destruct flag as [s|].
  - rewrite filter_In. intros [Hin H]. split; [exact Hin|].
    intros s' Hs. injection Hs as <-. now apply column_is_true.
  - intros H. split; [exact H|]. intros s Hs. discriminate.
Qed.

Lemma filter_date_in (strptime : string -> option Z) (bound : option string)
      (keep : Z -> Z -> bool) (q q' : list TimeEntry) (e : TimeEntry) :
  TimeQueries.filter_date strptime bound keep q = Some q' -> In e q' -> In e q.
Proof.
  unfold TimeQueries.filter_date. destruct (Py.truthy_str bound).
  - destruct bound as [s|]; [|intros H; injection H as <-; tauto].
    destruct (strptime s); [|discriminate].
    intros H. injection H as <-. rewrite filter_In. tauto.
  - intros H. injection H as <-. tauto.
Qed.

(** X18. In the listing of time entries a flag argument selects by exact
    value: with [is_billable] given, every entry listed has its billable
    flag equal to "the argument is the word true in some letter case", so
    any other text, the empty one included, selects the entries that are
    not billable, and entries without a flag are never listed; the same
    holds of [is_invoiced].  Every item is an entry of the table with
    [total_amount] its hours times its rate, and the items come by date,
    latest first. *)
Theorem listing_selects_by_flag (strptime : string -> option Z)
        (ilike : string -> string -> bool) (d : db) (project_id : option Z)
        (user_name start_date end_date is_billable_arg is_invoiced_arg : option string)
        (items : list TimeQueries.entry_item) :
  TimeQueries.get_time_entries strptime ilike d project_id user_name start_date
    end_date is_billable_arg is_invoiced_arg = Success 200 items ->
  Forall (fun it =>
            In (TimeQueries.ei_entry it) (time_entries d) /\
            TimeQueries.ei_total_amount it
            = hours (TimeQueries.ei_entry it) * hourly_rate (TimeQueries.ei_entry it) /\
            (forall s, is_billable_arg = Some s ->
                       is_billable (TimeQueries.ei_entry it)
                       = Some (String.eqb (TimeQueries.lower s) "true")) /\
            (forall s, is_invoiced_arg = Some s ->
                       is_invoiced (TimeQueries.ei_entry it)
                       = Some (String.eqb (TimeQueries.lower s) "true")))
         items /\
  StronglySorted (key_desc (fun it => te_date (TimeQueries.ei_entry it))) items.
Proof.
  unfold TimeQueries.get_time_entries. intros H.
  destruct (TimeQueries.filter_date strptime start_date Z.leb _) as [q2|] eqn:E2;
    [|discriminate].
  destruct (TimeQueries.filter_date strptime end_date Z.geb q2) as [q3|] eqn:E3;
    [|discriminate].
  injection H as <-. split.
  - apply Forall_forall. intros it Hit. apply in_map_iff in Hit.
    destruct Hit as (e & <- & He). cbn [TimeQueries.ei_entry TimeQueries.ei_total_amount].
    apply order_by_desc_in in He.
    apply filter_flag_in in He. destruct He as [He Hi].
    apply filter_flag_in in He. destruct He as [He Hb].
    apply (filter_date_in _ _ _ _ _ _ E3) in He.
    apply (filter_date_in _ _ _ _ _ _ E2) in He.
    apply filter_user_in, filter_project_in in He.
    repeat split; auto.
  - set (rows := TimeQueries.filter_flag is_invoiced_arg _ _).
    pose proof (order_by_desc_sorted TimeEntry te_date rows) as S.
    induction S as [|x l Sl IH Hx]; simpl; constructor; [exact IH|].
    rewrite Forall_forall in *. intros it Hit.
    apply in_map_iff in Hit. destruct Hit as (e & <- & He).
    exact (Hx e He).
Qed.

(** A request with [is_billable=yes] lists the one entry that is not
    billable. *)
Lemma listing_selects_by_flag_witness :
  exists items,
    TimeQueries.get_time_entries Examples.strptime Examples.ilike Examples.timesheet
      None None None None (Some "yes"%string) None = Success 200 items /\
    map (fun it => te_id (TimeQueries.ei_entry it)) items = [3%Z] /\
    Forall (fun it => is_billable (TimeQueries.ei_entry it) = Some false) items.
Proof.
  eexists. split; [reflexivity|]. split; [reflexivity|].
  destruct (listing_selects_by_flag Examples.strptime Examples.ilike Examples.timesheet
              None None None None (Some "yes"%string) None _ eq_refl) as [F _].
  eapply Forall_impl; [|exact F]. intros it (_ & _ & Hb & _).
  exact (Hb "yes"%string eq_refl).
Defined.

(** ** Token cache *)

(** X19. A token obtained from the identity endpoint is used again until
    300 seconds before it expires: after a request that returned a
    non-empty token with lifetime [expires_in] (3600 when the answer names
    none), every later call before
    [now + latency + expires_in - 300] returns this token without a
    request and leaves the cache as it is, and every call from that time on
    makes a new request.  With a lifetime of at most 300 seconds the token
    is never used again. *)
Theorem token_reused_until_expiry (now : Z) (latency : nat) (self : Token.cell)
        (token : string) (expires_in : option Z) :
  Token.cached now self = None ->
  token <> ""%string ->
  let lifetime := match expires_in with Some seconds => seconds | None => 3600%Z end in
  let expiry := (now + Z.of_nat latency + (lifetime - 300))%Z in
  let first :=
    Token._get_access_token now latency
      (Token.Granted {| Token.td_access_token := Some token;
                        Token.td_expires_in := expires_in |}) self in
  Token.returned first = SharePointService.Ret token /\
  Token.requested first = true /\
  (forall later latency' reply,
      let next := Token._get_access_token later latency' reply (Token.cache first) in
      ((later < expiry)%Z ->
       Token.returned next = SharePointService.Ret token /\
       Token.requested next = false /\
       Token.cache next = Token.cache first) /\
      ((expiry <= later)%Z -> Token.requested next = true) /\
      ((lifetime <= 300)%Z -> (now + Z.of_nat latency <= later)%Z ->
       Token.requested next = true)).
Proof.
  intros Hc Hne lifetime expiry first.
  assert (F : first = {| Token.returned := SharePointService.Ret token;
                         Token.cache := {| Token.access_token := Some token;
                                           Token.token_expires_at := Some expiry |};
                         Token.requested := true |}).
  { subst first. unfold Token._get_access_token. rewrite Hc. reflexivity. }
  rewrite F. cbn [Token.returned Token.requested Token.cache].
  split; [reflexivity|]. split; [reflexivity|].
  intros later latency' reply.
  set (next := Token._get_access_token later latency' reply _).
  assert (T : Py.truthy_str (Some token) = true).
  { destruct token; [contradiction|reflexivity]. }
  assert (Late : (expiry <= later)%Z -> Token.requested next = true).
  { intros H. subst next. unfold Token._get_access_token, Token.cached.
    cbn [Token.access_token Token.token_expires_at].
    assert (E : (later <? expiry)%Z = false) by (apply Z.ltb_ge; exact H).
    rewrite E, andb_false_r.
    destruct reply as [data|c]; [|reflexivity].
    destruct (Token.td_access_token data); reflexivity. }
  split; [|split; [exact Late|]].
  - intros H. subst next. unfold Token._get_access_token, Token.cached.
    cbn [Token.access_token Token.token_expires_at].
    apply Z.ltb_lt in H. rewrite H, T. repeat split.
  - intros H1 H2. apply Late. subst expiry. lia.
Qed.

Lemma token_reused_until_expiry_witness :
  Token.cached 1000 Token.init = None /\
  "eyJ0"%string <> ""%string /\
  forall later,
    (later < 4301)%Z ->
    Token.requested
      (Token._get_access_token later 2 (Token.Refused 503)
         (Token.cache
            (Token._get_access_token 1000 1
               (Token.Granted {| Token.td_access_token := Some "eyJ0"%string;
                                 Token.td_expires_in := None |}) Token.init)))
    = false.
Proof.
  assert (H1 : Token.cached 1000 Token.init = None) by reflexivity.
  assert (H2 : "eyJ0"%string <> ""%string) by discriminate.
  split; [exact H1|]. split; [exact H2|]. intros later Hl.
  destruct (token_reused_until_expiry 1000 1 Token.init "eyJ0" None H1 H2)
    as (_ & _ & H).
  destruct (H later 2%nat (Token.Refused 503)) as [Early _].
  apply Early. simpl. lia.
Defined.

(** ** Project insights *)

Lemma gt_true (a b : Q) : Insights.gt a b = true <-> b < a.
Proof.
  unfold Insights.gt. rewrite negb_true_iff. split.
  - intros H. apply Qnot_le_lt. intros L. apply Qle_bool_iff in L. congruence.
  - intros H. destruct (Qle_bool a b) eqn:E; [|reflexivity].
    apply Qle_bool_iff in E. lra.
Qed.

Lemma gt_false (a b : Q) : Insights.gt a b = false <-> a <= b.
Proof.
  unfold Insights.gt. rewrite negb_false_iff. apply Qle_bool_iff.
Qed.

(** X20. The insights of a project rest on the figures of its detail:
    the metrics are the [funding_secured], [funding_requested] and
    [funding_gap] of the project detail; the list starts with at most one
    funding insight, followed by the insight on pending applications and
    the one on the phase; the funding insight is "Fully Funded" exactly
    when that gap is not positive, and a warning about the gap is given
    only for a positive gap of a project with a total cost: it carries
    this gap, and "Significant Funding Gap" also the percentage
    gap / total_cost x 100, which is then above 50. *)
Theorem insights_follow_reported_gap (d : db) (project_id : Z) (p : Project) :
  get_project_row d project_id = Some p ->
  exists data item funding,
    Insights.get_project_insights d project_id = Success 200 data /\
    Projects.get_project d project_id = Success 200 item /\
    Insights.m_funding_secured (Insights.project_metrics data)
    = Projects.funding_secured item /\
    Some (Insights.m_funding_requested (Insights.project_metrics data))
    = Projects.funding_requested item /\
    Insights.m_funding_gap (Insights.project_metrics data)
    = Projects.funding_gap item /\
    Insights.insights data
    = funding ++ Insights.pending_insights (project_applications d p)
              ++ Insights.phase_insights (p_phase p) /\
    (List.length funding <= 1)%nat /\
    (funding = [Insights.FullyFunded] <-> Projects.funding_gap item <= 0) /\
    (forall i, In i funding ->
               i = Insights.FullyFunded \/
               (0 < Projects.funding_gap item /\
                exists cost,
                  total_cost p = Some cost /\ ~ cost == 0 /\
                  (i = Insights.ModerateFundingGap (Projects.funding_gap item) \/
                   exists percentage,
                     i = Insights.SignificantFundingGap (Projects.funding_gap item)
                                                        percentage /\
                     percentage
                     = Float64.mul (Float64.div (Projects.funding_gap item) cost) 100 /\
                     50 < percentage))).
Proof.
  intros Hp. unfold Insights.get_project_insights, Projects.get_project. rewrite Hp.
  do 3 eexists. split; [reflexivity|]. split; [reflexivity|].
  cbn [Insights.project_metrics Insights.m_funding_secured
       Insights.m_funding_requested Insights.m_funding_gap Insights.insights
       Projects.detail_item Projects.funding_secured Projects.funding_requested
       Projects.funding_gap].
  split; [reflexivity|]. split; [reflexivity|]. split; [reflexivity|].
  split; [reflexivity|].
  set (gap := Py.or_zero (total_cost p) - Projects.total_awarded d p).
  unfold Insights.funding_insights.
  destruct (Insights.gt gap 0) eqn:G0.
  - apply gt_true in G0.
    destruct (total_cost p) as [cost|] eqn:Hc.
    + cbn [Py.truthy_num]. destruct (Qeq_bool cost 0) eqn:Z0; cbn [negb].
      * change (Insights.gt 0 50) with false. change (Insights.gt 0 20) with false.
        cbn iota. split; [simpl; lia|]. split.
        -- split; [discriminate|]. intros L. lra.
        -- intros i [].
      * assert (NZ : ~ cost == 0).
        { intros E. apply Qeq_bool_iff in E. congruence. }
        set (pct := Float64.mul (Float64.div gap cost) 100).
        destruct (Insights.gt pct 50) eqn:G50.
        -- apply gt_true in G50. split; [simpl; lia|]. split.
           ++ split; [discriminate|]. intros L. lra.
           ++ intros i [<-|[]]. right. split; [exact G0|].
              exists cost. split; [reflexivity|]. split; [exact NZ|].
              right. exists pct. split; [reflexivity|]. split; [reflexivity|exact G50].
        -- destruct (Insights.gt pct 20) eqn:G20.
           ++ split; [simpl; lia|]. split.
              ** split; [discriminate|]. intros L. lra.
              ** intros i [<-|[]]. right. split; [exact G0|].
                 exists cost. split; [reflexivity|]. split; [exact NZ|].
                 left. reflexivity.
           ++ split; [simpl; lia|]. split.
              ** split; [discriminate|]. intros L. lra.
              ** intros i [].
    + change (Insights.gt 0 50) with false. change (Insights.gt 0 20) with false.
      cbn iota. split; [simpl; lia|]. split.
      * split; [discriminate|]. intros L. lra.
      * intros i [].
  - apply gt_false in G0. split; [simpl; lia|]. split.
    + split; [intros _; exact G0|reflexivity].
    + intros i [<-|[]]. left. reflexivity.
Qed.

(** Maple Court costs 1,000,000 and has nothing awarded: the gap is the
    whole cost and the insights begin with the warning of a significant
    gap, of 100 percent. *)
Lemma insights_follow_reported_gap_witness :
  get_project_row Examples.store 1 = Some Examples.maple_court /\
  exists data,
    Insights.get_project_insights Examples.store 1 = Success 200 data /\
    Insights.m_funding_gap (Insights.project_metrics data) == 1000000 /\
    exists gap percentage,
      Insights.insights data
      = [Insights.SignificantFundingGap gap percentage; Insights.PreDevelopmentPhase]
      /\ percentage == 100.
Proof.
  split; [reflexivity|].
  destruct (insights_follow_reported_gap Examples.store 1 Examples.maple_court eq_refl)
    as (data & item & funding & E & D & _ & _ & G & I & _).
  exists data. split; [exact E|].
  vm_compute in E. injection E as <-. split; [reflexivity|].
  do 2 eexists. split; reflexivity.
Defined.

(** ** An application counts toward the funding gap *)

Lemma py_sum_app (l : list Q) (x : Q) : Py.sum (l ++ [x]) = Py.sum l + x.
Proof. unfold Py.sum. rewrite fold_left_app. reflexivity. Qed.

Lemma project_applications_app (d : db) (a : Application) (p : Project) :
  project_applications
    (ApplicationWrites.with_applications d (applications d ++ [a])) p
  = project_applications d p
      ++ (if (a_project_id a =? p_id p)%Z then [a] else []).
Proof.
  unfold project_applications. cbn [applications ApplicationWrites.with_applications].
  rewrite filter_app. reflexivity.
Qed.

(** X21. Creating an application is seen by the funding figures of its
    project and by the recommendations: after a 201 answer the project
    detail shows one application more, [funding_secured] is the former
    one plus the awarded amount of the request (plus nothing when it
    names none) and [funding_gap] is the cost of the project (0 if unset)
    minus this new [funding_secured], the details of the other projects
    are what they were, and the funding source of the request is no
    longer among the sources available to the project. *)
Theorem application_counts_toward_gap (strptime : string -> option Z) (utcnow : Z)
        (data : ApplicationWrites.Body.t) (d : db) (code : nat) (id : Z) (d' : db) :
  ApplicationWrites.create_application strptime utcnow data d = (Success code id, d') ->
  exists pid sid project,
    get (ApplicationWrites.Body.project_id data) = Some pid /\
    get (ApplicationWrites.Body.funding_source_id data) = Some sid /\
    get_project_row d pid = Some project /\
    get_project_row d' pid = Some project /\
    let awarded := Spec.if_set (get (ApplicationWrites.Body.awarded_amount data)) in
    let before := Projects.detail_item d project in
    let after := Projects.detail_item d' project in
    Projects.applications_count after = S (Projects.applications_count before) /\
    Projects.funding_secured after == Projects.funding_secured before + awarded /\
    Projects.funding_gap after
    == Py.or_zero (total_cost project) - (Projects.funding_secured before + awarded) /\
    (forall q, p_id q <> pid -> Projects.detail_item d' q = Projects.detail_item d q) /\
    (forall s, In s (AiChat.available_sources d' project) -> fs_id s <> sid).
Proof.
  intros H. unfold ApplicationWrites.create_application in H.
  destruct (negb (Py.truthy_int (get (ApplicationWrites.Body.project_id data))));
    [discriminate|].
  destruct (negb (Py.truthy_int (get (ApplicationWrites.Body.funding_source_id data))));
    [discriminate|].
  destruct (get (ApplicationWrites.Body.project_id data)) as [pid|]; [|discriminate].
  destruct (get (ApplicationWrites.Body.funding_source_id data)) as [sid|];
    [|discriminate].
  destruct (get_project_row d pid) as [project|] eqn:Hp; [|discriminate].
  destruct (ApplicationWrites.get_funding_source_row d sid); [|discriminate].
  destruct (ApplicationWrites.parse_date strptime _) as [sub|]; [|discriminate].
  destruct (ApplicationWrites.parse_date strptime _) as [dec|]; [|discriminate].
  destruct (if Py.truthy_str (get (ApplicationWrites.Body.status data)) then _ else _)
    as [status|]; [|discriminate].
  injection H as _ _ <-.
  set (a := {| a_id := ApplicationWrites.next_id (applications d);
               a_project_id := pid; funding_source_id := sid; a_status := status;
               application_round := get (ApplicationWrites.Body.application_round data);
               requested_amount := get (ApplicationWrites.Body.requested_amount data);
               awarded_amount := get (ApplicationWrites.Body.awarded_amount data);
               a_created_at := Some utcnow |}).
  assert (Hid : p_id project = pid).
  { apply find_some in Hp. destruct Hp as [_ Hp]. now apply Z.eqb_eq in Hp. }
  exists pid, sid, project.
  split; [reflexivity|]. split; [reflexivity|]. split; [exact Hp|].
  split; [exact Hp|].
  assert (PA : project_applications
                 (ApplicationWrites.with_applications d (applications d ++ [a])) project
               = project_applications d project ++ [a]).
  { rewrite project_applications_app. subst a. cbn [a_project_id].
    now rewrite Hid, Z.eqb_refl. }
  cbv zeta.
  cbn [Projects.detail_item Projects.applications_count Projects.funding_secured
       Projects.funding_gap].
  unfold Projects.total_awarded. rewrite PA.
  split; [rewrite length_app; simpl; lia|].
  rewrite map_app. cbn [map]. rewrite py_sum_app.
  assert (W : Py.or_zero (awarded_amount a)
              == Spec.if_set (get (ApplicationWrites.Body.awarded_amount data))).
  { subst a. cbn [awarded_amount]. apply or_zero_if_set. }
  split; [rewrite W; reflexivity|]. split; [rewrite W; reflexivity|]. split.
  - intros q Hq. unfold Projects.detail_item, Projects.total_awarded,
      Projects.total_requested.
    rewrite project_applications_app. subst a. cbn [a_project_id].
    destruct (Z.eqb_spec pid (p_id q)); [congruence|].
    now rewrite app_nil_r.
  - intros s Hs. apply available_sources_spec in Hs. destruct Hs as (_ & _ & N).
    intros E. apply N. rewrite PA, map_app, in_app_iff. right. left.
    subst a. cbn [funding_source_id]. congruence.
Qed.

Lemma application_counts_toward_gap_witness :
  exists id d' project,
    ApplicationWrites.create_application Examples.strptime 1715000000
      Requests.maple_fhlb Examples.store = (Success 201 id, d') /\
    get_project_row d' 1 = Some project /\
    Projects.funding_gap (Projects.detail_item d' project) == 750000.
Proof.
  do 2 eexists.
  destruct (application_counts_toward_gap Examples.strptime 1715000000
              Requests.maple_fhlb Examples.store 201 _ _ eq_refl)
    as (pid & sid & project & Hpid & _ & Hp & Hp' & _ & _ & G & _).
  injection Hpid as <-. exists project.
  split; [reflexivity|]. split; [exact Hp'|].
  rewrite G. vm_compute in Hp. injection Hp as <-. reflexivity.
Defined.

(** ** Updating a project *)

Lemma updated_project_found (d : db) (project_id : Z) (project p' : Project) :
  get_project_row d project_id = Some project ->
  p_id p' = p_id project ->
  get_project_row
    (ProjectWrites.with_projects d
       (map (fun p => if (p_id p =? p_id p')%Z then p' else p) (projects d)))
    project_id = Some p'.
Proof.
  unfold get_project_row. cbn [projects ProjectWrites.with_projects]. intros H Hid.
  assert (E : p_id p' = project_id).
  { apply find_some in H. destruct H as [_ H]. apply Z.eqb_eq in H. congruence. }
  clear Hid. revert H.
  induction (projects d) as [|p l IH]; simpl; intros H; [discriminate|].
  destruct (p_id p =? project_id)%Z eqn:F.
  - rewrite E, F. simpl. rewrite E, Z.eqb_refl. reflexivity.
  - rewrite E at 1. rewrite F. simpl. rewrite F. now apply IH.
Qed.

Lemma apply_update_fields (data : ProjectWrites.Body.t) (p p' : Project) :
  ProjectWrites.apply_update data p = Some p' ->
  p_id p' = p_id p /\
  total_cost p' = ProjectWrites.assign (ProjectWrites.Body.total_cost data) (total_cost p) /\
  sharepoint_site_url p'
  = ProjectWrites.assign (ProjectWrites.Body.sharepoint_site_url data)
                         (sharepoint_site_url p).
Proof.
  unfold ProjectWrites.apply_update. intros H.
  destruct (match ProjectWrites.Body.name data with Absent => _ | _ => _ end);
    [|discriminate].
  destruct (match ProjectWrites.Body.phase data with
            | Absent => _ | Null => _ | Val s => _ end); [|discriminate].
  injection H as <-. repeat split.
Qed.

Lemma project_applications_updated (d : db) (l : list Project) (p p' : Project) :
  p_id p' = p_id p ->
  project_applications (ProjectWrites.with_projects d l) p' = project_applications d p.
Proof.
  intros H. unfold project_applications.
  cbn [applications ProjectWrites.with_projects]. now rewrite H.
Qed.

(** X22. An update of a project moves its funding gap only through
    [total_cost]: after a successful update the project has the
    [total_cost] of the request (its old one when the request carries no
    such key), the same applications and the same [funding_secured], and
    [funding_gap] is that cost (0 if unset) minus the amount secured, so
    without the key it is unchanged; the identifiers of the projects and
    the other tables are kept, and a failing update changes nothing. *)
Theorem project_update_moves_gap_by_cost (project_id : Z)
        (data : ProjectWrites.Body.t) (d : db)
        (answer : response (Z * string)) (d' : db) :
  ProjectWrites.update_project project_id data d = (answer, d') ->
  map p_id (projects d') = map p_id (projects d) /\
  applications d' = applications d /\
  funding_sources d' = funding_sources d /\
  time_entries d' = time_entries d /\
  (forall code message, answer = Failure code message -> d' = d) /\
  (forall code r,
      answer = Success code r ->
      exists project p',
        get_project_row d project_id = Some project /\
        get_project_row d' project_id = Some p' /\
        r = (project_id, p_name p') /\
        total_cost p'
        = ProjectWrites.assign (ProjectWrites.Body.total_cost data) (total_cost project) /\
        Projects.applications_count (Projects.detail_item d' p')
        = Projects.applications_count (Projects.detail_item d project) /\
        Projects.funding_secured (Projects.detail_item d' p')
        = Projects.funding_secured (Projects.detail_item d project) /\
        Projects.funding_gap (Projects.detail_item d' p')
        == Spec.if_set (total_cost p')
           - Projects.funding_secured (Projects.detail_item d project) /\
        (ProjectWrites.Body.total_cost data = Absent ->
         Projects.funding_gap (Projects.detail_item d' p')
         = Projects.funding_gap (Projects.detail_item d project))).
Proof.
  unfold ProjectWrites.update_project. intros H.
  destruct (get_project_row d project_id) as [project|] eqn:Hp.
  - destruct (ProjectWrites.apply_update data project) as [p'|] eqn:U.
    + injection H as <- <-.
      destruct (apply_update_fields data project p' U) as (Hid & Hc & _).
      cbn [projects applications funding_sources time_entries
           ProjectWrites.with_projects].
      split.
      { rewrite map_map. apply map_ext. intros p.
        destruct (Z.eqb_spec (p_id p) (p_id p')); congruence. }
      repeat (split; [reflexivity|]). split; [intros; discriminate|].
      intros code r Hr. injection Hr as _ <-.
      exists project, p'. split; [reflexivity|].
      split; [now apply (updated_project_found d project_id project p')|].
      assert (E : p_id project = project_id).
      { apply find_some in Hp. destruct Hp as [_ Hp]. now apply Z.eqb_eq in Hp. }
      split; [congruence|]. split; [exact Hc|].
      cbn [Projects.detail_item Projects.applications_count Projects.funding_secured
           Projects.funding_gap].
      unfold Projects.total_awarded.
      rewrite (project_applications_updated d _ project p' Hid).
      split; [reflexivity|]. split; [reflexivity|]. split.
      * apply Qplus_comp; [apply or_zero_if_set|reflexivity].
      * intros A. rewrite Hc, A. reflexivity.
    + injection H as <- <-. repeat (split; [reflexivity|]).
      intros; discriminate.
  - injection H as <- <-. repeat (split; [reflexivity|]).
    intros; discriminate.
Qed.

Lemma project_update_moves_gap_by_cost_witness :
  exists answer d' p',
    ProjectWrites.update_project 1 (Requests.project_keys (Val 1200000) Absent)
      Examples.store = (answer, d') /\
    get_project_row d' 1 = Some p' /\
    Projects.funding_gap (Projects.detail_item d' p') == 1200000 /\
    applications d' = applications Examples.store.
Proof.
  do 2 eexists.
  destruct (project_update_moves_gap_by_cost 1
              (Requests.project_keys (Val 1200000) Absent) Examples.store _ _ eq_refl)
    as (_ & A & _ & _ & _ & S).
  destruct (S 200%nat _ eq_refl) as (project & p' & Hp & Hp' & _ & Hc & _ & _ & G & _).
  exists p'. split; [reflexivity|]. split; [exact Hp'|]. split; [|exact A].
  rewrite G, Hc. vm_compute in Hp. injection Hp as <-. reflexivity.
Defined.

(** X23. The stored site URL can be set and cleared by an update of the
    project, and the create-site guard follows it: after an update that
    stores a non-empty URL every create-site request for the project is
    answered "SharePoint site already exists for this project" without a
    call to the directory, and after an update that clears the URL (null
    or empty) a create-site request is no longer stopped by this guard
    but examined further: one whose JSON body names no owner is answered
    400 "owner_user_id is required", one without a JSON body 500. *)
Theorem site_guard_follows_project_update (project_id : Z)
        (data : ProjectWrites.Body.t) (d : db) (code : nat) (r : Z * string) (d' : db) :
  ProjectWrites.update_project project_id data d = (Success code r, d') ->
  (forall url,
      ProjectWrites.Body.sharepoint_site_url data = Val url ->
      url <> ""%string ->
      forall w e fuel st body,
        SharePoint.create_project_sharepoint_site w e fuel st project_id body d'
        = (Some (Failure 400 "SharePoint site already exists for this project"),
           d', st)) /\
  (ProjectWrites.Body.sharepoint_site_url data = Null \/
   ProjectWrites.Body.sharepoint_site_url data = Val ""%string ->
   forall w e fuel st,
     (forall owner,
         Py.truthy_str (get owner) = false ->
         SharePoint.create_project_sharepoint_site w e fuel st project_id
           (Some owner) d'
         = (Some (Failure 400 "owner_user_id is required"), d', st)) /\
     (exists message,
         SharePoint.create_project_sharepoint_site w e fuel st project_id None d'
         = (Some (Failure 500 message), d', st))).
Proof.
  unfold ProjectWrites.update_project. intros H.
  destruct (get_project_row d project_id) as [project|] eqn:Hp; [|discriminate].
  destruct (ProjectWrites.apply_update data project) as [p'|] eqn:U; [|discriminate].
  injection H as _ _ <-.
  destruct (apply_update_fields data project p' U) as (Hid & _ & Hu).
  pose proof (updated_project_found d project_id project p' Hp Hid) as Hp'.
  split.
  - intros url Hv Hne w e fuel st body.
    apply (site_exists_guard _ _ _ _ _ _ _ p' url); auto.
    rewrite Hu, Hv. reflexivity.
  - intros Hv w e fuel st.
    assert (G : Py.truthy_str (sharepoint_site_url p') = false).
    { rewrite Hu. destruct Hv as [-> | ->]; reflexivity. }
    split.
    + intros owner Ho. unfold SharePoint.create_project_sharepoint_site.
      rewrite Hp', G, Ho. reflexivity.
    + eexists. unfold SharePoint.create_project_sharepoint_site.
      rewrite Hp', G. reflexivity.
Qed.

Lemma site_guard_follows_project_update_witness :
  exists r d',
    ProjectWrites.update_project 3 (Requests.project_keys Absent Null)
      Examples.provisioned = (Success 200 r, d') /\
    SharePoint.create_project_sharepoint_site Examples.never_ready Examples.azure 21
      Examples.start 3 (Some Absent) d'
    = (Some (Failure 400 "owner_user_id is required"), d', Examples.start).
Proof.
  do 2 eexists. split; [reflexivity|].
  destruct (site_guard_follows_project_update 3 (Requests.project_keys Absent Null)
              Examples.provisioned 200 _ _ eq_refl) as [_ H].
  destruct (H (or_introl eq_refl) Examples.never_ready Examples.azure 21%nat
              Examples.start) as [H1 _].
  apply H1. reflexivity.
Defined.

Lemma stored_site_row (d : db) (project_id : Z) (project : Project)
      (r : SharePointService.site_result) :
  get_project_row d project_id = Some project ->
  exists p',
    get_project_row (SharePoint.store_site d project r) project_id = Some p' /\
    p_id p' = project_id /\
    p_name p' = p_name project /\
    sharepoint_site_url p' = SharePointService.sharepoint_site_url r /\
    sharepoint_email p' = Some (SharePointService.sharepoint_email r).
Proof.
  unfold get_project_row, SharePoint.store_site. cbn [projects]. intros H.
  assert (Hid : p_id project = project_id).
  { apply find_some in H. destruct H as [_ H]. now apply Z.eqb_eq in H. }
  subst project_id. revert H.
  induction (projects d) as [|p l IH]; simpl; intros H; [discriminate|].
  destruct (p_id p =? p_id project)%Z eqn:E.
  - simpl. rewrite E. injection H as ->. eexists. repeat split; reflexivity.
  - simpl. rewrite E. now apply IH.
Qed.

Lemma complete_site_email (w : SharePointService.world) (tenant : string) (fuel : nat)
      (name descr owner : string) (sources : option (list string))
      (st : SharePointService.state) (r : SharePointService.site_result)
      (st' : SharePointService.state) :
  SharePointService.create_complete_project_site w tenant fuel name descr owner sources st
  = (SharePointService.Ret r, st') ->
  SharePointService.sharepoint_email r
  = (substring 0 64 (SharePointService.lower_alnum name) ++ "@"
     ++ SharePointService.before_dot tenant ++ ".onmicrosoft.com")%string /\
  SharePointService.mail_nickname r
  = substring 0 64 (SharePointService.lower_alnum name) /\
  SharePointService.sharepoint_site_url r
  = SharePointService.json_get "webUrl" (SharePointService.site_info r).
Proof.
  unfold SharePointService.create_complete_project_site,
    SharePointService.create_project_group. intros H.
  unfold SharePointService.bind at 1 2 3 in H. unfold SharePointService.log at 1 in H.
  destruct (SharePointService.post_group w) as [o|e];
    cbn [SharePointService.of_reply SharePointService.ret SharePointService.raise] in H;
    [|discriminate].
  destruct (SharePointService.json_get "id" o) as [group|];
    cbn [SharePointService.ret SharePointService.raise] in H; [|discriminate].
  unfold SharePointService.bind at 1 in H.
  match type of H with
  | context [SharePointService.wait_for_sharepoint_site w fuel group 10 ?s] =>
      destruct (SharePointService.wait_for_sharepoint_site w fuel group 10 s)
        as [[info|e|] st2]; try discriminate
  end.
  destruct info as [info|]; [|discriminate].
  unfold SharePointService.bind in H.
  destruct (SharePointService.create_folder_structure w group
              (SharePointService.get_default_folder_structure sources) st2)
    as [[c|e|] st3]; try discriminate.
  injection H as <- _. repeat split.
Qed.

(** X24. What a successful create-site request stores is what the
    sharepoint-info route then reports for the project: the same site URL
    (the [webUrl] of the site the directory returned), and, for a project
    whose name is an ASCII text, as e-mail address the mail nickname of
    the group (the project name reduced to its letters and digits,
    lower-cased, at most 64 characters) at the part of the tenant
    identifier before its first dot, followed by ".onmicrosoft.com";
    [has_sharepoint_site] is true exactly when that URL is a non-empty
    string. *)
Theorem site_info_after_creation (w : SharePointService.world) (e : SharePoint.env)
        (fuel : nat) (st : SharePointService.state) (project_id : Z)
        (data : option (field string)) (d : db) (project : Project)
        (r : SharePoint.created_site)
        (d' : db) (st' : SharePointService.state) :
  get_project_row d project_id = Some project ->
  ascii_only (p_name project) = true ->
  SharePoint.create_project_sharepoint_site w e fuel st project_id data d
  = (Some (Success 200 r), d', st') ->
  exists tenant info,
    SharePoint.AZURE_TENANT_ID e = Some tenant /\
    SharePointInfo.get_project_sharepoint_info d' project_id = Success 200 info /\
    SharePointInfo.i_project_id info = project_id /\
    SharePointInfo.i_project_name info = p_name project /\
    SharePointInfo.i_sharepoint_site_url info = SharePoint.cs_sharepoint_site_url r /\
    SharePointInfo.i_sharepoint_email info = Some (SharePoint.cs_sharepoint_email r) /\
    SharePoint.cs_sharepoint_email r
    = (substring 0 64 (SharePointService.lower_alnum (p_name project)) ++ "@"
       ++ SharePointService.before_dot tenant ++ ".onmicrosoft.com")%string /\
    SharePointInfo.has_sharepoint_site info
    = Py.truthy_str (SharePoint.cs_sharepoint_site_url r).
Proof.
  unfold SharePoint.create_project_sharepoint_site. intros Hp _ H. rewrite Hp in H.
  destruct (Py.truthy_str (sharepoint_site_url project)); [discriminate|].
  destruct data as [data|]; [|discriminate].
  destruct (negb (Py.truthy_str (get data))); [discriminate|].
  destruct (SharePoint.AZURE_TENANT_ID e) as [tenant|] eqn:T; [|discriminate].
  destruct (negb _); [discriminate|].
  cbn [SharePoint.str] in H.
  match type of H with
  | context [SharePointService.create_complete_project_site ?a ?b ?c ?n ?f ?g ?h ?i] =>
      destruct (SharePointService.create_complete_project_site a b c n f g h i)
        as [[sr|ex|] st1] eqn:C; try discriminate
  end.
  injection H as <- <- _.
  destruct (complete_site_email _ _ _ _ _ _ _ _ _ _ C) as (He & _ & _).
  destruct (stored_site_row d project_id project sr Hp)
    as (p' & Hp' & Hid & Hn & Hu & Hm).
  exists tenant. eexists. split; [reflexivity|].
  unfold SharePointInfo.get_project_sharepoint_info. rewrite Hp'.
  split; [reflexivity|].
  cbn [SharePointInfo.i_project_id SharePointInfo.i_project_name
       SharePointInfo.i_sharepoint_site_url SharePointInfo.i_sharepoint_email
       SharePointInfo.has_sharepoint_site SharePoint.cs_sharepoint_site_url
       SharePoint.cs_sharepoint_email].
  rewrite Hu, Hm. repeat split; assumption.
Qed.

Lemma site_info_after_creation_witness :
  get_project_row Examples.store 2 = Some Examples.cedar_flats /\
  ascii_only (p_name Examples.cedar_flats) = true /\
  exists r d' st' info,
    SharePoint.create_project_sharepoint_site Examples.ready_at_third_poll
      Examples.azure 5 Examples.start 2 (Some (Val "owner-1"%string)) Examples.store
    = (Some (Success 200 r), d', st') /\
    SharePointInfo.get_project_sharepoint_info d' 2 = Success 200 info /\
    SharePointInfo.i_sharepoint_email info
    = Some "cedarflats@contoso.onmicrosoft.com"%string /\
    SharePointInfo.has_sharepoint_site info = true.
Proof.
  split; [reflexivity|]. split; [reflexivity|].
  destruct (SharePoint.create_project_sharepoint_site Examples.ready_at_third_poll
              Examples.azure 5 Examples.start 2 (Some (Val "owner-1"%string))
              Examples.store) as [[answer d'] st'] eqn:C.
  assert (A : exists r, answer = Some (Success 200 r)).
  { vm_compute in C. injection C as <- _ _. eexists. reflexivity. }
  destruct A as [r ->].
  destruct (site_info_after_creation Examples.ready_at_third_poll Examples.azure 5
              Examples.start 2 (Some (Val "owner-1"%string)) Examples.store
              Examples.cedar_flats r d' st' eq_refl eq_refl C)
    as (tenant & info & T & I & _ & _ & Hu & Hm & He & Hh).
  exists r, d', st', info. split; [reflexivity|]. split; [exact I|].
  vm_compute in T. injection T as <-.
  vm_compute in C. injection C as <- _ _.
  split.
  - rewrite Hm. reflexivity.
  - rewrite Hh. reflexivity.
Defined.
